(** * Canvas -> Todoist sync: a shallow embedding of [sync_app.py]

    The development models the engine of [StandaloneCanvasTodoistSyncApp]:
    the selection file ([load_course_selection], [save_course_selection]),
    the Canvas queries ([get_canvas_courses],
    [get_canvas_assignments_for_courses]), the Todoist publisher
    ([create_todoist_task]) and the two guarded operations
    ([fetch_and_display_courses], [run_sync_process]).

    Python values that come from the network or from the selection file are
    dynamically typed, so they are modelled as JSON values together with the
    Python operations the program applies to them (truthiness, [dict.get],
    iteration, [len], [str], [int], [str.lower], [str.isdigit]); an operation
    applied to a value of the wrong type raises, as in Python.  Effects are
    modelled by a state-and-exception monad over a [World] that holds the
    attributes of the application object, the selection file and the
    chronological trace of everything observable (log lines, requests,
    sleeps, file writes, dialogs).

    Strings are Rocq strings, that is, sequences of 8-bit characters:
    [lower], [isdigit] and [int] are modelled on ASCII.  JSON numbers are
    integers (the program reads identifiers only). *)

From Stdlib Require Import ZArith String Ascii List Lia Bool.
From Stdlib Require Import Decimal DecimalString DecimalZ DecimalFacts.
From Stdlib Require Import Permutation Sorted.
From stdpp Require Import base gmap strings list sets.

Set Warnings "-register-all".

Local Open Scope string_scope.
Local Open Scope Z_scope.

(** ** Python strings *)

Module PyStr.

Definition is_digit (c : ascii) : bool :=
  let n := N_of_ascii c in ((48 <=? n) && (n <=? 57))%N.

Definition is_upper (c : ascii) : bool :=
  let n := N_of_ascii c in ((65 <=? n) && (n <=? 90))%N.

(** [str.isspace] on ASCII: space, [\t], [\n], [\v], [\f], [\r] and the
    separators 28..31. *)
Definition is_space (c : ascii) : bool :=
  let n := N_of_ascii c in
  ((n =? 32) || ((9 <=? n) && (n <=? 13)) || ((28 <=? n) && (n <=? 31)))%N.

Definition lower_char (c : ascii) : ascii :=
  if is_upper c then ascii_of_N (N_of_ascii c + 32) else c.

(** [s.lower()] *)
Fixpoint lower (s : string) : string :=
  match s with
  | EmptyString => EmptyString
  | String c s' => String (lower_char c) (lower s')
  end.

Fixpoint all_digits (s : string) : bool :=
  match s with
  | EmptyString => true
  | String c s' => is_digit c && all_digits s'
  end.

(** [s.isdigit()]: at least one character, and all of them digits. *)
Definition isdigit (s : string) : bool :=
  match s with
  | EmptyString => false
  | _ => all_digits s
  end.

(** [s.endswith('/')] *)
Fixpoint endswith_slash (s : string) : bool :=
  match s with
  | EmptyString => false
  | String c EmptyString => Ascii.eqb c "/"
  | String _ s' => endswith_slash s'
  end.

(** [s.replace('Z', '+00:00')] *)
Fixpoint replace_Z (s : string) : string :=
  match s with
  | EmptyString => EmptyString
  | String c s' =>
      if Ascii.eqb c "Z" then ("+00:00" ++ replace_Z s')%string
      else String c (replace_Z s')
  end.

(** [str(n)] for an integer. *)
Definition of_Z (z : Z) : string := NilZero.string_of_int (Z.to_int z).

Fixpoint lstrip (s : string) : string :=
  match s with
  | EmptyString => EmptyString
  | String c s' => if is_space c then lstrip s' else s
  end.

Fixpoint rstrip (s : string) : string :=
  match s with
  | EmptyString => EmptyString
  | String c s' =>
      match rstrip s' with
      | EmptyString => if is_space c then EmptyString else String c EmptyString
      | r => String c r
      end
  end.

(** The digits of an integer literal: decimal digits in which single
    underscores may separate two digits.  [prev] tells whether the previous
    character was a digit; the result is the literal without underscores. *)
Fixpoint literal_digits (prev : bool) (s : string) : option string :=
  match s with
  | EmptyString => if prev then Some EmptyString else None
  | String c s' =>
      if is_digit c then option_map (String c) (literal_digits true s')
      else if Ascii.eqb c "_" then
        if prev then
          match s' with
          | EmptyString => None
          | _ => literal_digits false s'
          end
        else None
      else None
  end.

Definition unsigned_literal (s : string) : option Z :=
  match literal_digits false s with
  | Some ds => option_map Z.of_uint (NilEmpty.uint_of_string ds)
  | None => None
  end.

(** [int(s)] for a string [s] in base 10; [None] stands for [ValueError]. *)
Definition to_Z (s : string) : option Z :=
  match rstrip (lstrip s) with
  | EmptyString => None
  | String c s' =>
      if Ascii.eqb c "-" then option_map Z.opp (unsigned_literal s')
      else if Ascii.eqb c "+" then unsigned_literal s'
      else unsigned_literal (String c s')
  end.

End PyStr.

(** ** JSON values and the Python operations applied to them *)

Inductive json : Type :=
| JNull
| JBool (b : bool)
| JInt (z : Z)
| JStr (s : string)
| JArr (items : list json)
| JObj (fields : list (string * json)).

(** An HTTP response, as [requests] presents it. *)
Inductive Response : Type :=
  mkResponse { status_code : Z;
               headers : list (string * string);
               body : option json (* [None]: the text is not JSON *) }.

(** The Python exception classes the program can meet. *)
Inductive PyExn : Type :=
| AttributeError
| TypeError
| ValueError
| KeyError
| IndexError
| IOError
| JSONDecodeError
| RequestException (response : option Response).

(** The outcome of evaluating an expression: a value, or an exception. *)
Inductive Result (A : Type) : Type :=
| Ok (a : A)
| Raise (e : PyExn).
Arguments Ok {A} a.
Arguments Raise {A} e.

Module Py.

(** Truth value of a Python object. *)
Definition truthy (v : json) : bool :=
  match v with
  | JNull => false
  | JBool b => b
  | JInt z => negb (z =? 0)
  | JStr s => negb (String.eqb s "")
  | JArr l => match l with [] => false | _ => true end
  | JObj d => match d with [] => false | _ => true end
  end.

(** A [dict] is an association list in insertion order. *)
Fixpoint dict_get (d : list (string * json)) (k : string) : option json :=
  match d with
  | [] => None
  | (k', v) :: d' => if String.eqb k' k then Some v else dict_get d' k
  end.

(** [d[k] = v]: an existing key keeps its position. *)
Fixpoint dict_set (d : list (string * json)) (k : string) (v : json)
  : list (string * json) :=
  match d with
  | [] => [(k, v)]
  | (k', v') :: d' =>
      if String.eqb k' k then (k', v) :: d' else (k', v') :: dict_set d' k v
  end.

(** [x.get(k, default)]; only a [dict] has [get]. *)
Definition get (x : json) (k : string) (default : json) : Result json :=
  match x with
  | JObj d => Ok (match dict_get d k with Some v => v | None => default end)
  | _ => Raise AttributeError
  end.

(** [x[k]] for a string key [k]. *)
Definition getitem (x : json) (k : string) : Result json :=
  match x with
  | JObj d => match dict_get d k with Some v => Ok v | None => Raise KeyError end
  | _ => Raise TypeError
  end.

(** [x[k] = v] *)
Definition setitem (x : json) (k : string) (v : json) : Result json :=
  match x with
  | JObj d => Ok (JObj (dict_set d k v))
  | _ => Raise TypeError
  end.

Fixpoint chars (s : string) : list json :=
  match s with
  | EmptyString => []
  | String c s' => JStr (String c EmptyString) :: chars s'
  end.

(** The elements [for v in x] visits. *)
Definition iter (x : json) : Result (list json) :=
  match x with
  | JArr l => Ok l
  | JObj d => Ok (map (fun kv => JStr (fst kv)) d)
  | JStr s => Ok (chars s)
  | _ => Raise TypeError
  end.

(** [len(x)] *)
Definition len (x : json) : Result Z :=
  match x with
  | JArr l => Ok (Z.of_nat (length l))
  | JObj d => Ok (Z.of_nat (length d))
  | JStr s => Ok (Z.of_nat (String.length s))
  | _ => Raise TypeError
  end.

(** [x[0]] *)
Definition first (x : json) : Result json :=
  match x with
  | JArr (v :: _) => Ok v
  | JArr [] => Raise IndexError
  | JStr (String c _) => Ok (JStr (String c EmptyString))
  | JStr EmptyString => Raise IndexError
  | JObj _ => Raise KeyError
  | _ => Raise TypeError
  end.

(** [x.lower()]; only a [str] has it. *)
Definition lower (x : json) : Result string :=
  match x with
  | JStr s => Ok (PyStr.lower s)
  | _ => Raise AttributeError
  end.

(** [str(x).isdigit()]: the text of [None], of a boolean, of a negative
    integer, of a list or of a dict is never made of digits only. *)
Definition str_isdigit (x : json) : bool :=
  match x with
  | JStr s => PyStr.isdigit s
  | JInt z => 0 <=? z
  | _ => false
  end.

(** [int(x)] *)
Definition int (x : json) : Result Z :=
  match x with
  | JInt z => Ok z
  | JBool b => Ok (if b then 1 else 0)
  | JStr s => match PyStr.to_Z s with Some z => Ok z | None => Raise ValueError end
  | _ => Raise TypeError
  end.

(** Whether [hash(x)] is defined: lists and dicts are unhashable. *)
Definition hashable (x : json) : bool :=
  match x with
  | JArr _ | JObj _ => false
  | _ => true
  end.

End Py.

(** ** Course identifiers

    The keys of [course_checkbox_vars] and the members of a selection are the
    hashable values Canvas gave as [course['id']].  A boolean is keyed as the
    integer it equals ([True == 1] in Python). *)

Inductive CourseKey : Type :=
| KNone
| KInt (z : Z)
| KStr (s : string).

#[global] Instance CourseKey_eq_dec : EqDecision CourseKey.
Proof. solve_decision. Defined.

#[global] Instance CourseKey_countable : Countable CourseKey.
Proof.
  refine (inj_countable'
            (fun k => match k with
                      | KNone => inl ()
                      | KInt z => inr (inl z)
                      | KStr s => inr (inr s)
                      end)
            (fun x => match x with
                      | inl _ => KNone
                      | inr (inl z) => KInt z
                      | inr (inr s) => KStr s
                      end) _).
  by intros [].
Defined.

Module Key.

(** The key under which a JSON value is stored in a dict or a set;
    [TypeError] for the unhashable ones. *)
Definition of_json (v : json) : Result CourseKey :=
  match v with
  | JNull => Ok KNone
  | JBool b => Ok (KInt (if b then 1 else 0))
  | JInt z => Ok (KInt z)
  | JStr s => Ok (KStr s)
  | _ => Raise TypeError
  end.

(** [str(course_id)], also its rendering inside an f-string. *)
Definition str (k : CourseKey) : string :=
  match k with
  | KNone => "None"
  | KInt z => PyStr.of_Z z
  | KStr s => s
  end.

End Key.

(** ** What the program emits *)

(** An f-string is kept as its template and the values put in its holes. *)
Inductive Text : Type :=
| Fmt (template : string) (args : list Text)
| TVal (v : json)
| TExn (e : PyExn)            (* [str(e)] *)
| TBody (r : Response)        (* [r.text] *).

Definition TInt (z : Z) : Text := TVal (JInt z).
Definition TStr (s : string) : Text := TVal (JStr s).
Definition Lit (s : string) : Text := Fmt s [].

(** The JSON payload of a task creation. *)
Record TaskData : Type :=
  mkTaskData { content : Text; description : Text; due_date : option string }.

Record Request : Type :=
  mkRequest { url : string;
              req_headers : list (string * string);
              json_body : option TaskData;
              timeout : Z }.

(** What the network gives back: nothing (connection error, timeout), or a
    response. *)
Inductive Answer : Type :=
| NoAnswer
| Answered (r : Response).

Inductive Duration : Type :=
| Seconds (z : Z)
| HalfSecond.

Inductive Dialog : Type :=
| showerror (title : string) (message : Text)
| showwarning (title : string) (message : Text)
| showinfo (title : string) (message : Text).

Inductive Event : Type :=
| EvLog (message : Text)
| EvGet (r : Request)
| EvPost (r : Request)
| EvSleep (d : Duration)
| EvWrite (contents : json)
| EvDialog (d : Dialog).

Record Button : Type := mkButton { text : string; enabled : bool }.

Inductive Widget : Type :=
| CTkLabel (text : string)
| CTkCheckBox (text : Text) (key : CourseKey).

(** The selection file [config.json]. *)
Inductive FileState : Type :=
| FileAbsent
| FileUnreadable            (* [open] raises [IOError] *)
| FileNotJson               (* [json.load] raises [JSONDecodeError] *)
| FileJson (contents : json).

(** ** The application object and its surroundings *)

Record World : Type :=
  mkWorld { canvas_url : string;
            canvas_api_key : string;
            todoist_api_key : string;
            is_syncing : bool;
            is_fetching_courses : bool;
            course_checkboxes : list (CourseKey * Text);
            course_checkbox_vars : list (CourseKey * bool);
            courses_scrollable_frame : list Widget;
            fetch_courses_button : Button;
            sync_button : Button;
            config_file : FileState;
            trace : list Event }.

(** What the program cannot decide: the answers of the two services, whether
    the selection file can be written, the process-wide [hash], and the
    parsing of ISO dates ([datetime.fromisoformat] followed by
    [strftime('%Y-%m-%d')]; [None] is [ValueError]).  Canvas answers a [GET]
    by its request alone; the answer of Todoist to a [POST] may also depend on
    how many [POST]s were sent before, so that a retry can be answered
    differently. *)
Record Env : Type :=
  mkEnv { canvas_get : Request -> Answer;
          todoist_post : nat -> Request -> Answer;
          disk_writable : bool;
          py_hash : json -> Z;
          iso_date : string -> option string }.

Definition set_is_syncing (b : bool) (w : World) : World :=
  mkWorld (canvas_url w) (canvas_api_key w) (todoist_api_key w) b
          (is_fetching_courses w) (course_checkboxes w)
          (course_checkbox_vars w) (courses_scrollable_frame w)
          (fetch_courses_button w) (sync_button w) (config_file w) (trace w).

Definition set_is_fetching_courses (b : bool) (w : World) : World :=
  mkWorld (canvas_url w) (canvas_api_key w) (todoist_api_key w) (is_syncing w)
          b (course_checkboxes w)
          (course_checkbox_vars w) (courses_scrollable_frame w)
          (fetch_courses_button w) (sync_button w) (config_file w) (trace w).

Definition set_course_checkboxes (d : list (CourseKey * Text)) (w : World)
  : World :=
  mkWorld (canvas_url w) (canvas_api_key w) (todoist_api_key w) (is_syncing w)
          (is_fetching_courses w) d
          (course_checkbox_vars w) (courses_scrollable_frame w)
          (fetch_courses_button w) (sync_button w) (config_file w) (trace w).

Definition set_course_checkbox_vars (d : list (CourseKey * bool)) (w : World)
  : World :=
  mkWorld (canvas_url w) (canvas_api_key w) (todoist_api_key w) (is_syncing w)
          (is_fetching_courses w) (course_checkboxes w)
          d (courses_scrollable_frame w)
          (fetch_courses_button w) (sync_button w) (config_file w) (trace w).

Definition set_courses_scrollable_frame (f : list Widget) (w : World) : World :=
  mkWorld (canvas_url w) (canvas_api_key w) (todoist_api_key w) (is_syncing w)
          (is_fetching_courses w) (course_checkboxes w)
          (course_checkbox_vars w) f
          (fetch_courses_button w) (sync_button w) (config_file w) (trace w).

Definition set_fetch_courses_button (b : Button) (w : World) : World :=
  mkWorld (canvas_url w) (canvas_api_key w) (todoist_api_key w) (is_syncing w)
          (is_fetching_courses w) (course_checkboxes w)
          (course_checkbox_vars w) (courses_scrollable_frame w)
          b (sync_button w) (config_file w) (trace w).

Definition set_sync_button (b : Button) (w : World) : World :=
  mkWorld (canvas_url w) (canvas_api_key w) (todoist_api_key w) (is_syncing w)
          (is_fetching_courses w) (course_checkboxes w)
          (course_checkbox_vars w) (courses_scrollable_frame w)
          (fetch_courses_button w) b (config_file w) (trace w).

Definition set_config_file (f : FileState) (w : World) : World :=
  mkWorld (canvas_url w) (canvas_api_key w) (todoist_api_key w) (is_syncing w)
          (is_fetching_courses w) (course_checkboxes w)
          (course_checkbox_vars w) (courses_scrollable_frame w)
          (fetch_courses_button w) (sync_button w) f (trace w).

Definition set_trace (t : list Event) (w : World) : World :=
  mkWorld (canvas_url w) (canvas_api_key w) (todoist_api_key w) (is_syncing w)
          (is_fetching_courses w) (course_checkboxes w)
          (course_checkbox_vars w) (courses_scrollable_frame w)
          (fetch_courses_button w) (sync_button w) (config_file w) t.

(** ** The monad of the program: state and exceptions *)

Definition M (A : Type) : Type := World -> Result A * World.

Definition ret {A} (a : A) : M A := fun w => (Ok a, w).

Definition raise {A} (e : PyExn) : M A := fun w => (Raise e, w).

Definition bind {A B} (m : M A) (k : A -> M B) : M B :=
  fun w => match m w with
           | (Ok a, w') => k a w'
           | (Raise e, w') => (Raise e, w')
           end.

(** A pure Python expression, which may raise. *)
Definition lift {A} (r : Result A) : M A := fun w => (r, w).

(** [try: m  except ...: h e] *)
Definition try_except {A} (m : M A) (h : PyExn -> M A) : M A :=
  fun w => match m w with
           | (Ok a, w') => (Ok a, w')
           | (Raise e, w') => h e w'
           end.

(** The outcome of [m] as a value: what a [try] block sees. *)
Definition attempt {A} (m : M A) : M (Result A) :=
  fun w => match m w with (r, w') => (Ok r, w') end.

Definition read {A} (f : World -> A) : M A := fun w => (Ok (f w), w).

Definition modify (f : World -> World) : M unit := fun w => (Ok tt, f w).

Definition emit (e : Event) : M unit :=
  modify (fun w => set_trace (trace w ++ [e]) w).

Notation "'let*' x ':=' e 'in' k" := (bind e (fun x => k))
  (at level 10, x name, e at level 100, k at level 200).
Notation "'let*' ' p ':=' e 'in' k" := (bind e (fun x => match x with p => k end))
  (at level 10, p pattern, e at level 100, k at level 200).
Notation "e ';;' k" := (bind e (fun _ => k))
  (at level 100, k at level 200, right associativity).

(** [for x in xs: body x] *)
Fixpoint for_each {A} (xs : list A) (body : A -> M unit) : M unit :=
  match xs with
  | [] => ret tt
  | x :: xs' => body x ;; for_each xs' body
  end.

(** Pure results form a monad as well. *)
Definition rbind {A B} (r : Result A) (k : A -> Result B) : Result B :=
  match r with
  | Ok a => k a
  | Raise e => Raise e
  end.

Fixpoint rmap {A B} (f : A -> Result B) (xs : list A) : Result (list B) :=
  match xs with
  | [] => Ok []
  | x :: xs' => rbind (f x) (fun y => rbind (rmap f xs') (fun ys => Ok (y :: ys)))
  end.

Fixpoint rfilter {A} (p : A -> Result bool) (xs : list A) : Result (list A) :=
  match xs with
  | [] => Ok []
  | x :: xs' =>
      rbind (p x) (fun b =>
      rbind (rfilter p xs') (fun ys => Ok (if b then x :: ys else ys)))
  end.

(** ** [list.sort(key=...)]

    Python computes every key first and then sorts stably, comparing keys
    with [<].  The stable sorted arrangement of a list is unique, so the
    insertion sort below returns what Python's sort returns. *)

Module Sort.

Fixpoint insert {A} (kx : string) (x : A) (l : list (string * A))
  : list (string * A) :=
  match l with
  | [] => [(kx, x)]
  | (ky, y) :: l' =>
      if String.ltb ky kx then (ky, y) :: insert kx x l'
      else (kx, x) :: (ky, y) :: l'
  end.

Fixpoint sort_keyed {A} (l : list (string * A)) : list (string * A) :=
  match l with
  | [] => []
  | (k, x) :: l' => insert k x (sort_keyed l')
  end.

Definition with_keys {A} (key : A -> Result string) (l : list A)
  : Result (list (string * A)) :=
  rmap (fun x => rbind (key x) (fun k => Ok (k, x))) l.

Definition sort_by {A} (key : A -> Result string) (l : list A)
  : Result (list A) :=
  rbind (with_keys key l) (fun kl => Ok (map snd (sort_keyed kl))).

End Sort.

(** ** Generic dictionary with hashable keys, in insertion order *)

Fixpoint assoc_set {V} (d : list (CourseKey * V)) (k : CourseKey) (v : V)
  : list (CourseKey * V) :=
  match d with
  | [] => [(k, v)]
  | (k', v') :: d' =>
      if bool_decide (k' = k) then (k', v) :: d' else (k', v') :: assoc_set d' k v
  end.

(** ** The program *)

Definition CONFIG_FILE : string := "config.json".

(** Truth value of a [str]. *)
Definition nonempty (s : string) : bool := negb (String.eqb s "").

(** [requests.exceptions.JSONDecodeError] derives from [RequestException]
    and from [json.JSONDecodeError]. *)
Definition is_request_exception (e : PyExn) : bool :=
  match e with
  | RequestException _ | JSONDecodeError => true
  | _ => false
  end.

(** [e.response] *)
Definition exn_response (e : PyExn) : option Response :=
  match e with
  | RequestException r => r
  | _ => None
  end.

(** [response.json()] *)
Definition response_json (r : Response) : Result json :=
  match body r with
  | Some j => Ok j
  | None => Raise JSONDecodeError
  end.

(** [response.raise_for_status()] *)
Definition raise_for_status (r : Response) : M unit :=
  if (400 <=? status_code r) && (status_code r <? 600)
  then raise (RequestException (Some r))
  else ret tt.

(** [response.headers.get(name)]: header names are case-insensitive. *)
Fixpoint header_get (hs : list (string * string)) (name : string)
  : option string :=
  match hs with
  | [] => None
  | (k, v) :: hs' =>
      if String.eqb (PyStr.lower k) (PyStr.lower name) then Some v
      else header_get hs' name
  end.

Definition is_post (e : Event) : bool :=
  match e with EvPost _ => true | _ => false end.

Definition is_network (e : Event) : bool :=
  match e with EvGet _ | EvPost _ => true | _ => false end.

Definition count_posts (t : list Event) : nat :=
  length (List.filter is_post t).

(** [self.log(message)] *)
Definition log (message : Text) : M unit := emit (EvLog message).

Definition messagebox (d : Dialog) : M unit := emit (EvDialog d).

(** [time.sleep(seconds)]; a negative length is a [ValueError]. *)
Definition time_sleep (seconds : Z) : M unit :=
  if seconds <? 0 then raise ValueError else emit (EvSleep (Seconds seconds)).

Definition bearer (api_key : string) : list (string * string) :=
  [("Authorization", ("Bearer " ++ api_key)%string)].

(** [if not canvas_base.endswith('/'): canvas_base += '/'] *)
Definition with_slash (canvas_base : string) : string :=
  if PyStr.endswith_slash canvas_base then canvas_base
  else (canvas_base ++ "/")%string.

Section Program.

Variable env : Env.

(** [requests.get(url, headers=headers, timeout=timeout)] *)
Definition requests_get (u : string) (hs : list (string * string)) (tmo : Z)
  : M Response :=
  let r := mkRequest u hs None tmo in
  emit (EvGet r) ;;
  match canvas_get env r with
  | NoAnswer => raise (RequestException None)
  | Answered resp => ret resp
  end.

(** [requests.post(url, headers=headers, json=data, timeout=timeout)] *)
Definition requests_post (r : Request) : M Response :=
  let* n := read (fun w => count_posts (trace w)) in
  emit (EvPost r) ;;
  match todoist_post env n r with
  | NoAnswer => raise (RequestException None)
  | Answered resp => ret resp
  end.

(** *** Configuration file handling *)

(** The set comprehension of [load_course_selection]. *)
Definition selected_ids_of (config_data : json) : Result (gset Z) :=
  rbind (Py.get config_data "selected_course_ids" (JArr [])) (fun selected_ids =>
  rbind (Py.iter selected_ids) (fun ids =>
  rbind (rmap Py.int (List.filter Py.str_isdigit ids)) (fun zs =>
  Ok (list_to_set zs)))).

Definition load_course_selection : M (gset Z) :=
  try_except
    (let* f := read config_file in
     match f with
     | FileAbsent =>
         log (Fmt "{} not found. No courses pre-selected." [TStr CONFIG_FILE]) ;;
         ret ∅
     | FileUnreadable => raise IOError
     | FileNotJson => raise JSONDecodeError
     | FileJson config_data => lift (selected_ids_of config_data)
     end)
    (fun e =>
       match e with
       | JSONDecodeError | IOError | ValueError =>
           log (Fmt "Error loading course selection from {}: {}"
                    [TStr CONFIG_FILE; TExn e]) ;;
           ret ∅
       | _ => raise e
       end).

(** What [json.dump] writes for a selection. *)
Definition selection_json (selected_ids : gset CourseKey) : json :=
  JObj [("selected_course_ids",
         JArr (map (fun k => JStr (Key.str k)) (elements selected_ids)))].

Definition save_course_selection (selected_ids : gset CourseKey) : M unit :=
  let contents := selection_json selected_ids in
  if disk_writable env then
    emit (EvWrite contents) ;;
    modify (set_config_file (FileJson contents)) ;;
    log (Fmt "Saved course selection to {}." [TStr CONFIG_FILE])
  else
    log (Fmt "Error saving course selection to {}: {}"
             [TStr CONFIG_FILE; TExn IOError]) ;;
    messagebox (showerror "Config Error"
                  (Fmt "Could not save course selection:\n{}" [TExn IOError])).

Definition get_selected_courses_from_gui : M (gset CourseKey) :=
  let* vars := read course_checkbox_vars in
  ret (list_to_set (map fst (List.filter snd vars))).

(** *** Canvas API interaction *)

Definition is_valid_course (c : json) : Result bool :=
  rbind (Py.get c "id" JNull) (fun i =>
  if Py.truthy i
  then rbind (Py.get c "name" JNull) (fun n => Ok (Py.truthy n))
  else Ok false).

(** [x.get('course_code', x.get('name', '')).lower()] *)
Definition course_sort_key (x : json) : Result string :=
  rbind (Py.get x "name" (JStr "")) (fun name =>
  rbind (Py.get x "course_code" name) Py.lower).

(** [x.get(k, default)] where the default is a text. *)
Definition get_text (x : json) (k : string) (default : Text) : Result Text :=
  match x with
  | JObj d => Ok (match Py.dict_get d k with Some v => TVal v | None => default end)
  | _ => Raise AttributeError
  end.

(** The message built by the [RequestException] handler of
    [get_canvas_courses]; the inner [try] catches [JSONDecodeError],
    [IndexError] and [AttributeError] only. *)
Definition courses_error_message (e : PyExn) : Result Text :=
  match exn_response e with
  | None => Ok (Fmt "Canvas API Error fetching courses: {}" [TExn e])
  | Some r =>
      let detailed :=
        rbind (response_json r) (fun j =>
        rbind (Py.get j "errors" (JArr [JObj []])) (fun errors =>
        rbind (Py.first errors) (fun first =>
        rbind (get_text first "message" (TExn e)) (fun error_detail =>
        Ok (if status_code r =? 401
            then Fmt "Canvas API Error: {} (Status: {}) - Check API Key/URL."
                     [error_detail; TInt (status_code r)]
            else Fmt "Canvas API Error: {} (Status: {})"
                     [error_detail; TInt (status_code r)]))))) in
      match detailed with
      | Raise JSONDecodeError | Raise IndexError | Raise AttributeError =>
          Ok (Fmt "Canvas API Error: {} - {}" [TInt (status_code r); TBody r])
      | other => other
      end
  end.

Definition get_canvas_courses : M (option (list json) * option Text) :=
  let* canvas_base := read canvas_url in
  let* api_key := read canvas_api_key in
  if negb (nonempty canvas_base) || negb (nonempty api_key) then
    log (Lit "Canvas URL or API Key missing.") ;;
    ret (None, Some (Lit "Canvas URL or API Key missing."))
  else
    let canvas_base := with_slash canvas_base in
    let hs := bearer api_key in
    let courses_url :=
      (canvas_base ++ "api/v1/courses?enrollment_state=active&per_page=100")%string in
    try_except
      (log (Lit "Fetching active courses from Canvas...") ;;
       let* courses_response := requests_get courses_url hs 20 in
       raise_for_status courses_response ;;
       let* courses := lift (response_json courses_response) in
       let* items := lift (Py.iter courses) in
       let* valid_courses := lift (rfilter is_valid_course items) in
       let* valid_courses := lift (Sort.sort_by course_sort_key valid_courses) in
       log (Fmt "Found {} valid active courses."
                [TInt (Z.of_nat (length valid_courses))]) ;;
       ret (Some valid_courses, None))
      (fun e =>
         if is_request_exception e then
           let* error_message := lift (courses_error_message e) in
           log error_message ;;
           ret (None, Some error_message)
         else
           log (Fmt "Unexpected error fetching courses: {}" [TExn e]) ;;
           ret (None, Some (Fmt "Unexpected error fetching courses: {}" [TExn e]))).

(** One assignment of the inner loop of the collector: [None] when it is
    skipped as submitted, the enriched record otherwise. *)
Definition is_submitted (assign : json) : Result bool :=
  rbind (Py.get assign "submission" JNull) (fun submission =>
  if Py.truthy submission then
    rbind (Py.getitem assign "submission") (fun submission =>
    rbind (Py.get submission "submitted_at" JNull) (fun submitted_at =>
    Ok (Py.truthy submitted_at)))
  else Ok false).

Definition collect_assignment (course_name : json) (assign : json)
  : M (option json) :=
  let* submitted := lift (is_submitted assign) in
  if submitted then
    let* name := lift (Py.get assign "name" JNull) in
    log (Fmt "  Skipping already submitted assignment: {}" [TVal name]) ;;
    ret None
  else
    let* assign := lift (Py.setitem assign "course_name" course_name) in
    ret (Some assign).

(** [for assign in assignments: ...], appending to [all_assignments].  The
    list is mutated in place, so what was appended before an exception stays:
    the loop returns the list together with the exception that stopped it. *)
Fixpoint collect_assignments (course_name : json) (assignments : list json)
  (all_assignments : list json) : M (list json * option PyExn) :=
  match assignments with
  | [] => ret (all_assignments, None)
  | assign :: rest =>
      let* r := attempt (collect_assignment course_name assign) in
      match r with
      | Ok None => collect_assignments course_name rest all_assignments
      | Ok (Some a) =>
          collect_assignments course_name rest (all_assignments ++ [a])
      | Raise e => ret (all_assignments, Some e)
      end
  end.

(** [course_data.get('course_code', course_data.get('name', f"Course {course_id}"))] *)
Definition course_label (course_id : CourseKey) (course_data : json)
  : Result json :=
  rbind (Py.get course_data "name"
           (JStr ("Course " ++ Key.str course_id)%string))
        (fun name => Py.get course_data "course_code" name).

Definition course_info_url (canvas_base : string) (course_id : CourseKey)
  : string :=
  (canvas_base ++ "api/v1/courses/" ++ Key.str course_id)%string.

Definition assignments_url (canvas_base : string) (course_id : CourseKey)
  : string :=
  (canvas_base ++ "api/v1/courses/" ++ Key.str course_id
     ++ "/assignments?bucket=upcoming&include[]=submission&per_page=100")%string.

(** The two requests made for one course: the label, then the assignments. *)
Definition fetch_course (canvas_base : string) (hs : list (string * string))
  (course_id : CourseKey) : M (json * list json) :=
  let* course_info_resp :=
    requests_get (course_info_url canvas_base course_id) hs 10 in
  raise_for_status course_info_resp ;;
  let* course_data := lift (response_json course_info_resp) in
  let* course_name := lift (course_label course_id course_data) in
  let* assign_response :=
    requests_get (assignments_url canvas_base course_id) hs 20 in
  raise_for_status assign_response ;;
  let* assignments := lift (response_json assign_response) in
  let* n := lift (Py.len assignments) in
  log (Fmt "  Found {} upcoming assignments for {}." [TInt n; TVal course_name]) ;;
  let* items := lift (Py.iter assignments) in
  ret (course_name, items).

(** The two [except] clauses of the loop body: log, then [continue]. *)
Definition course_failed (course_id : CourseKey) (e : PyExn) : M unit :=
  if is_request_exception e then
    match exn_response e with
    | Some r =>
        log (Fmt "Canvas API Error for course {}: {} - {}"
                 [TStr (Key.str course_id); TInt (status_code r); TBody r])
    | None =>
        log (Fmt "Canvas API Error for course {}: {}"
                 [TStr (Key.str course_id); TExn e])
    end
  else
    log (Fmt "Unexpected error fetching assignments for course {}: {}"
             [TStr (Key.str course_id); TExn e]).

Definition collect_course (canvas_base : string) (hs : list (string * string))
  (total_courses i : Z) (course_id : CourseKey) (all_assignments : list json)
  : M (list json) :=
  log (Fmt "Fetching assignments for selected course {}/{} (ID: {})..."
           [TInt (i + 1); TInt total_courses; TStr (Key.str course_id)]) ;;
  let* r := attempt (fetch_course canvas_base hs course_id) in
  match r with
  | Raise e => course_failed course_id e ;; ret all_assignments
  | Ok (course_name, assignments) =>
      let* '(all_assignments, stopped) :=
        collect_assignments course_name assignments all_assignments in
      match stopped with
      | Some e => course_failed course_id e ;; ret all_assignments
      | None => ret all_assignments
      end
  end.

(** [for i, course_id in enumerate(course_ids): ...] *)
Fixpoint collect_courses (canvas_base : string) (hs : list (string * string))
  (total_courses i : Z) (course_ids : list CourseKey)
  (all_assignments : list json) : M (list json) :=
  match course_ids with
  | [] => ret all_assignments
  | course_id :: rest =>
      let* all_assignments :=
        collect_course canvas_base hs total_courses i course_id all_assignments in
      collect_courses canvas_base hs total_courses (i + 1) rest all_assignments
  end.

Definition get_canvas_assignments_for_courses (course_ids : list CourseKey)
  : M (option (list json) * option Text) :=
  let* canvas_base := read canvas_url in
  let* api_key := read canvas_api_key in
  if negb (nonempty canvas_base) || negb (nonempty api_key) then
    log (Lit "Canvas URL or API Key missing.") ;;
    ret (None, Some (Lit "Canvas URL or API Key missing."))
  else
    match course_ids with
    | [] =>
        log (Lit "No courses selected for sync.") ;;
        ret (Some [], None)
    | _ =>
        let canvas_base := with_slash canvas_base in
        let hs := bearer api_key in
        let total_courses := Z.of_nat (length course_ids) in
        let* all_assignments :=
          collect_courses canvas_base hs total_courses 0 course_ids [] in
        log (Fmt "Total upcoming, unsubmitted assignments fetched for selected courses: {}"
                 [TInt (Z.of_nat (length all_assignments))]) ;;
        ret (Some all_assignments, None)
    end.

(** *** Todoist API interaction *)

(** The value hashed into the idempotency header:
    [assignment.get('html_url', assignment.get('id'))]. *)
Definition hash_input (assignment : json) : Result json :=
  rbind (Py.get assignment "id" JNull) (fun id =>
  Py.get assignment "html_url" id).

(** [str(hash(v))] *)
Definition str_hash (v : json) : Result string :=
  if Py.hashable v then Ok (PyStr.of_Z (py_hash env v)) else Raise TypeError.

Definition request_id (assignment : json) : Result string :=
  rbind (hash_input assignment) str_hash.

Definition task_headers (api_key : string) (rid : string)
  : list (string * string) :=
  [("Authorization", ("Bearer " ++ api_key)%string);
   ("Content-Type", "application/json");
   ("X-Request-Id", rid)].

Definition TODOIST_TASKS_URL : string := "https://api.todoist.com/rest/v2/tasks".

(** The [due_string] of a task: the [try] around the parsing catches
    [ValueError] only. *)
Definition due_string_of (assignment : json) : M (option string) :=
  let* due_at := lift (Py.get assignment "due_at" JNull) in
  if Py.truthy due_at then
    match due_at with
    | JStr s =>
        match iso_date env (PyStr.replace_Z s) with
        | Some d => ret (Some d)
        | None =>
            log (Fmt "Could not parse due date: {}" [TVal due_at]) ;;
            ret None
        end
    | _ => raise AttributeError
    end
  else ret None.

Definition task_request (api_key : string) (assignment : json) : M Request :=
  let* rid := lift (request_id assignment) in
  let* course_name := lift (get_text assignment "course_name" (Lit "Canvas")) in
  let* name := lift (get_text assignment "name" (Lit "Untitled Assignment")) in
  let* link := lift (get_text assignment "html_url" (Lit "No link available")) in
  let* due_string := due_string_of assignment in
  let task_data :=
    mkTaskData (Fmt "[{}] {}" [course_name; name]) (Fmt "Link: {}" [link])
               (match due_string with
                | Some d => if nonempty d then Some d else None
                | None => None
                end) in
  ret (mkRequest TODOIST_TASKS_URL (task_headers api_key rid) (Some task_data) 15).

(** [int(response.headers.get("Retry-After", 10))] *)
Definition retry_after_of (r : Response) : Result Z :=
  match header_get (headers r) "Retry-After" with
  | None => Ok 10
  | Some s => Py.int (JStr s)
  end.

(** The message built by the [RequestException] handler of
    [create_todoist_task]. *)
Definition task_error_message (e : PyExn) : Text :=
  match exn_response e with
  | None => Fmt "Todoist API Error: {}" [TExn e]
  | Some r =>
      if (status_code r =? 401) || (status_code r =? 403)
      then Fmt "Todoist API Error: {} (Status: {}) - Check your Todoist API Key."
               [TBody r; TInt (status_code r)]
      else Fmt "Todoist API Error: {} (Status: {})"
               [TBody r; TInt (status_code r)]
  end.

(** The result is the pair [(task, error)]; [JNull] is Python's [None], and
    an error message is never empty, so it is true when present. *)
Definition create_todoist_task (assignment : json) : M (json * option Text) :=
  let* api_key := read todoist_api_key in
  if negb (nonempty api_key) then
    log (Lit "Todoist API Key missing.") ;;
    ret (JNull, Some (Lit "Todoist API Key missing."))
  else
    let* request := task_request api_key assignment in
    try_except
      (let* response := requests_post request in
       let* response :=
         if status_code response =? 429 then
           let* retry_after := lift (retry_after_of response) in
           log (Fmt "Todoist rate limit hit. Waiting {} seconds..."
                    [TInt retry_after]) ;;
           time_sleep retry_after ;;
           requests_post request
         else ret response in
       raise_for_status response ;;
       let* name := lift (Py.get assignment "name" JNull) in
       log (Fmt "Successfully created Todoist task for: {}" [TVal name]) ;;
       let* task := lift (response_json response) in
       ret (task, None))
      (fun e =>
         if is_request_exception e then
           let error_message := task_error_message e in
           log error_message ;;
           ret (JNull, Some error_message)
         else
           log (Fmt "Unexpected error creating Todoist task: {}" [TExn e]) ;;
           ret (JNull, Some (Fmt "Unexpected error creating Todoist task: {}"
                                 [TExn e]))).

(** *** Course fetching and display *)

Definition finish_fetch_courses : M unit :=
  modify (set_is_fetching_courses false) ;;
  modify (set_fetch_courses_button (mkButton "Fetch Courses" true)).

(** The body of [for course in courses: ...]; [course_id in
    previously_selected_ids] hashes the identifier. *)
Definition display_course (previously_selected_ids : gset Z) (course : json)
  : M unit :=
  let* course_id := lift (Py.getitem course "id") in
  let* name :=
    lift (get_text course "name" (Fmt "Unnamed Course {}" [TVal course_id])) in
  let* course_display_name := lift (get_text course "course_code" name) in
  let* key := lift (Key.of_json course_id) in
  let var :=
    match key with
    | KInt z => bool_decide (z ∈ previously_selected_ids)
    | _ => false
    end in
  modify (fun w => set_course_checkbox_vars
                     (assoc_set (course_checkbox_vars w) key var) w) ;;
  modify (fun w => set_courses_scrollable_frame
                     (courses_scrollable_frame w
                        ++ [CTkCheckBox course_display_name key]) w) ;;
  modify (fun w => set_course_checkboxes
                     (assoc_set (course_checkboxes w) key course_display_name) w).

Definition fetch_and_display_courses : M unit :=
  let* fetching := read is_fetching_courses in
  if fetching then log (Lit "Already fetching courses.")
  else
    let* canvas_base := read canvas_url in
    let* api_key := read canvas_api_key in
    if negb (nonempty canvas_base) || negb (nonempty api_key) then
      messagebox (showerror "Error"
                    (Lit "Canvas URL and API Key must be configured first."))
    else
      modify (set_is_fetching_courses true) ;;
      modify (set_fetch_courses_button (mkButton "Fetching..." false)) ;;
      log (Lit "Fetching courses to display...") ;;
      let* '(courses, error) := get_canvas_courses in
      match error with
      | Some error =>
          messagebox (showerror "Fetch Error"
                        (Fmt "Failed to fetch courses from Canvas:\n{}" [error])) ;;
          log (Fmt "Course fetch failed: {}" [error]) ;;
          finish_fetch_courses
      | None =>
          modify (set_courses_scrollable_frame []) ;;
          modify (set_course_checkboxes []) ;;
          modify (set_course_checkbox_vars []) ;;
          let* previously_selected_ids := load_course_selection in
          log (Fmt "Loaded {} previously selected course IDs."
                   [TInt (Z.of_nat (size previously_selected_ids))]) ;;
          match courses with
          | None | Some [] =>
              log (Lit "No active courses found.") ;;
              modify (fun w => set_courses_scrollable_frame
                                 (courses_scrollable_frame w
                                    ++ [CTkLabel "No active courses found."]) w)
          | Some courses =>
              log (Fmt "Displaying {} courses..."
                       [TInt (Z.of_nat (length courses))]) ;;
              for_each courses (display_course previously_selected_ids) ;;
              log (Lit "Finished displaying courses. Select courses to sync.")
          end ;;
          finish_fetch_courses
      end.

(** *** Sync logic *)

Definition finish_sync : M unit :=
  modify (set_is_syncing false) ;;
  modify (set_sync_button (mkButton "Sync Now" true)).

(** [for i, assignment in enumerate(assignments): ...] with its two
    counters. *)
Fixpoint publish_all (total_assignments i : Z) (assignments : list json)
  (synced_count error_count : Z) : M (Z * Z) :=
  match assignments with
  | [] => ret (synced_count, error_count)
  | assignment :: rest =>
      let* name := lift (Py.get assignment "name" JNull) in
      let* course_name := lift (Py.get assignment "course_name" JNull) in
      log (Fmt "Processing assignment {}/{}: {} [{}]"
               [TInt (i + 1); TInt total_assignments; TVal name; TVal course_name]) ;;
      let* '(task, error) := create_todoist_task assignment in
      let* '(synced_count, error_count) :=
        match error with
        | Some error =>
            log (Fmt "  -> Failed to create task: {}" [error]) ;;
            ret (synced_count, error_count + 1)
        | None =>
            if Py.truthy task then ret (synced_count + 1, error_count)
            else ret (synced_count, error_count)
        end in
      emit (EvSleep HalfSecond) ;;
      publish_all total_assignments (i + 1) rest synced_count error_count
  end.

(** The dialog that ends a sync in which tasks were published. *)
Definition final_report (synced_count error_count : Z) : Dialog :=
  if 0 <? error_count then
    showwarning "Sync Complete with Errors"
      (Fmt "Sync finished.\nSuccessfully created: {} tasks.\nFailed: {} tasks.\nCheck log for details."
           [TInt synced_count; TInt error_count])
  else
    showinfo "Sync Complete"
      (Fmt "Sync finished successfully.\nCreated {} tasks in Todoist from selected courses."
           [TInt synced_count]).

(** The block [# --- Start Sync ---]. *)
Definition start_sync (selected_course_ids : gset CourseKey) : M unit :=
  modify (set_is_syncing true) ;;
  modify (set_sync_button (mkButton "Syncing..." false)) ;;
  log (Fmt "--- Starting Sync Process for {} selected courses ---"
           [TInt (Z.of_nat (size selected_course_ids))]).

(** The block [# --- Sync Finished ---]. *)
Definition sync_finished (synced_count error_count : Z) : M unit :=
  log (Lit "--- Sync Process Finished ---") ;;
  log (Fmt "Successfully synced: {} assignments from selected courses."
           [TInt synced_count]) ;;
  (if 0 <? error_count
   then log (Fmt "Failed to sync: {} assignments." [TInt error_count])
   else ret tt) ;;
  messagebox (final_report synced_count error_count) ;;
  finish_sync.

(** The block [# --- Create Tasks in Todoist ---] and what follows it. *)
Definition create_tasks (assignments : list json) : M unit :=
  log (Lit "Note: Duplicate checking relies on Todoist idempotency key.") ;;
  let* '(synced_count, error_count) :=
    publish_all (Z.of_nat (length assignments)) 0 assignments 0 0 in
  sync_finished synced_count error_count.

Definition run_sync_process : M unit :=
  let* syncing := read is_syncing in
  if syncing then log (Lit "Sync already in progress.")
  else
    let* canvas_base := read canvas_url in
    let* canvas_key := read canvas_api_key in
    let* todoist_key := read todoist_api_key in
    if negb (nonempty canvas_base) || negb (nonempty canvas_key)
       || negb (nonempty todoist_key) then
      messagebox (showerror "Error"
                    (Lit "Canvas URL, Canvas API Key, and Todoist API Key must be configured and saved.")) ;;
      log (Lit "Sync aborted: Missing credentials.")
    else
      let* selected_course_ids := get_selected_courses_from_gui in
      if bool_decide (selected_course_ids = ∅) then
        messagebox (showwarning "No Courses Selected"
                      (Lit "Please select at least one course in the 'Courses' tab before syncing.")) ;;
        log (Lit "Sync aborted: No courses selected.")
      else
        save_course_selection selected_course_ids ;;
        start_sync selected_course_ids ;;
        let* '(assignments, error) :=
          get_canvas_assignments_for_courses (elements selected_course_ids) in
        match error with
        | Some error =>
            messagebox (showerror "Sync Error"
                          (Fmt "Failed to get assignments from Canvas:\n{}" [error])) ;;
            finish_sync
        | None =>
            match assignments with
            | None | Some [] =>
                log (Lit "No upcoming, unsubmitted assignments found in selected Canvas courses.") ;;
                messagebox (showinfo "Sync Complete"
                              (Lit "No new assignments found in selected courses to sync.")) ;;
                finish_sync
            | Some assignments => create_tasks assignments
            end
        end.

End Program.

(** ** Vocabulary of the statements *)

(** What a [GET] followed by [raise_for_status()] and [json()] yields. *)
Definition answer_json (a : Answer) : Result json :=
  match a with
  | NoAnswer => Raise (RequestException None)
  | Answered r =>
      if (400 <=? status_code r) && (status_code r <? 600)
      then Raise (RequestException (Some r))
      else response_json r
  end.

(** What [fetch_course] returns, as a function of the answers of Canvas. *)
Definition fetched (env : Env) (canvas_base : string)
  (hs : list (string * string)) (course_id : CourseKey)
  : Result (json * list json) :=
  rbind (answer_json (canvas_get env
           (mkRequest (course_info_url canvas_base course_id) hs None 10)))
    (fun course_data =>
  rbind (course_label course_id course_data) (fun course_name =>
  rbind (answer_json (canvas_get env
           (mkRequest (assignments_url canvas_base course_id) hs None 20)))
    (fun assignments =>
  rbind (Py.len assignments) (fun _ =>
  rbind (Py.iter assignments) (fun items => Ok (course_name, items)))))).

(** What [collect_assignment] returns. *)
Definition enriched (course_name : json) (assign : json) : Result (option json) :=
  rbind (is_submitted assign) (fun submitted =>
  if submitted then rbind (Py.get assign "name" JNull) (fun _ => Ok None)
  else rbind (Py.setitem assign "course_name" course_name) (fun a => Ok (Some a))).

(** The records one course appends to the output: the unsubmitted ones,
    enriched, up to the first record on which the loop body raises. *)
Fixpoint survivors (course_name : json) (assignments : list json) : list json :=
  match assignments with
  | [] => []
  | assign :: rest =>
      match enriched course_name assign with
      | Ok None => survivors course_name rest
      | Ok (Some a) => a :: survivors course_name rest
      | Raise _ => []
      end
  end.

Definition course_output (env : Env) (canvas_base : string)
  (hs : list (string * string)) (course_id : CourseKey) : list json :=
  match fetched env canvas_base hs course_id with
  | Ok (course_name, assignments) => survivors course_name assignments
  | Raise _ => []
  end.

(** A computation that only appends events satisfying [P] to the trace. *)
Definition extends {A} (P : Event -> Prop) (m : M A) : Prop :=
  forall w, exists evs,
    snd (m w) = set_trace (trace w ++ evs) w /\ Forall P evs.

(** The events a computation appends to the trace of [w]. *)
Definition emitted {A} (m : M A) (w : World) : list Event :=
  drop (length (trace w)) (trace (snd (m w))).


(** The three outcomes of a sync, and the one an operator reads off the
    final dialog: the information dialog announces a success; the warning
    dialog shows the number of tasks created first. *)
Inductive Outcome : Type :=
| FullSuccess
| PartialSuccess
| TotalFailure.

Definition reported (d : Dialog) : option Outcome :=
  match d with
  | showinfo _ _ => Some FullSuccess
  | showwarning _ (Fmt _ (TVal (JInt created) :: _)) =>
      Some (if created =? 0 then TotalFailure else PartialSuccess)
  | _ => None
  end.

(** The outcome the three-way classification assigns to the counters of a
    run: no failure; successes and failures; no success among the attempts. *)
Definition classified (synced errors attempted : Z) (o : Outcome) : Prop :=
  match o with
  | FullSuccess => errors = 0
  | PartialSuccess => 0 < synced /\ 0 < errors
  | TotalFailure => synced = 0 /\ 0 < attempted
  end.

(** ** Sample surroundings, used by the examples *)

Module Sample.

Definition idle : World :=
  mkWorld "https://canvas.example.edu" "canvas-key" "todoist-key" false false
          [] [(KInt 101, true); (KInt 102, true); (KInt 103, false)] []
          (mkButton "Fetch Courses" true) (mkButton "Sync Now" true)
          FileAbsent [].

Definition ok (j : json) : Answer := Answered (mkResponse 200 [] (Some j)).

Definition assignment (id : Z) (name : string) (submission : json) : json :=
  JObj [("id", JInt id); ("name", JStr name);
        ("html_url", JStr ("https://canvas.example.edu/a/" ++ PyStr.of_Z id)%string);
        ("submission", submission)].

Definition submitted_on (t : string) : json := JObj [("submitted_at", JStr t)].

Definition not_submitted : json := JObj [("submitted_at", JNull)].

Definition base : string := "https://canvas.example.edu/".

(** Course 101 has two open assignments and a submitted one, course 102 has
    none, every other course is unknown. *)
Definition canvas (r : Request) : Answer :=
  if String.eqb (url r) (course_info_url base (KInt 101)) then
    ok (JObj [("id", JInt 101); ("name", JStr "Algebra"); ("course_code", JStr "MATH-101")])
  else if String.eqb (url r) (assignments_url base (KInt 101)) then
    ok (JArr [assignment 1 "Homework 1" not_submitted;
              assignment 2 "Homework 2" (submitted_on "2024-01-05T10:00:00Z");
              assignment 3 "Essay" JNull])
  else if String.eqb (url r) (course_info_url base (KInt 102)) then
    ok (JObj [("id", JInt 102); ("name", JStr "Biology")])
  else if String.eqb (url r) (assignments_url base (KInt 102)) then
    ok (JArr [])
  else if String.eqb (url r)
            (base ++ "api/v1/courses?enrollment_state=active&per_page=100")%string then
    ok (JArr [JObj [("id", JInt 102); ("name", JStr "Biology")];
              JObj [("id", JInt 7); ("name", JNull)];
              JObj [("id", JInt 101); ("name", JStr "Algebra"); ("course_code", JStr "MATH-101")];
              JObj [("id", JInt 103); ("name", JStr "art"); ("course_code", JStr "ART-1")]])
  else Answered (mkResponse 404 [] (Some (JObj [("errors", JArr [JObj [("message", JStr "not found")]])]))).

Definition created : Answer := ok (JObj [("id", JStr "task-1")]).

(** Todoist creates every task. *)
Definition env : Env :=
  mkEnv canvas (fun _ _ => created) true
        (fun v => match v with JStr s => Z.of_nat (String.length s) | JInt z => z | _ => 0 end)
        (fun s => Some (substring 0 10 s)).

End Sample.

(** A course whose only assignment carries an empty [submitted_at]. *)
Module EmptyTimestamp.

Definition quiz : json :=
  Sample.assignment 4 "Quiz" (JObj [("submitted_at", JStr "")]).

Definition canvas (r : Request) : Answer :=
  if String.eqb (url r) (course_info_url Sample.base (KInt 101)) then
    Sample.ok (JObj [("id", JInt 101); ("name", JStr "Algebra")])
  else if String.eqb (url r) (assignments_url Sample.base (KInt 101)) then
    Sample.ok (JArr [quiz])
  else NoAnswer.

Definition env : Env :=
  mkEnv canvas (fun _ _ => Sample.created) true (fun _ => 0) (fun _ => None).

End EmptyTimestamp.

(** A fetch fails when Canvas does not answer, answers with an error status,
    or answers with a text that is not JSON. *)
Definition fetch_fails (a : Answer) : Prop :=
  exists e, answer_json a = Raise e.


(** Two records for the same detail URL, and the requests that publish
    them. *)
Module SameLink.

Definition first : json := Sample.assignment 1 "Homework 1" Sample.not_submitted.


Definition request (name : string) : Request :=
  mkRequest TODOIST_TASKS_URL (task_headers "todoist-key" "30")
    (Some (mkTaskData (Fmt "[{}] {}" [Lit "Canvas"; TStr name])
             (Fmt "Link: {}" [TStr "https://canvas.example.edu/a/1"]) None))
    15.


End SameLink.

Definition is_log (e : Event) : Prop :=
  match e with EvLog _ => True | _ => False end.

(** A status for which [raise_for_status] raises. *)
Definition error_status (r : Response) : bool :=
  (400 <=? status_code r) && (status_code r <? 600).

(** Todoist limits the rate and tells when to retry with an HTTP date. *)
Module HttpDate.

Definition limited : Response :=
  mkResponse 429 [("Retry-After", "Wed, 21 Oct 2015 07:28:00 GMT")] None.

Definition env : Env :=
  mkEnv Sample.canvas
        (fun n _ => match n with O => Answered limited | _ => Sample.created end)
        true
        (fun v => match v with JStr s => Z.of_nat (String.length s) | _ => 0 end)
        (fun _ => None).

End HttpDate.

(** Todoist limits the rate once, asks for two seconds, then creates the
    task. *)
Module RetryOnce.

Definition limited : Response := mkResponse 429 [("retry-after", "2")] None.

Definition env : Env :=
  mkEnv Sample.canvas
        (fun n _ => match n with O => Answered limited | _ => Sample.created end)
        true
        (fun v => match v with JStr s => Z.of_nat (String.length s) | _ => 0 end)
        (fun _ => None).

End RetryOnce.

(** Todoist answers every task creation with status 200 and an empty
    object. *)
Module EmptyTask.

Definition env : Env :=
  mkEnv Sample.canvas (fun _ _ => Sample.ok (JObj [])) true
        (fun v => match v with JStr s => Z.of_nat (String.length s) | _ => 0 end)
        (fun _ => None).

End EmptyTask.

(** The selection file is kept and the trace is extended. *)
Definition keeps_file (w w' : World) : Prop :=
  config_file w' = config_file w /\ exists evs, trace w' = (trace w ++ evs)%list.

(** A computation that never touches the selection file. *)
Definition keeps {A} (m : M A) : Prop := forall w, keeps_file w (snd (m w)).

(** The courses checked in the window. *)
Definition checked (w : World) : gset CourseKey :=
  list_to_set (map fst (List.filter snd (course_checkbox_vars w))).

Definition credentials_complete (w : World) : bool :=
  nonempty (canvas_url w) && nonempty (canvas_api_key w)
  && nonempty (todoist_api_key w).



(** [a <= b] as [list.sort] sees it: not [b < a]. *)
Definition str_le (a b : string) : Prop := String.ltb b a = false.

Definition key_le {A} (p q : string * A) : Prop := str_le (fst p) (fst q).





(** The request that lists the courses. *)
Definition courses_request (w : World) : Request :=
  mkRequest (with_slash (canvas_url w)
               ++ "api/v1/courses?enrollment_state=active&per_page=100")%string
            (bearer (canvas_api_key w)) None 20.


(** The courses [get_canvas_courses] keeps: those whose identifier and name
    are both true. *)
Definition valid_b (c : json) : bool :=
  match is_valid_course c with
  | Ok true => true
  | _ => false
  end.


(** Worlds and surroundings for the exit paths of the two operations. *)
Module Exits.

Definition no_todoist_key : World :=
  mkWorld "https://canvas.example.edu" "canvas-key" "" false false
          [] [(KInt 101, true)] []
          (mkButton "Fetch Courses" true) (mkButton "Sync Now" true)
          FileAbsent [].

Definition nothing_checked : World :=
  set_course_checkbox_vars [(KInt 101, false)] Sample.idle.

Definition only_biology : World :=
  set_course_checkbox_vars [(KInt 102, true)] Sample.idle.

(** The selection file holds a list instead of an object. *)
Definition list_in_file : World := set_config_file (FileJson (JArr [])) Sample.idle.

(** Todoist refuses every task. *)
Definition refusing : Env :=
  mkEnv Sample.canvas
        (fun _ _ => Answered (mkResponse 403 [] None)) true
        (fun _ => 0) (fun _ => None).

(** Todoist limits the rate on the second request it receives. *)
Definition limiting_second : Env :=
  mkEnv Sample.canvas
        (fun n _ => match n with
                    | 1%nat => Answered RetryOnce.limited
                    | _ => Sample.created
                    end)
        true (fun _ => 0) (fun _ => None).

Definition three : list json :=
  [Sample.assignment 1 "Homework 1" Sample.not_submitted;
   Sample.assignment 2 "Homework 2" Sample.not_submitted;
   Sample.assignment 3 "Essay" JNull].

Definition is_sleep (e : Event) : bool :=
  match e with EvSleep (Seconds _) => true | _ => false end.

End Exits.


(** A record that [create_todoist_task] can turn into a request: its hash
    input is hashable and its due date is null, empty or a text. *)
Definition publishable (a : json) : bool :=
  match a with
  | JObj d =>
      match hash_input a with
      | Ok v => Py.hashable v
      | Raise _ => false
      end
      && match Py.dict_get d "due_at" with
         | Some (JStr _) => true
         | Some v => negb (Py.truthy v)
         | None => true
         end
  | _ => false
  end.

(** What the collector returns for the courses checked in the window. *)
Definition collected (env : Env) (w : World) : list json :=
  flat_map (course_output env (with_slash (canvas_url w)) (bearer (canvas_api_key w)))
           (elements (checked w)).


(** ** Vocabulary of the further properties *)

(** The values [for ... in] cannot iterate over. *)
Definition not_iterable (v : json) : bool :=
  match v with
  | JNull | JBool _ | JInt _ => true
  | _ => false
  end.

(** [config_data.get("selected_course_ids", [])] for a [dict]. *)
Definition stored_ids (d : list (string * json)) : json :=
  match Py.dict_get d "selected_course_ids" with
  | Some v => v
  | None => JArr []
  end.

Definition is_object (v : json) : bool :=
  match v with JObj _ => true | _ => false end.

(** What [get_canvas_courses] makes of the answer of Canvas: the valid
    courses, sorted. *)
Definition listed (a : Answer) : Result (list json) :=
  rbind (answer_json a) (fun courses =>
  rbind (Py.iter courses) (fun items =>
  rbind (rfilter is_valid_course items) (Sort.sort_by course_sort_key))).

(** What [get_canvas_courses] returns once it has sent its request. *)
Definition courses_outcome (a : Answer)
  : Result (option (list json) * option Text) :=
  match listed a with
  | Ok valid_courses => Ok (Some valid_courses, None)
  | Raise e =>
      if is_request_exception e then
        rbind (courses_error_message e) (fun error_message =>
        Ok (None, Some error_message))
      else Ok (None, Some (Fmt "Unexpected error fetching courses: {}" [TExn e]))
  end.

(** The value under ["errors"] in the body of a response, when the body is
    an object that has one. *)
Definition errors_of (r : Response) : option json :=
  match body r with
  | Some (JObj d) => Py.dict_get d "errors"
  | _ => None
  end.

(** The exception [v[0]] raises on a value that is neither a list nor a
    text: [KeyError] on a [dict], [TypeError] on [None] and on numbers. *)
Definition unsubscriptable (v : json) : option PyExn :=
  match v with
  | JObj _ => Some KeyError
  | JNull | JBool _ | JInt _ => Some TypeError
  | _ => None
  end.

(** From [w], the computation [m] reaches a world in which [I] holds, having
    appended to the trace only events that satisfy [P]. *)
Definition upholds (I : World -> Prop) (P : Event -> Prop) {A} (m : M A)
  (w : World) : Prop :=
  I (snd (m w))
  /\ exists evs, trace (snd (m w)) = (trace w ++ evs)%list /\ Forall P evs.

(** What fetching the courses leaves alone: the credentials, the state of
    the sync and the selection file. *)
Definition fetch_frame (w w' : World) : Prop :=
  canvas_url w' = canvas_url w
  /\ canvas_api_key w' = canvas_api_key w
  /\ todoist_api_key w' = todoist_api_key w
  /\ is_syncing w' = is_syncing w
  /\ sync_button w' = sync_button w
  /\ config_file w' = config_file w.

(** What a sync leaves alone: the credentials, the state of the course
    fetch and the course window. *)
Definition sync_frame (w w' : World) : Prop :=
  canvas_url w' = canvas_url w
  /\ canvas_api_key w' = canvas_api_key w
  /\ todoist_api_key w' = todoist_api_key w
  /\ is_fetching_courses w' = is_fetching_courses w
  /\ fetch_courses_button w' = fetch_courses_button w
  /\ course_checkboxes w' = course_checkboxes w
  /\ course_checkbox_vars w' = course_checkbox_vars w
  /\ courses_scrollable_frame w' = courses_scrollable_frame w.

Definition is_get (e : Event) : bool :=
  match e with EvGet _ => true | _ => false end.

Definition is_write (e : Event) : bool :=
  match e with EvWrite _ => true | _ => false end.

(** What [load_course_selection] returns, as a function of the selection
    file. *)
Definition loaded (f : FileState) : Result (gset Z) :=
  match f with
  | FileJson config_data =>
      match selected_ids_of config_data with
      | Raise JSONDecodeError | Raise IOError | Raise ValueError => Ok ∅
      | r => r
      end
  | _ => Ok ∅
  end.

(** The key of the checkbox of a course: [course['id']], hashed. *)
Definition course_key (course : json) : Result CourseKey :=
  rbind (Py.getitem course "id") Key.of_json.

(** The text of the checkbox of a course: its code, or its name when it has
    no code. *)
Definition course_display_name (course : json) : Result Text :=
  rbind (Py.getitem course "id") (fun course_id =>
  rbind (get_text course "name" (Fmt "Unnamed Course {}" [TVal course_id]))
    (fun name => get_text course "course_code" name)).

(** [course_id in previously_selected_ids] *)
Definition preselected (previously_selected_ids : gset Z) (k : CourseKey)
  : bool :=
  match k with
  | KInt z => bool_decide (z ∈ previously_selected_ids)
  | _ => false
  end.

(** The checkbox that stands for [course] in the course window. *)
Definition is_checkbox_of (course : json) (widget : Widget) : Prop :=
  exists name key,
    course_display_name course = Ok name
    /\ course_key course = Ok key
    /\ widget = CTkCheckBox name key.

(** An event that is neither a request nor a write to the selection file. *)
Definition is_local (e : Event) : Prop :=
  is_network e = false /\ is_write e = false.

(** The guard of [fetch_and_display_courses] lets the fetch start. *)
Definition fetch_starts (w : World) : bool :=
  negb (is_fetching_courses w)
  && nonempty (canvas_url w) && nonempty (canvas_api_key w).

(** Canvas answers every request with status 500 and a null ["errors"]. *)
Module NullErrors.

Definition failing : Response :=
  mkResponse 500 [] (Some (JObj [("errors", JNull)])).

Definition env : Env :=
  mkEnv (fun _ => Answered failing) (fun _ _ => NoAnswer) true
        (fun _ => 0) (fun _ => None).

End NullErrors.

(** The window of a new session, with course 101 saved in the selection
    file; the three valid courses of [Sample.canvas], as they are listed. *)
Module Saved.

Definition world : World :=
  mkWorld "https://canvas.example.edu" "canvas-key" "todoist-key" false false
          [] [] [CTkLabel "Click 'Fetch Courses' in Settings to load."]
          (mkButton "Fetch Courses" true) (mkButton "Sync Now" true)
          (FileJson (JObj [("selected_course_ids", JArr [JStr "101"])])) [].

Definition listing : list json :=
  [JObj [("id", JInt 103); ("name", JStr "art"); ("course_code", JStr "ART-1")];
   JObj [("id", JInt 102); ("name", JStr "Biology")];
   JObj [("id", JInt 101); ("name", JStr "Algebra"); ("course_code", JStr "MATH-101")]].

End Saved.

Definition dialog_title (d : Dialog) : string :=
  match d with
  | showerror title _ | showwarning title _ | showinfo title _ => title
  end.

(** The events a sync started in [w] may leave behind: log lines and
    pauses; requests to Canvas, below the base address, with the Canvas key
    and nothing else; task creations at Todoist, with the Todoist key; the
    selection of [w], written to the file; dialogs, none of them titled
    "Sync Error". *)
Definition sync_event (w : World) (e : Event) : Prop :=
  match e with
  | EvLog _ | EvSleep _ => True
  | EvGet r =>
      String.prefix (with_slash (canvas_url w)) (url r) = true
      /\ req_headers r = bearer (canvas_api_key w)
      /\ json_body r = None
  | EvPost r =>
      url r = TODOIST_TASKS_URL
      /\ exists rid, req_headers r = task_headers (todoist_api_key w) rid
  | EvWrite contents => contents = selection_json (checked w)
  | EvDialog d => dialog_title d <> "Sync Error"
  end.

(** What [run_sync_process] does with the records it collected. *)
Definition publish_collected (env : Env) (assignments : list json) : M unit :=
  match assignments with
  | [] =>
      log (Lit "No upcoming, unsubmitted assignments found in selected Canvas courses.") ;;
      messagebox (showinfo "Sync Complete"
                    (Lit "No new assignments found in selected courses to sync.")) ;;
      finish_sync
  | _ => create_tasks env assignments
  end.

(** The guard of [run_sync_process] lets the sync start. *)
Definition sync_starts (w : World) : bool :=
  negb (is_syncing w) && credentials_complete w
  && negb (bool_decide (checked w = ∅)).

(** A log line or a dialog. *)
Definition is_notice (e : Event) : Prop :=
  match e with
  | EvLog _ | EvDialog _ => True
  | _ => False
  end.

(** The selection file cannot be written. *)
Module ReadOnlyDisk.

Definition env : Env :=
  mkEnv Sample.canvas (fun _ _ => Sample.created) false
        (fun v => match v with JStr s => Z.of_nat (String.length s) | JInt z => z | _ => 0 end)
        (fun s => Some (substring 0 10 s)).

End ReadOnlyDisk.

(** Canvas does not answer. *)
Module Outage.

Definition env : Env :=
  mkEnv (fun _ => NoAnswer) (fun _ _ => Sample.created) true
        (fun _ => 0) (fun _ => None).

End Outage.

(** From [w], the computation [m] changes the trace only, and [e] is among
    the events it appends. *)
Definition emits {A} (e : Event) (m : M A) (w : World) : Prop :=
  exists evs, snd (m w) = set_trace (trace w ++ evs) w /\ In e evs.

(** The request for the details of a course. *)
Definition course_info_request (w : World) (course_id : CourseKey) : Request :=
  mkRequest (course_info_url (with_slash (canvas_url w)) course_id)
            (bearer (canvas_api_key w)) None 10.

(** The computation [m] changes the trace only, and the events it appends
    that [c] counts number between [lo] and [hi]. *)
Definition budget (c : Event -> bool) (lo hi : nat) {A} (m : M A) : Prop :=
  forall w, exists evs,
    snd (m w) = set_trace (trace w ++ evs) w
    /\ (lo <= length (List.filter c evs) <= hi)%nat.

(** A computation that always returns. *)
Definition returns {A} (m : M A) : Prop := forall w, exists a, fst (m w) = Ok a.

Definition is_pause (e : Event) : bool :=
  match e with EvSleep HalfSecond => true | _ => false end.

(** Canvas lists one assignment whose due date is a number. *)
Module NumericDueDate.

Definition essay : json :=
  JObj [("id", JInt 1); ("name", JStr "Essay"); ("due_at", JInt 20240105)].

Definition canvas (r : Request) : Answer :=
  if String.eqb (url r) (course_info_url Sample.base (KInt 101)) then
    Sample.ok (JObj [("id", JInt 101); ("name", JStr "Algebra")])
  else if String.eqb (url r) (assignments_url Sample.base (KInt 101)) then
    Sample.ok (JArr [essay])
  else NoAnswer.

Definition env : Env :=
  mkEnv canvas (fun _ _ => Sample.created) true (fun _ => 0) (fun _ => None).

End NumericDueDate.

(** Todoist answers every task creation with status 204 and no body. *)
Module NoContent.

Definition env : Env :=
  mkEnv Sample.canvas (fun _ _ => Answered (mkResponse 204 [] None)) true
        (fun v => match v with JStr s => Z.of_nat (String.length s) | _ => 0 end)
        (fun _ => None).

End NoContent.

(** Canvas lists an assignment, then a text where a record should be, then
    another assignment. *)
Module BrokenRecord.

Definition good : list json := [Sample.assignment 1 "Homework 1" JNull].

Definition rest : list json := [Sample.assignment 3 "Essay" JNull].

Definition canvas (r : Request) : Answer :=
  if String.eqb (url r) (course_info_url Sample.base (KInt 101)) then
    Sample.ok (JObj [("id", JInt 101); ("name", JStr "Algebra")])
  else if String.eqb (url r) (assignments_url Sample.base (KInt 101)) then
    Sample.ok (JArr (good ++ JStr "maintenance" :: rest))
  else NoAnswer.

Definition env : Env :=
  mkEnv canvas (fun _ _ => Sample.created) true (fun _ => 0) (fun _ => None).

End BrokenRecord.

(** ** The keyring and the credentials

    The credentials are kept by the [keyring] package, whose backend
    depends on the platform.  A backend is modelled by its three
    operations on a state of its own; an operation returns, or raises an
    exception, of which the program only uses the text. *)

Definition KEYRING_SERVICE_NAME : string := "CanvasTodoistSyncApp_Standalone".
Definition KEYRING_USER_CANVAS_URL : string := "canvas_lms_url".
Definition KEYRING_USER_CANVAS_KEY : string := "canvas_api_key".
Definition KEYRING_USER_TODOIST_KEY : string := "todoist_api_key".

(** The outcome of a call: a value, or the text of the exception raised. *)
Inductive Attempt (A : Type) : Type :=
| Done (a : A)
| Failed (message : string).
Arguments Done {A} a.
Arguments Failed {A} message.

Class Keyring (K : Type) : Type :=
  { get_password : string -> string -> K -> Attempt (option string);
    set_password : string -> string -> string -> K -> Attempt unit * K;
    delete_password : string -> string -> K -> Attempt unit * K }.

(** A backend that gives back what was stored, and keeps the entries of
    the other users when one entry is set. *)
Class LawfulKeyring (K : Type) `{Keyring K} : Prop :=
  { get_after_set : forall service user password k k',
      set_password service user password k = (Done tt, k') ->
      get_password service user k' = Done (Some password);
    get_after_set_other : forall service user password k k' user',
      set_password service user password k = (Done tt, k') ->
      user' <> user ->
      get_password service user' k' = get_password service user' k }.

(** The application object together with the keyring and the standard
    output. *)
Record Desk (K : Type) : Type :=
  mkDesk { app : World; keyring : K; stdout : list Text }.
Arguments mkDesk {K} app keyring stdout.
Arguments app {K} d.
Arguments keyring {K} d.
Arguments stdout {K} d.

Definition set_canvas_url (s : string) (w : World) : World :=
  mkWorld s (canvas_api_key w) (todoist_api_key w) (is_syncing w)
          (is_fetching_courses w) (course_checkboxes w)
          (course_checkbox_vars w) (courses_scrollable_frame w)
          (fetch_courses_button w) (sync_button w) (config_file w) (trace w).

Definition set_canvas_api_key (s : string) (w : World) : World :=
  mkWorld (canvas_url w) s (todoist_api_key w) (is_syncing w)
          (is_fetching_courses w) (course_checkboxes w)
          (course_checkbox_vars w) (courses_scrollable_frame w)
          (fetch_courses_button w) (sync_button w) (config_file w) (trace w).

Definition set_todoist_api_key (s : string) (w : World) : World :=
  mkWorld (canvas_url w) (canvas_api_key w) s (is_syncing w)
          (is_fetching_courses w) (course_checkboxes w)
          (course_checkbox_vars w) (courses_scrollable_frame w)
          (fetch_courses_button w) (sync_button w) (config_file w) (trace w).

(** The monad of the credential operations: the state is the desk, an
    exception is the text of a keyring error. *)
Definition D (K A : Type) : Type := Desk K -> Attempt A * Desk K.

Definition dret {K A} (a : A) : D K A := fun d => (Done a, d).

Definition dbind {K A B} (m : D K A) (k : A -> D K B) : D K B :=
  fun d => match m d with
           | (Done a, d') => k a d'
           | (Failed e, d') => (Failed e, d')
           end.

(** [try: m  except Exception as e: h e] *)
Definition dtry {K A} (m : D K A) (h : string -> D K A) : D K A :=
  fun d => match m d with
           | (Done a, d') => (Done a, d')
           | (Failed e, d') => h e d'
           end.

(** An operation of the application object that cannot raise: a log line,
    a dialog, the setting of a variable. *)
Definition on_app {K} (m : M unit) : D K unit :=
  fun d => (Done tt, mkDesk (snd (m (app d))) (keyring d) (stdout d)).

Definition read_app {K A} (f : World -> A) : D K A :=
  fun d => (Done (f (app d)), d).

(** [print(line)] *)
Definition print {K} (line : Text) : D K unit :=
  fun d => (Done tt, mkDesk (app d) (keyring d) (stdout d ++ [line])).

Declare Scope desk_scope.
Delimit Scope desk_scope with desk.
Notation "'let*' x ':=' e 'in' k" := (dbind e (fun x => k))
  (at level 10, x name, e at level 100, k at level 200) : desk_scope.
Notation "e ';;' k" := (dbind e (fun _ => k))
  (at level 100, k at level 200, right associativity) : desk_scope.

Section Credentials.

Context {K : Type} `{Keyring K}.

(** The answer of the operator to a yes-or-no dialog. *)
Variable askyesno : string -> string -> bool.

Definition keyring_get (user : string) : D K (option string) :=
  fun d => (get_password KEYRING_SERVICE_NAME user (keyring d), d).

Definition keyring_set (user password : string) : D K unit :=
  fun d =>
    let (r, k) := set_password KEYRING_SERVICE_NAME user password (keyring d) in
    (r, mkDesk (app d) k (stdout d)).

Definition keyring_delete (user : string) : D K unit :=
  fun d =>
    let (r, k) := delete_password KEYRING_SERVICE_NAME user (keyring d) in
    (r, mkDesk (app d) k (stdout d)).

(** [if v: var.set(v)] for what [get_password] returned. *)
Definition set_if_stored (v : option string) (set : string -> World -> World)
  : D K unit :=
  match v with
  | Some s => if nonempty s then on_app (modify (set s)) else dret tt
  | None => dret tt
  end.

Definition load_credentials : D K unit :=
  dtry
    (let* c_url := keyring_get KEYRING_USER_CANVAS_URL in
     let* c_key := keyring_get KEYRING_USER_CANVAS_KEY in
     let* t_key := keyring_get KEYRING_USER_TODOIST_KEY in
     set_if_stored c_url set_canvas_url ;;
     set_if_stored c_key set_canvas_api_key ;;
     set_if_stored t_key set_todoist_api_key)%desk
    (fun e => print (Fmt "Warning: Could not load credentials: {}" [TStr e])).

Definition save_credentials : D K unit :=
  (let* canvas_base := read_app canvas_url in
   let* canvas_key := read_app canvas_api_key in
   let* todoist_key := read_app todoist_api_key in
   if negb (nonempty canvas_base) || negb (nonempty canvas_key)
      || negb (nonempty todoist_key) then
     on_app (messagebox (showwarning "Missing Info"
               (Lit "Please enter Canvas URL, Canvas Key, and Todoist Key before saving.")))
   else
     dtry
       (keyring_set KEYRING_USER_CANVAS_URL canvas_base ;;
        keyring_set KEYRING_USER_CANVAS_KEY canvas_key ;;
        keyring_set KEYRING_USER_TODOIST_KEY todoist_key ;;
        on_app (log (Lit "Canvas/Todoist credentials saved securely.")) ;;
        on_app (messagebox (showinfo "Success"
                  (Lit "Canvas/Todoist credentials saved securely."))))
       (fun e =>
          on_app (log (Fmt "Error saving credentials: {}" [TStr e])) ;;
          on_app (messagebox (showerror "Error"
                    (Fmt "Could not save credentials securely:\n{}" [TStr e])))))%desk.

(** The operator confirms the clearing of the credentials. *)
Definition confirmed : bool :=
  askyesno "Confirm Clear"
    "Are you sure you want to clear locally stored credentials? You will need to re-enter them.".

Definition clear_local_credentials : D K unit :=
  if negb confirmed then dret tt
  else
    dtry
      (keyring_delete KEYRING_USER_CANVAS_URL ;;
       keyring_delete KEYRING_USER_CANVAS_KEY ;;
       keyring_delete KEYRING_USER_TODOIST_KEY ;;
       on_app (modify (set_canvas_url "")) ;;
       on_app (modify (set_canvas_api_key "")) ;;
       on_app (modify (set_todoist_api_key "")) ;;
       on_app (log (Lit "Cleared local credentials.")) ;;
       on_app (messagebox (showinfo "Cleared"
                 (Lit "Locally stored credentials have been cleared."))))%desk
      (fun e =>
         on_app (log (Fmt "Error clearing credentials: {}" [TStr e])) ;;
         on_app (messagebox (showerror "Error"
                   (Fmt "Could not clear credentials:\n{}" [TStr e]))))%desk.

(** The constructor of the application object: the variables, the
    credentials of the keyring, the widgets, the first log line.  The
    selection file is what the disk holds. *)
Definition __init__ (k : K) (file : FileState) : Desk K :=
  let self :=
    mkWorld "" "" "" false false [] []
            [CTkLabel "Click 'Fetch Courses' in Settings to load."]
            (mkButton "Fetch Courses" true) (mkButton "Sync Now" true)
            file [] in
  snd ((load_credentials ;;
        on_app (log (Lit "Application started. Fetch courses or enter credentials.")))%desk
         (mkDesk self k [])).

End Credentials.

(** The value of a variable after [if v: var.set(v)]. *)
Definition stored_or (v : option string) (old : string) : string :=
  match v with
  | Some s => if nonempty s then s else old
  | None => old
  end.

(** What the window shows or logs between two states of the desk. *)
Definition shown {K} (d d' : Desk K) : list Event :=
  drop (length (trace (app d))) (trace (app d')).

Definition saved_notice : Event :=
  EvDialog (showinfo "Success" (Lit "Canvas/Todoist credentials saved securely.")).

Definition cleared_notice : Event :=
  EvDialog (showinfo "Cleared" (Lit "Locally stored credentials have been cleared.")).

(** A keyring in memory: one password per service and user; deleting a
    password that is not there is an error. *)
Module Vault.

Definition t : Type := list (string * string * string).

Fixpoint lookup (service user : string) (k : t) : option string :=
  match k with
  | [] => None
  | (s, u, p) :: k' =>
      if String.eqb s service && String.eqb u user then Some p
      else lookup service user k'
  end.

Fixpoint remove (service user : string) (k : t) : t :=
  match k with
  | [] => []
  | (s, u, p) :: k' =>
      if String.eqb s service && String.eqb u user then remove service user k'
      else (s, u, p) :: remove service user k'
  end.

#[global] Instance backend : Keyring t :=
  {| get_password service user k := Done (lookup service user k);
     set_password service user password k :=
       (Done tt, (service, user, password) :: remove service user k);
     delete_password service user k :=
       match lookup service user k with
       | Some _ => (Done tt, remove service user k)
       | None => (Failed "Password not found.", k)
       end |}.

Definition empty : t := [].

Definition full : t :=
  [(KEYRING_SERVICE_NAME, KEYRING_USER_CANVAS_URL, "https://canvas.example.edu");
   (KEYRING_SERVICE_NAME, KEYRING_USER_CANVAS_KEY, "canvas-key");
   (KEYRING_SERVICE_NAME, KEYRING_USER_TODOIST_KEY, "todoist-key")].

Definition desk (k : t) : Desk t := mkDesk Sample.idle k [].

(** A window in which nothing was entered yet. *)
Definition blank : World :=
  mkWorld "" "" "" false false [] [] []
          (mkButton "Fetch Courses" true) (mkButton "Sync Now" true)
          FileAbsent [].

End Vault.

(** ** The launcher of the sync

    [sync_in_thread] starts the sync on a thread of its own.  The launcher
    is modelled by what it starts: the computation the new thread will run,
    if any.  To speak of the moment at
    which a second launch can happen, [run_sync_process] is also given in
    two parts: up to the saving of the selection, and from the block
    [# --- Start Sync ---] on. *)

Section Launchers.

Variable env : Env.

Definition sync_in_thread : M (option (M unit)) :=
  let* syncing := read is_syncing in
  if syncing then log (Lit "Sync already running.") ;; ret None
  else ret (Some (run_sync_process env)).

(** [run_sync_process] up to [self.save_course_selection(...)]: the
    selection it goes on with, or [None] when it has returned. *)
Definition sync_guard : M (option (gset CourseKey)) :=
  let* syncing := read is_syncing in
  if syncing then log (Lit "Sync already in progress.") ;; ret None
  else
    let* canvas_base := read canvas_url in
    let* canvas_key := read canvas_api_key in
    let* todoist_key := read todoist_api_key in
    if negb (nonempty canvas_base) || negb (nonempty canvas_key)
       || negb (nonempty todoist_key) then
      messagebox (showerror "Error"
                    (Lit "Canvas URL, Canvas API Key, and Todoist API Key must be configured and saved.")) ;;
      log (Lit "Sync aborted: Missing credentials.") ;;
      ret None
    else
      let* selected_course_ids := get_selected_courses_from_gui in
      if bool_decide (selected_course_ids = ∅) then
        messagebox (showwarning "No Courses Selected"
                      (Lit "Please select at least one course in the 'Courses' tab before syncing.")) ;;
        log (Lit "Sync aborted: No courses selected.") ;;
        ret None
      else
        save_course_selection env selected_course_ids ;;
        ret (Some selected_course_ids).

(** [run_sync_process] from [self.is_syncing = True] on. *)
Definition sync_run (selected_course_ids : gset CourseKey) : M unit :=
  start_sync selected_course_ids ;;
  let* '(assignments, error) :=
    get_canvas_assignments_for_courses env (elements selected_course_ids) in
  match error with
  | Some error =>
      messagebox (showerror "Sync Error"
                    (Fmt "Failed to get assignments from Canvas:\n{}" [error])) ;;
      finish_sync
  | None =>
      match assignments with
      | None | Some [] =>
          log (Lit "No upcoming, unsubmitted assignments found in selected Canvas courses.") ;;
          messagebox (showinfo "Sync Complete"
                        (Lit "No new assignments found in selected courses to sync.")) ;;
          finish_sync
      | Some assignments => create_tasks env assignments
      end
  end.

End Launchers.


(** * Properties *)

(** ** Decimal texts *)

Module PyStrFacts.
Import PyStr.

Lemma digit_not_space c : is_digit c = true -> is_space c = false.
Proof.
  unfold is_digit, is_space. cbv zeta.
  generalize (N_of_ascii c). intros n H.
  apply andb_true_iff in H as [H1 H2].
  apply N.leb_le in H1, H2.
  destruct (N.eqb_spec n 32); [lia|].
  destruct (N.leb_spec n 13); [lia|].
  destruct (N.leb_spec n 31); [lia|].
  by rewrite !andb_false_r.
Qed.

Lemma digit_not_char c (x : ascii) :
  is_digit c = true -> is_digit x = false -> Ascii.eqb c x = false.
Proof.
  intros Hc Hx. destruct (Ascii.eqb_spec c x) as [->|]; [congruence | done].
Qed.


Lemma lstrip_digits s : all_digits s = true -> lstrip s = s.
Proof.
  destruct s as [|c s]; simpl; [done|].
  intros [Hc _]%andb_true_iff. by rewrite (digit_not_space c Hc).
Qed.

Lemma rstrip_digits s : all_digits s = true -> rstrip s = s.
Proof.
  induction s as [|c s IH]; simpl; [done|].
  intros [Hc Hs]%andb_true_iff. rewrite (IH Hs).
  destruct s; [by rewrite (digit_not_space c Hc) | done].
Qed.

Lemma literal_digits_all s :
  all_digits s = true -> literal_digits true s = Some s.
Proof.
  induction s as [|c s IH]; simpl; [done|].
  intros [Hc Hs]%andb_true_iff. by rewrite Hc, (IH Hs).
Qed.

Lemma to_Z_digits c s :
  all_digits (String c s) = true ->
  to_Z (String c s)
  = option_map Z.of_uint (NilEmpty.uint_of_string (String c s)).
Proof.
  intros H. unfold to_Z.
  rewrite (lstrip_digits _ H), (rstrip_digits _ H).
  pose proof H as [Hc Hs]%andb_true_iff.
  rewrite (digit_not_char c "-" Hc eq_refl), (digit_not_char c "+" Hc eq_refl).
  unfold unsigned_literal. simpl literal_digits.
  by rewrite Hc, (literal_digits_all s Hs).
Qed.





Lemma uint_of_digit c d :
  is_digit c = true -> exists d', uint_of_char c (Some d) = Some d'.
Proof.
  destruct c as [[] [] [] [] [] [] [] []]; try discriminate; simpl; eauto.
Qed.

Lemma uint_of_digits s :
  all_digits s = true -> exists d, NilEmpty.uint_of_string s = Some d.
Proof.
  induction s as [|c s IH]; simpl; [eauto|].
  intros [Hc (d & ->)%IH]%andb_true_iff. by apply uint_of_digit.
Qed.

(** [int] accepts every text for which [isdigit] holds. *)
Lemma to_Z_isdigit s : isdigit s = true -> exists z, to_Z s = Some z /\ 0 <= z.
Proof.
  destruct s as [|c s]; [done|]. unfold isdigit. intros H.
  rewrite (to_Z_digits c s H).
  destruct (uint_of_digits _ H) as (d & ->). simpl. eexists. split; [done|].
  unfold Z.of_uint. lia.
Qed.

End PyStrFacts.

(** ** Computations that only extend the trace *)

Lemma set_trace_same w : set_trace (trace w) w = w.
Proof. by destruct w. Qed.

Lemma set_trace_twice t1 t2 w : set_trace t2 (set_trace t1 w) = set_trace t2 w.
Proof. done. Qed.

Lemma extends_weaken {A} (P Q : Event -> Prop) (m : M A) :
  (forall e, P e -> Q e) -> extends P m -> extends Q m.
Proof.
  intros HPQ Hm w. destruct (Hm w) as (evs & Hw & HP).
  exists evs. split; [done|]. eapply Forall_impl; eauto.
Qed.

Lemma extends_ret {A} P (a : A) : extends P (ret a).
Proof. intros w. exists []. simpl. by rewrite app_nil_r, set_trace_same. Qed.

Lemma extends_raise {A} P e : extends P (@raise A e).
Proof. intros w. exists []. simpl. by rewrite app_nil_r, set_trace_same. Qed.

Lemma extends_lift {A} P (r : Result A) : extends P (lift r).
Proof. intros w. exists []. simpl. by rewrite app_nil_r, set_trace_same. Qed.

Lemma extends_read {A} P (f : World -> A) : extends P (read f).
Proof. intros w. exists []. simpl. by rewrite app_nil_r, set_trace_same. Qed.

Lemma extends_emit (P : Event -> Prop) e : P e -> extends P (emit e).
Proof. intros He w. exists [e]. split; [done|]. by constructor. Qed.

Lemma extends_bind {A B} P (m : M A) (k : A -> M B) :
  extends P m -> (forall a, extends P (k a)) -> extends P (bind m k).
Proof.
  intros Hm Hk w. unfold bind.
  destruct (Hm w) as (e1 & Hw1 & HP1).
  destruct (m w) as [[a|e] w1]; simpl in Hw1; subst w1.
  - destruct (Hk a (set_trace (trace w ++ e1) w)) as (e2 & Hw2 & HP2).
    exists (e1 ++ e2)%list. split; [|by apply Forall_app].
    rewrite Hw2. simpl. by rewrite app_assoc.
  - by exists e1.
Qed.

Lemma extends_try_except {A} P (m : M A) (h : PyExn -> M A) :
  extends P m -> (forall e, extends P (h e)) -> extends P (try_except m h).
Proof.
  intros Hm Hh w. unfold try_except.
  destruct (Hm w) as (e1 & Hw1 & HP1).
  destruct (m w) as [[a|e] w1]; simpl in Hw1; subst w1.
  - by exists e1.
  - destruct (Hh e (set_trace (trace w ++ e1) w)) as (e2 & Hw2 & HP2).
    exists (e1 ++ e2)%list. split; [|by apply Forall_app].
    rewrite Hw2. simpl. by rewrite app_assoc.
Qed.

Lemma extends_attempt {A} P (m : M A) : extends P m -> extends P (attempt m).
Proof.
  intros Hm w. unfold attempt. destruct (Hm w) as (e1 & Hw1 & HP1).
  destruct (m w) as [r w1]. by exists e1.
Qed.

Lemma extends_for_each {A} P (xs : list A) (body : A -> M unit) :
  (forall x, extends P (body x)) -> extends P (for_each xs body).
Proof.
  intros Hb. induction xs as [|x xs IH]; simpl.
  - apply extends_ret.
  - apply extends_bind; [apply Hb | by intros _].
Qed.

(** What [extends] gives about one run. *)
Lemma extends_run {A} P (m : M A) w r w' :
  extends P m -> m w = (r, w') ->
  exists evs, w' = set_trace (trace w ++ evs) w /\ Forall P evs.
Proof. intros Hm E. destruct (Hm w) as (evs & Hw & HP). rewrite E in Hw. eauto. Qed.

Lemma emitted_extends {A} (m : M A) w evs :
  snd (m w) = set_trace (trace w ++ evs) w -> emitted m w = evs.
Proof. intros H. unfold emitted. rewrite H. simpl. by rewrite drop_app_length. Qed.

Ltac extends_step :=
  lazymatch goal with
  | |- extends _ (ret _) => apply extends_ret
  | |- extends _ (raise _) => apply extends_raise
  | |- extends _ (lift _) => apply extends_lift
  | |- extends _ (read _) => apply extends_read
  | |- extends _ (bind _ _) => apply extends_bind; [|intros ?]
  | |- extends _ (try_except _ _) => apply extends_try_except; [|intros ?]
  | |- extends _ (attempt _) => apply extends_attempt
  | |- extends _ (emit _) => apply extends_emit
  end.

Lemma extends_bind_ok {A B} P (m : M A) (k : A -> M B) :
  extends P m ->
  (forall a, (exists w, fst (m w) = Ok a) -> extends P (k a)) ->
  extends P (bind m k).
Proof.
  intros Hm Hk w. unfold bind.
  destruct (Hm w) as (e1 & Hw1 & HP1).
  destruct (m w) as [[a|e] w1] eqn:E; simpl in Hw1; subst w1.
  - destruct (Hk a (ex_intro _ w (f_equal fst E))
                (set_trace (trace w ++ e1) w)) as (e2 & Hw2 & HP2).
    exists (e1 ++ e2)%list. split; [|by apply Forall_app].
    rewrite Hw2. simpl. by rewrite app_assoc.
  - by exists e1.
Qed.

Ltac extends_auto :=
  repeat
    first
      [ extends_step
      | progress unfold log, messagebox
      | match goal with
        | |- extends _ (match ?x with _ => _ end) => destruct x
        | |- extends _ (if ?b then _ else _) => destruct b
        | |- extends _ (let '(_, _) := ?x in _) => destruct x
        end
      | solve [auto] ].

Section TraceFacts.

Variable env : Env.
Variable P : Event -> Prop.
Hypothesis P_log : forall m, P (EvLog m).

Lemma extends_log m : extends P (log m).
Proof. by apply extends_emit. Qed.

Lemma extends_raise_for_status r : extends P (raise_for_status r).
Proof. unfold raise_for_status. extends_auto. Qed.

Lemma extends_load_course_selection : extends P load_course_selection.
Proof. unfold load_course_selection. extends_auto. Qed.

Section Gets.

Hypothesis P_get : forall r, P (EvGet r).

Lemma extends_requests_get u hs tmo : extends P (requests_get env u hs tmo).
Proof. unfold requests_get. extends_auto. Qed.

Lemma extends_get_canvas_courses : extends P (get_canvas_courses env).
Proof.
  unfold get_canvas_courses.
  extends_auto; try apply extends_requests_get; try apply extends_raise_for_status.
Qed.

Lemma extends_collect_assignment course_name assign :
  extends P (collect_assignment course_name assign).
Proof. unfold collect_assignment. extends_auto. Qed.

Lemma extends_collect_assignments course_name assignments acc :
  extends P (collect_assignments course_name assignments acc).
Proof.
  revert acc. induction assignments as [|a rest IH]; intros acc; simpl.
  - extends_auto.
  - apply extends_bind; [apply extends_attempt, extends_collect_assignment|].
    intros [[x|]|e]; [apply IH | apply IH | extends_auto].
Qed.

Lemma extends_fetch_course canvas_base hs course_id :
  extends P (fetch_course env canvas_base hs course_id).
Proof.
  unfold fetch_course.
  extends_auto; try apply extends_requests_get; try apply extends_raise_for_status.
Qed.

Lemma extends_course_failed course_id e : extends P (course_failed course_id e).
Proof. unfold course_failed. extends_auto. Qed.

Lemma extends_collect_course canvas_base hs total i course_id acc :
  extends P (collect_course env canvas_base hs total i course_id acc).
Proof.
  unfold collect_course.
  apply extends_bind; [apply extends_log|]. intros _.
  apply extends_bind; [apply extends_attempt, extends_fetch_course|].
  intros [[course_name assignments]|e].
  - apply extends_bind; [apply extends_collect_assignments|].
    intros [acc' [e|]]; extends_auto; apply extends_course_failed.
  - extends_auto; apply extends_course_failed.
Qed.

Lemma extends_collect_courses canvas_base hs total i course_ids acc :
  extends P (collect_courses env canvas_base hs total i course_ids acc).
Proof.
  revert i acc. induction course_ids as [|c rest IH]; intros i acc; simpl.
  - extends_auto.
  - apply extends_bind; [apply extends_collect_course | intros ?; apply IH].
Qed.

Lemma extends_get_canvas_assignments_for_courses course_ids :
  extends P (get_canvas_assignments_for_courses env course_ids).
Proof.
  unfold get_canvas_assignments_for_courses.
  extends_auto; apply extends_collect_courses.
Qed.

End Gets.

End TraceFacts.

(** ** What the collector returns *)

Section CollectorFacts.

Variable env : Env.

Lemma fetch_course_result canvas_base hs course_id w :
  fst (fetch_course env canvas_base hs course_id w)
  = fetched env canvas_base hs course_id.
Proof.
  unfold fetch_course, fetched, requests_get, raise_for_status, answer_json,
    log, emit, modify, lift, read, bind, ret, raise.
  simpl.
  destruct (canvas_get env _) as [|r1]; simpl; [done|].
  destruct ((400 <=? status_code r1) && _); simpl; [done|].
  destruct (response_json r1) as [course_data|]; simpl; [|done].
  destruct (course_label _ _) as [course_name|]; simpl; [|done].
  destruct (canvas_get env _) as [|r2]; simpl; [done|].
  destruct ((400 <=? status_code r2) && _); simpl; [done|].
  destruct (response_json r2) as [assignments|]; simpl; [|done].
  destruct (Py.len assignments); simpl; [|done].
  destruct (Py.iter assignments); simpl; done.
Qed.

Lemma collect_assignment_result course_name assign w :
  fst (collect_assignment course_name assign w) = enriched course_name assign.
Proof.
  unfold collect_assignment, enriched, log, emit, modify, lift, bind, ret.
  destruct (is_submitted assign) as [[|]|]; simpl; [| |done].
  - destruct (Py.get assign "name" JNull); simpl; done.
  - destruct (Py.setitem assign "course_name" course_name); simpl; done.
Qed.

Lemma collect_assignments_result course_name assignments acc w :
  exists stopped,
    fst (collect_assignments course_name assignments acc w)
    = Ok ((acc ++ survivors course_name assignments)%list, stopped).
Proof.
  revert acc w. induction assignments as [|a rest IH]; intros acc w; simpl.
  - exists None. unfold ret. simpl. by rewrite app_nil_r.
  - unfold bind, attempt.
    pose proof (collect_assignment_result course_name a w) as Ha.
    destruct (collect_assignment course_name a w) as [r w1]. simpl in Ha.
    rewrite <- Ha. destruct r as [[x|]|e].
    + destruct (IH (acc ++ [x])%list w1) as (st & Hst). exists st.
      rewrite Hst. by rewrite <- app_assoc.
    + apply IH.
    + exists (Some e). unfold ret. simpl. by rewrite app_nil_r.
Qed.

Lemma course_failed_ok course_id e w :
  fst (course_failed course_id e w) = Ok tt.
Proof.
  unfold course_failed. destruct (is_request_exception e); [|done].
  by destruct (exn_response e).
Qed.

Lemma collect_course_result canvas_base hs total i course_id acc w :
  fst (collect_course env canvas_base hs total i course_id acc w)
  = Ok (acc ++ course_output env canvas_base hs course_id)%list.
Proof.
  unfold collect_course, course_output.
  unfold bind at 1. simpl. unfold bind at 1, attempt.
  set (w1 := set_trace _ w).
  pose proof (fetch_course_result canvas_base hs course_id w1) as Hf.
  destruct (fetch_course env canvas_base hs course_id w1) as [r w2].
  simpl in Hf. rewrite <- Hf. destruct r as [[course_name assignments]|e].
  - unfold bind at 1.
    destruct (collect_assignments_result course_name assignments acc w2)
      as (st & Hst).
    destruct (collect_assignments course_name assignments acc w2)
      as [r' w3]. simpl in Hst. subst r'.
    destruct st as [e|]; [|done].
    unfold bind. pose proof (course_failed_ok course_id e w3) as Hc.
    destruct (course_failed course_id e w3) as [r w4]. simpl in Hc. by subst r.
  - unfold bind. pose proof (course_failed_ok course_id e w2) as Hc.
    destruct (course_failed course_id e w2) as [r w4]. simpl in Hc. subst r.
    simpl. by rewrite app_nil_r.
Qed.

Lemma collect_courses_result canvas_base hs total i course_ids acc w :
  fst (collect_courses env canvas_base hs total i course_ids acc w)
  = Ok (acc ++ flat_map (course_output env canvas_base hs) course_ids)%list.
Proof.
  revert i acc w. induction course_ids as [|c rest IH]; intros i acc w; simpl.
  - unfold ret. simpl. by rewrite app_nil_r.
  - unfold bind.
    pose proof (collect_course_result canvas_base hs total i c acc w) as Hc.
    destruct (collect_course env canvas_base hs total i c acc w) as [r w1].
    simpl in Hc. subst r. rewrite IH. by rewrite <- app_assoc.
Qed.

(** With credentials, the collector returns the concatenation of what each
    course contributes, in the order of the identifiers, and no error. *)
Lemma collector_result course_ids w :
  nonempty (canvas_url w) = true ->
  nonempty (canvas_api_key w) = true ->
  fst (get_canvas_assignments_for_courses env course_ids w)
  = Ok (Some (flat_map (course_output env (with_slash (canvas_url w))
                                      (bearer (canvas_api_key w)))
                       course_ids),
        None).
Proof.
  intros Hu Hk. unfold get_canvas_assignments_for_courses, bind, read.
  rewrite Hu, Hk. change (negb true || negb true) with false. cbv beta iota.
  destruct course_ids as [|c rest]; [done|].
  pose proof (collect_courses_result (with_slash (canvas_url w))
                (bearer (canvas_api_key w))
                (Z.of_nat (length (c :: rest))) 0 (c :: rest) [] w) as Hc.
  destruct (collect_courses _ _ _ _ _ _ _ w) as [r w1].
  simpl fst in Hc. subst r. done.
Qed.

(** Without credentials, it returns the configuration error at once. *)
Lemma collector_missing_credentials course_ids w :
  nonempty (canvas_url w) && nonempty (canvas_api_key w) = false ->
  get_canvas_assignments_for_courses env course_ids w
  = (Ok (None, Some (Lit "Canvas URL or API Key missing.")),
     set_trace (trace w ++ [EvLog (Lit "Canvas URL or API Key missing.")]) w).
Proof.
  intros H. unfold get_canvas_assignments_for_courses.
  unfold bind at 1, read at 1. unfold bind at 1, read at 1.
  destruct (nonempty (canvas_url w)), (nonempty (canvas_api_key w)); done.
Qed.

End CollectorFacts.

(** ** Dictionaries *)


Lemma dict_get_set_ne d k v k' :
  k <> k' -> Py.dict_get (Py.dict_set d k v) k' = Py.dict_get d k'.
Proof.
  intros Hne. induction d as [|[k0 v0] d IH]; simpl.
  - by apply String.eqb_neq in Hne as ->.
  - destruct (String.eqb_spec k0 k) as [->|Hk]; simpl.
    + by apply String.eqb_neq in Hne as ->.
    + by rewrite IH.
Qed.


Lemma get_text_set_ne d k v k' default :
  k <> k' ->
  get_text (JObj (Py.dict_set d k v)) k' default = get_text (JObj d) k' default.
Proof. intros H. unfold get_text. by rewrite dict_get_set_ne. Qed.



(** Every record a course contributes is an unsubmitted record of that
    course with the label attached. *)
Lemma survivors_spec course_name assignments x :
  In x (survivors course_name assignments) ->
  exists assign,
    In assign assignments
    /\ is_submitted assign = Ok false
    /\ Py.setitem assign "course_name" course_name = Ok x.
Proof.
  induction assignments as [|a rest IH]; simpl; [done|].
  unfold enriched.
  destruct (is_submitted a) as [[|]|] eqn:Hs; simpl.
  - destruct (Py.get a "name" JNull); simpl; [|done].
    intros (b & ? & ?)%IH. eauto.
  - destruct (Py.setitem a "course_name" course_name) as [a'|] eqn:Ha;
      simpl; [|done].
    intros [<-|(b & ? & ?)%IH]; eauto.
  - done.
Qed.

Lemma extends_mono {A} P (m : M A) w e :
  extends P m -> In e (trace w) -> In e (trace (snd (m w))).
Proof.
  intros Hm He. destruct (Hm w) as (evs & -> & _). simpl.
  apply in_or_app. by left.
Qed.

(** ** The collector *)

(** C8: for an empty selection the collector returns the empty list and no
    error, and does nothing but write one log line: no request is sent. *)
Theorem collect_empty_selection env w :
  nonempty (canvas_url w) = true ->
  nonempty (canvas_api_key w) = true ->
  get_canvas_assignments_for_courses env (elements (∅ : gset CourseKey)) w
  = (Ok (Some [], None),
     set_trace (trace w ++ [EvLog (Lit "No courses selected for sync.")]) w)
  /\ emitted (get_canvas_assignments_for_courses env []) w
     = [EvLog (Lit "No courses selected for sync.")]
  /\ List.filter is_network
       (emitted (get_canvas_assignments_for_courses env []) w) = [].
Proof.
  intros Hu Hk. rewrite elements_empty.
  assert (get_canvas_assignments_for_courses env [] w
          = (Ok (Some [], None),
             set_trace (trace w ++ [EvLog (Lit "No courses selected for sync.")]) w))
    as E.
  { unfold get_canvas_assignments_for_courses, bind, read.
    rewrite Hu, Hk. done. }
  split; [done|].
  rewrite (emitted_extends _ w [EvLog (Lit "No courses selected for sync.")])
    by (by rewrite E).
  done.
Qed.

Lemma collect_empty_selection_witness :
  fst (get_canvas_assignments_for_courses Sample.env [] Sample.idle)
  = Ok (Some [], None).
Proof.
  pose proof (collect_empty_selection Sample.env Sample.idle eq_refl eq_refl)
    as (H & _).
  rewrite elements_empty in H. by rewrite H.
Defined.

Section CollectorProperties.

Variable env : Env.

Lemma fetch_fails_fetched canvas_base hs c :
  fetch_fails (canvas_get env (mkRequest (course_info_url canvas_base c) hs None 10))
  \/ fetch_fails (canvas_get env (mkRequest (assignments_url canvas_base c) hs None 20)) ->
  course_output env canvas_base hs c = [].
Proof.
  unfold course_output, fetched. intros [[e He]|[e He]]; rewrite He; simpl.
  - done.
  - clear He. destruct (answer_json _) as [course_data|]; simpl; [|done].
    by destruct (course_label c course_data).
Qed.

Lemma collect_course_ok canvas_base hs total i c acc w :
  exists acc',
    fst (collect_course env canvas_base hs total i c acc w) = Ok acc'.
Proof. rewrite collect_course_result. eauto. Qed.

Lemma collect_course_gets canvas_base hs total i c acc w :
  In (EvGet (mkRequest (course_info_url canvas_base c) hs None 10))
     (trace (snd (collect_course env canvas_base hs total i c acc w))).
Proof.
  set (P := fun _ : Event => True).
  assert (forall e, P e) as HP by done.
  unfold collect_course. unfold bind at 1, log at 1. simpl.
  set (w1 := set_trace _ w).
  unfold bind at 1, attempt.
  assert (In (EvGet (mkRequest (course_info_url canvas_base c) hs None 10))
             (trace (snd (fetch_course env canvas_base hs c w1)))) as Hin.
  { unfold fetch_course. unfold bind at 1, requests_get at 1.
    unfold bind at 1, emit at 1. simpl.
    set (w2 := set_trace _ w1).
    assert (In (EvGet (mkRequest (course_info_url canvas_base c) hs None 10))
               (trace w2)) as H2.
    { simpl. apply in_or_app. right. by left. }
    destruct (canvas_get env _) as [|resp]; simpl; [done|].
    match goal with
    | |- In _ (trace (snd (?k w2))) =>
        apply (extends_mono P k w2); [|done]
    end.
    extends_auto; first [apply extends_requests_get | apply extends_raise_for_status];
      done. }
  destruct (fetch_course env canvas_base hs c w1) as [[[n items]|e] w3];
    simpl in Hin.
  - match goal with
    | |- In _ (trace (snd (?k w3))) => apply (extends_mono P k w3); [|done]
    end.
    apply extends_bind; [by apply extends_collect_assignments|].
    intros [acc' [e|]]; extends_auto; by apply extends_course_failed.
  - match goal with
    | |- In _ (trace (snd (?k w3))) => apply (extends_mono P k w3); [|done]
    end.
    extends_auto; by apply extends_course_failed.
Qed.

(** The loop visits every requested course, whatever happened before. *)
Lemma collect_courses_gets canvas_base hs total i course_ids acc w c :
  In c course_ids ->
  In (EvGet (mkRequest (course_info_url canvas_base c) hs None 10))
     (trace (snd (collect_courses env canvas_base hs total i course_ids acc w))).
Proof.
  revert i acc w. induction course_ids as [|c0 rest IH]; intros i acc w; [done|].
  intros Hin. simpl. unfold bind.
  pose proof (collect_course_gets canvas_base hs total i c0 acc w) as Hget.
  destruct (collect_course_ok canvas_base hs total i c0 acc w) as (acc' & Hok).
  destruct (collect_course env canvas_base hs total i c0 acc w) as [r w1].
  simpl in Hok, Hget. subst r.
  destruct Hin as [<-|Hin]; [|by apply IH].
  apply (extends_mono (fun _ => True)); [|done].
  by apply extends_collect_courses.
Qed.

End CollectorProperties.

Lemma collector_visits env course_ids w c :
  nonempty (canvas_url w) = true ->
  nonempty (canvas_api_key w) = true ->
  In c course_ids ->
  In (EvGet (mkRequest (course_info_url (with_slash (canvas_url w)) c)
                       (bearer (canvas_api_key w)) None 10))
     (trace (snd (get_canvas_assignments_for_courses env course_ids w))).
Proof.
  intros Hu Hk Hin. unfold get_canvas_assignments_for_courses, bind, read.
  rewrite Hu, Hk. change (negb true || negb true) with false. cbv beta iota.
  destruct course_ids as [|c0 rest]; [done|].
  pose proof (collect_courses_gets env (with_slash (canvas_url w))
                (bearer (canvas_api_key w))
                (Z.of_nat (length (c0 :: rest))) 0 (c0 :: rest) [] w c Hin) as Hg.
  destruct (collect_courses _ _ _ _ _ _ _ w) as [[all|e] w1]; simpl in Hg |- *;
    [|done].
  apply in_or_app. by left.
Qed.

(** C3: when the label fetch or the assignment fetch of one course fails,
    the collector still returns, without error, what every other requested
    course contributes, in the order of the request; every requested course
    is visited; and the only error the collector ever returns is the one for
    missing credentials. *)
Theorem collector_failure_isolation env w before c after :
  nonempty (canvas_url w) = true ->
  nonempty (canvas_api_key w) = true ->
  fetch_fails (canvas_get env
     (mkRequest (course_info_url (with_slash (canvas_url w)) c)
                (bearer (canvas_api_key w)) None 10))
  \/ fetch_fails (canvas_get env
     (mkRequest (assignments_url (with_slash (canvas_url w)) c)
                (bearer (canvas_api_key w)) None 20)) ->
  fst (get_canvas_assignments_for_courses env (before ++ c :: after) w)
  = Ok (Some (flat_map (course_output env (with_slash (canvas_url w))
                                      (bearer (canvas_api_key w))) before
              ++ flat_map (course_output env (with_slash (canvas_url w))
                                         (bearer (canvas_api_key w))) after)%list,
        None)
  /\ (forall c', In c' (before ++ c :: after) ->
        In (EvGet (mkRequest (course_info_url (with_slash (canvas_url w)) c')
                             (bearer (canvas_api_key w)) None 10))
           (trace (snd (get_canvas_assignments_for_courses env
                          (before ++ c :: after) w))))
  /\ (forall ids w0, exists out error,
        fst (get_canvas_assignments_for_courses env ids w0) = Ok (out, error)
        /\ (error <> None
            <-> nonempty (canvas_url w0) && nonempty (canvas_api_key w0) = false)).
Proof.
  intros Hu Hk Hfail. split; [|split].
  - rewrite collector_result by done.
    rewrite flat_map_app. simpl.
    by rewrite (fetch_fails_fetched env _ _ c Hfail).
  - intros c' Hin. by apply collector_visits.
  - intros ids w0.
    destruct (nonempty (canvas_url w0) && nonempty (canvas_api_key w0)) eqn:E.
    + apply andb_true_iff in E as [E1 E2].
      eexists _, None. rewrite collector_result by done. split; [done|].
      split; [done | discriminate].
    + eexists None, (Some _). rewrite collector_missing_credentials by done.
      split; [done|]. split; [done | discriminate].
Qed.


Lemma collector_failure_isolation_witness :
  fst (get_canvas_assignments_for_courses Sample.env
         ([KInt 101] ++ KInt 5 :: [KInt 102]) Sample.idle)
  = Ok (Some (flat_map (course_output Sample.env Sample.base
                          (bearer "canvas-key")) [KInt 101]
              ++ flat_map (course_output Sample.env Sample.base
                             (bearer "canvas-key")) [KInt 102])%list,
        None).
Proof.
  assert (fetch_fails (canvas_get Sample.env
            (mkRequest (course_info_url (with_slash (canvas_url Sample.idle)) (KInt 5))
                       (bearer (canvas_api_key Sample.idle)) None 10))) as Hfail.
  { eexists. vm_compute. reflexivity. }
  pose proof (collector_failure_isolation Sample.env Sample.idle
                [KInt 101] (KInt 5) [KInt 102] eq_refl eq_refl (or_introl Hfail))
    as [H _].
  exact H.
Defined.



(** ** The selection file *)







(** ** The publisher *)

Section PublisherFacts.

Variable env : Env.

Lemma header_get_request_id api_key rid :
  header_get (task_headers api_key rid) "X-Request-Id" = Some rid.
Proof. reflexivity. Qed.

(** Every request built for an assignment carries the text of the hash of
    its [hash_input] as idempotency header. *)
Lemma task_request_ok api_key assignment w r :
  fst (task_request env api_key assignment w) = Ok r ->
  exists rid task_data,
    request_id env assignment = Ok rid
    /\ r = mkRequest TODOIST_TASKS_URL (task_headers api_key rid)
                     (Some task_data) 15.
Proof.
  unfold task_request, bind, lift.
  destruct (request_id env assignment) as [rid|]; [|done].
  destruct (get_text assignment "course_name" _); [|done].
  destruct (get_text assignment "name" _); [|done].
  destruct (get_text assignment "html_url" _); [|done].
  destruct (due_string_of env assignment w) as [[due|] w1]; [|done].
  simpl. intros [= <-]. eauto.
Qed.

Section Posts.

Variable P : Event -> Prop.
Hypothesis P_log : forall m, P (EvLog m).
Hypothesis P_sleep : forall d, P (EvSleep d).

Lemma extends_due_string_of assignment : extends P (due_string_of env assignment).
Proof. unfold due_string_of. extends_auto. Qed.

Lemma extends_task_request api_key assignment :
  extends P (task_request env api_key assignment).
Proof.
  unfold task_request. extends_auto. apply extends_due_string_of.
Qed.

Lemma extends_requests_post r : P (EvPost r) -> extends P (requests_post env r).
Proof. intros HP. unfold requests_post. extends_auto. Qed.

Lemma extends_time_sleep z : extends P (time_sleep z).
Proof. unfold time_sleep. extends_auto. Qed.

Lemma extends_create_todoist_task assignment :
  (forall r rid,
     request_id env assignment = Ok rid ->
     header_get (req_headers r) "X-Request-Id" = Some rid ->
     P (EvPost r)) ->
  extends P (create_todoist_task env assignment).
Proof.
  intros P_post. unfold create_todoist_task.
  apply extends_bind; [apply extends_read|]. intros api_key.
  destruct (negb (nonempty api_key)); [extends_auto|].
  apply extends_bind_ok; [apply extends_task_request|].
  intros r [w (rid & td & Hrid & ->)%task_request_ok].
  assert (P (EvPost (mkRequest TODOIST_TASKS_URL (task_headers api_key rid)
                               (Some td) 15))) as HP.
  { by apply (P_post _ rid). }
  extends_auto;
    first [by apply extends_requests_post | apply extends_time_sleep
          | by apply extends_raise_for_status].
Qed.

End Posts.


End PublisherFacts.



Lemma count_posts_app t1 t2 :
  count_posts (t1 ++ t2) = (count_posts t1 + count_posts t2)%nat.
Proof. unfold count_posts. by rewrite List.filter_app, length_app. Qed.




(** ** The run controller *)

Lemma bind_ok {A B} (m : M A) (k : A -> M B) w b w' :
  bind m k w = (Ok b, w') ->
  exists a w1, m w = (Ok a, w1) /\ k a w1 = (Ok b, w').
Proof.
  unfold bind. destruct (m w) as [[a|e] w1]; [eauto | done].
Qed.

Section ControllerFacts.

Variable env : Env.

Lemma extends_publish_all total i assignments synced errors :
  extends (fun _ => True) (publish_all env total i assignments synced errors).
Proof.
  revert i synced errors.
  induction assignments as [|a rest IH]; intros i synced errors; simpl.
  - extends_auto.
  - apply extends_bind; [extends_auto|]. intros name.
    apply extends_bind; [extends_auto|]. intros course_name.
    apply extends_bind; [extends_auto|]. intros _.
    apply extends_bind; [by apply extends_create_todoist_task|].
    intros [task [error|]].
    + apply extends_bind; [extends_auto|]. intros [s e].
      apply extends_bind; [extends_auto | intros _; apply IH].
    + apply extends_bind; [extends_auto|]. intros [s e].
      apply extends_bind; [extends_auto | intros _; apply IH].
Qed.

(** The counters only grow, and by at most one item per assignment. *)
Lemma publish_all_counts total i assignments synced errors w synced' errors' w' :
  publish_all env total i assignments synced errors w
  = (Ok (synced', errors'), w') ->
  synced <= synced' /\ errors <= errors'
  /\ (synced' - synced) + (errors' - errors) <= Z.of_nat (length assignments).
Proof.
  revert i synced errors w.
  induction assignments as [|a rest IH]; intros i synced errors w; simpl.
  - intros [= <- <-]. lia.
  - intros (name & w1 & _ & H)%bind_ok.
    apply bind_ok in H as (course_name & w2 & _ & H).
    apply bind_ok in H as (? & w3 & _ & H).
    apply bind_ok in H as ([task error] & w4 & _ & H).
    apply bind_ok in H as ([s e] & w5 & Hstep & H).
    apply bind_ok in H as (? & w6 & _ & H).
    apply IH in H.
    assert (synced <= s /\ errors <= e /\ (s - synced) + (e - errors) <= 1)
      as Hone.
    { destruct error as [error|].
      - apply bind_ok in Hstep as (? & ? & _ & [= <- <-]). lia.
      - destruct (Py.truthy task); injection Hstep as <- <-; lia. }
    lia.
Qed.

Lemma sync_finished_run synced errors w :
  exists logs,
    sync_finished synced errors w
    = (Ok tt,
       set_sync_button (mkButton "Sync Now" true)
         (set_is_syncing false
            (set_trace ((trace w ++ logs)
                          ++ [EvDialog (final_report synced errors)]) w)))
    /\ Forall is_log logs.
Proof.
  unfold sync_finished, finish_sync, messagebox, log, emit, modify, bind, ret.
  destruct (0 <? errors); simpl.
  - eexists [_; _; _].
    split; [by rewrite <- !app_assoc | by repeat constructor].
  - eexists [_; _].
    split; [by rewrite <- !app_assoc | by repeat constructor].
Qed.

End ControllerFacts.

(** What the operator reads off the final dialog, from the counters. *)
Lemma reported_final_report synced errors :
  0 <= synced -> 0 <= errors ->
  reported (final_report synced errors)
  = Some (if errors =? 0 then FullSuccess
          else if synced =? 0 then TotalFailure else PartialSuccess).
Proof.
  intros Hs He. unfold final_report.
  destruct (Z.ltb_spec 0 errors), (Z.eqb_spec errors 0); try lia; done.
Qed.

(** A run of [create_tasks] that returns: the counters, then the report. *)
Lemma create_tasks_run env assignments w w' :
  create_tasks env assignments w = (Ok tt, w') ->
  exists synced errors w2,
    publish_all env (Z.of_nat (length assignments)) 0 assignments 0 0
      (set_trace (trace w ++ [EvLog (Lit "Note: Duplicate checking relies on Todoist idempotency key.")]) w)
    = (Ok (synced, errors), w2)
    /\ sync_finished synced errors w2 = (Ok tt, w').
Proof.
  unfold create_tasks. intros (? & w1 & Hlog & H)%bind_ok.
  injection Hlog as _ <-.
  apply bind_ok in H as ([synced errors] & w2 & Hpub & Hfin). eauto.
Qed.

(** C6 (amended): a sync that published and completed ends with a dialog
    built from the two counters, which count at most one item per attempt:
    an information dialog exactly when nothing failed, and otherwise a
    warning showing both counters, which reads as a partial success exactly
    when both counters are positive and as a total failure exactly when
    nothing succeeded and something failed. *)
Theorem final_report_outcome env assignments w w' :
  create_tasks env assignments w = (Ok tt, w') ->
  exists synced errors,
    fst (publish_all env (Z.of_nat (length assignments)) 0 assignments 0 0
           (set_trace (trace w ++ [EvLog (Lit "Note: Duplicate checking relies on Todoist idempotency key.")]) w))
    = Ok (synced, errors)
    /\ 0 <= synced /\ 0 <= errors
    /\ synced + errors <= Z.of_nat (length assignments)
    /\ last (trace w') = Some (EvDialog (final_report synced errors))
    /\ is_syncing w' = false
    /\ (reported (final_report synced errors) = Some FullSuccess
        <-> errors = 0)
    /\ (reported (final_report synced errors) = Some PartialSuccess
        <-> 0 < synced /\ 0 < errors)
    /\ (reported (final_report synced errors) = Some TotalFailure
        <-> synced = 0 /\ 0 < errors).
Proof.
  intros (synced & errors & w2 & Hpub & Hfin)%create_tasks_run.
  exists synced, errors. rewrite Hpub.
  destruct (publish_all_counts env _ _ _ _ _ _ _ _ _ Hpub) as (Hs & He & Hle).
  destruct (sync_finished_run synced errors w2) as (logs & Hrun & _).
  rewrite Hrun in Hfin. injection Hfin as <-.
  rewrite (reported_final_report synced errors Hs He).
  repeat split; try done; try lia.
  - simpl. apply last_snoc.
  - destruct (Z.eqb_spec errors 0); [done|].
    by destruct (synced =? 0).
  - by intros ->.
  - destruct (Z.eqb_spec errors 0); [done|].
    destruct (Z.eqb_spec synced 0); [done|lia].
  - destruct (Z.eqb_spec errors 0); [done|lia].
  - intros [? ?].
    destruct (Z.eqb_spec errors 0); [lia|].
    destruct (Z.eqb_spec synced 0); [lia|done].
  - destruct (Z.eqb_spec errors 0); [done|].
    destruct (Z.eqb_spec synced 0); [done|done].
  - destruct (Z.eqb_spec errors 0); [done|lia].
  - intros [-> ?].
    destruct (Z.eqb_spec errors 0); [lia|done].
Qed.

Lemma final_report_outcome_witness :
  exists synced errors,
    last (trace (snd (create_tasks Sample.env [SameLink.first] Sample.idle)))
    = Some (EvDialog (final_report synced errors))
    /\ (reported (final_report synced errors) = Some FullSuccess <-> errors = 0).
Proof.
  assert (create_tasks Sample.env [SameLink.first] Sample.idle
          = (Ok tt, snd (create_tasks Sample.env [SameLink.first] Sample.idle)))
    as Hrun.
  { vm_compute. reflexivity. }
  destruct (final_report_outcome Sample.env [SameLink.first] Sample.idle _ Hrun)
    as (synced & errors & _ & _ & _ & _ & Hlast & _ & Hfull & _).
  exists synced, errors. split; [exact Hlast | exact Hfull].
Defined.

(** C6, as stated, fails: when Todoist answers every creation with an empty
    object, nothing is counted as created and nothing as failed; two
    publishes were attempted and none succeeded, which the three-way
    classification calls a total failure, yet the final dialog announces a
    success. *)
Lemma empty_tasks_are_reported_as_success :
  exists w',
    run_sync_process EmptyTask.env Sample.idle = (Ok tt, w')
    /\ count_posts (trace w') = 2%nat
    /\ In (EvLog (Fmt "Successfully synced: {} assignments from selected courses."
                      [TInt 0])) (trace w')
    /\ last (trace w') = Some (EvDialog (final_report 0 0))
    /\ classified 0 0 2 TotalFailure
    /\ reported (final_report 0 0) = Some FullSuccess.
Proof.
  eexists. split; [vm_compute; reflexivity|].
  split; [vm_compute; reflexivity|].
  split; [vm_compute; repeat (first [left; reflexivity | right])|].
  split; [vm_compute; reflexivity|].
  split; [split; [reflexivity | lia] | reflexivity].
Qed.

(** ** Computations that keep the selection file *)

Lemma keeps_file_refl w : keeps_file w w.
Proof. split; [done|]. exists []. by rewrite app_nil_r. Qed.

Lemma keeps_file_trans w1 w2 w3 :
  keeps_file w1 w2 -> keeps_file w2 w3 -> keeps_file w1 w3.
Proof.
  intros [H1 (e1 & Ht1)] [H2 (e2 & Ht2)]. split; [congruence|].
  exists (e1 ++ e2)%list. by rewrite Ht2, Ht1, app_assoc.
Qed.

Lemma keeps_ret {A} (a : A) : keeps (ret a).
Proof. intros w. apply keeps_file_refl. Qed.

Lemma keeps_of_extends {A} P (m : M A) : extends P m -> keeps m.
Proof. intros Hm w. destruct (Hm w) as (evs & -> & _). split; [done|]. by exists evs. Qed.

Lemma keeps_emit e : keeps (emit e).
Proof. apply (keeps_of_extends (fun _ => True)). by apply extends_emit. Qed.

Lemma keeps_modify (f : World -> World) :
  (forall w, config_file (f w) = config_file w) ->
  (forall w, trace (f w) = trace w) ->
  keeps (modify f).
Proof.
  intros H1 H2 w. split; [apply H1|]. exists []. simpl. by rewrite H2, app_nil_r.
Qed.

Lemma keeps_bind {A B} (m : M A) (k : A -> M B) :
  keeps m -> (forall a, keeps (k a)) -> keeps (bind m k).
Proof.
  intros Hm Hk w. unfold bind. pose proof (Hm w) as H1.
  destruct (m w) as [[a|e] w1]; simpl in H1; [|done].
  eapply keeps_file_trans; [exact H1 | apply Hk].
Qed.

Ltac keeps_auto :=
  repeat
    first
      [ lazymatch goal with
        | |- keeps (ret _) => apply keeps_ret
        | |- keeps (bind _ _) => apply keeps_bind; [|intros ?]
        | |- keeps (log _) => apply keeps_emit
        | |- keeps (messagebox _) => apply keeps_emit
        | |- keeps (emit _) => apply keeps_emit
        | |- keeps (modify _) => apply keeps_modify; done
        | |- keeps (match ?x with _ => _ end) => destruct x
        | |- keeps (if ?b then _ else _) => destruct b
        end ].

Lemma bind_read {A B} (f : World -> A) (k : A -> M B) w :
  bind (read f) k w = k (f w) w.
Proof. done. Qed.

Lemma save_course_selection_ok env selected w :
  fst (save_course_selection env selected w) = Ok tt.
Proof. unfold save_course_selection. by destruct (disk_writable env). Qed.

Section SyncFacts.

Variable env : Env.

Lemma keeps_finish_sync : keeps finish_sync.
Proof. unfold finish_sync. keeps_auto. Qed.

Lemma keeps_start_sync selected : keeps (start_sync selected).
Proof. unfold start_sync. keeps_auto. Qed.

Lemma keeps_create_tasks assignments : keeps (create_tasks env assignments).
Proof.
  unfold create_tasks, sync_finished.
  keeps_auto; try apply keeps_finish_sync.
  eapply keeps_of_extends, extends_publish_all.
Qed.

End SyncFacts.

Lemma bind_save_course_selection {B} env selected (k : unit -> M B) w :
  bind (save_course_selection env selected) k w
  = k tt (snd (save_course_selection env selected w)).
Proof.
  unfold bind. pose proof (save_course_selection_ok env selected w) as Hok.
  destruct (save_course_selection env selected w) as [r w1].
  simpl in Hok. by subst r.
Qed.

(** The part of a sync that follows the saving of the selection. *)
Lemma run_sync_process_saves env w :
  is_syncing w = false ->
  credentials_complete w = true ->
  checked w <> ∅ ->
  exists rest : M unit,
    keeps rest
    /\ run_sync_process env w
       = bind (save_course_selection env (checked w)) (fun _ => rest) w.
Proof.
  intros Hidle Hcred Hsel. unfold credentials_complete in Hcred.
  apply andb_true_iff in Hcred as [[Hu Hk]%andb_true_iff Ht].
  unfold run_sync_process.
  rewrite bind_read, Hidle. rewrite !bind_read, Hu, Hk, Ht.
  change (negb true || negb true || negb true) with false. cbv beta iota.
  unfold get_selected_courses_from_gui.
  unfold bind at 1. rewrite bind_read. unfold ret at 1.
  change (list_to_set (map fst (List.filter snd (course_checkbox_vars w))))
    with (checked w).
  rewrite bool_decide_eq_false_2 by done.
  eexists. split; [|reflexivity].
  apply keeps_bind; [apply keeps_start_sync|]. intros _.
  apply keeps_bind.
  { eapply keeps_of_extends.
    by apply (extends_get_canvas_assignments_for_courses env (fun _ => True)). }
  intros [assignments [error|]].
  - keeps_auto. apply keeps_finish_sync.
  - destruct assignments as [[|a l]|].
    + keeps_auto. apply keeps_finish_sync.
    + apply keeps_create_tasks.
    + keeps_auto. apply keeps_finish_sync.
Qed.

(** C7: a sync with complete credentials and a non-empty selection begins by
    saving the selection: the events of [save_course_selection] -- none of
    them a request -- are the first of the run, everything else comes after
    them, and nothing later touches the file, whatever the outcome of the
    run; when the file can be written it holds the selection from then on. *)
Theorem selection_saved_before_network env w :
  is_syncing w = false ->
  credentials_complete w = true ->
  checked w <> ∅ ->
  (exists rest,
      trace (snd (run_sync_process env w))
      = (trace (snd (save_course_selection env (checked w) w)) ++ rest)%list)
  /\ List.filter is_network (emitted (save_course_selection env (checked w)) w) = []
  /\ config_file (snd (run_sync_process env w))
     = config_file (snd (save_course_selection env (checked w) w))
  /\ (disk_writable env = true ->
      emitted (save_course_selection env (checked w)) w
      = [EvWrite (selection_json (checked w));
         EvLog (Fmt "Saved course selection to {}." [TStr CONFIG_FILE])]
      /\ config_file (snd (run_sync_process env w))
         = FileJson (selection_json (checked w))).
Proof.
  intros Hidle Hcred Hsel.
  destruct (run_sync_process_saves env w Hidle Hcred Hsel) as (rest & Hrest & ->).
  rewrite bind_save_course_selection.
  destruct (Hrest (snd (save_course_selection env (checked w) w)))
    as [Hfile Htrace].
  split; [exact Htrace|]. split; [|split; [exact Hfile|]].
  - unfold emitted, save_course_selection.
    destruct (disk_writable env); simpl;
      by rewrite <- app_assoc, drop_app_length.
  - intros Hwr. rewrite Hfile.
    unfold emitted, save_course_selection. rewrite Hwr. simpl.
    rewrite <- app_assoc. by rewrite drop_app_length.
Qed.

Lemma selection_saved_before_network_witness :
  config_file (snd (run_sync_process Sample.env Sample.idle))
  = FileJson (JObj [("selected_course_ids", JArr [JStr "101"; JStr "102"])]).
Proof.
  assert (checked Sample.idle <> ∅) as Hsel.
  { intros H. assert (KInt 101 ∈ checked Sample.idle) as Hin.
    { unfold checked. apply elem_of_list_to_set. simpl. left. }
    rewrite H in Hin. by apply not_elem_of_empty in Hin. }
  destruct (selection_saved_before_network Sample.env Sample.idle
              eq_refl eq_refl Hsel) as (_ & _ & _ & Hfile).
  destruct (Hfile eq_refl) as [_ ->]. vm_compute. reflexivity.
Defined.

(** ** The in-flight flags *)








(** ** The order of strings *)

Module StrOrder.

Lemma ascii_lt_trans a b c :
  Ascii.compare a b = Lt -> Ascii.compare b c = Lt -> Ascii.compare a c = Lt.
Proof.
  unfold Ascii.compare. rewrite !N.compare_lt_iff. apply N.lt_trans.
Qed.

Lemma lt_trans a b c :
  String.compare a b = Lt -> String.compare b c = Lt -> String.compare a c = Lt.
Proof.
  revert b c. induction a as [|x a IH]; intros [|y b] [|z c]; simpl; try done.
  destruct (Ascii.compare x y) eqn:Hxy; [| |done].
  - apply Ascii.compare_eq_iff in Hxy as ->.
    destruct (Ascii.compare y z); [apply IH | done | done].
  - intros _. destruct (Ascii.compare y z) eqn:Hyz; [| |done].
    + apply Ascii.compare_eq_iff in Hyz as <-. by rewrite Hxy.
    + by rewrite (ascii_lt_trans x y z Hxy Hyz).
Qed.

Lemma compare_refl a : String.compare a a = Eq.
Proof.
  pose proof (String.compare_antisym a a) as H.
  by destruct (String.compare a a).
Qed.

Lemma ltb_irrefl a : String.ltb a a = false.
Proof. unfold String.ltb. by rewrite compare_refl. Qed.



End StrOrder.

(** ** The stable sort *)

Section SortFacts.

Context {A : Type}.

Implicit Types (l : list (string * A)) (k : string) (x : A).

Lemma insert_perm k x l : Permutation (Sort.insert k x l) ((k, x) :: l).
Proof.
  induction l as [|[ky y] l IH]; simpl; [done|].
  destruct (String.ltb ky k); [|done].
  rewrite IH. apply perm_swap.
Qed.

Lemma sort_keyed_perm l : Permutation (Sort.sort_keyed l) l.
Proof.
  induction l as [|[k x] l IH]; simpl; [done|].
  rewrite insert_perm. by constructor.
Qed.





(** A list has one stable sorted arrangement only: whatever stable sort
    Python runs, it returns what [Sort.sort_keyed] returns. *)
Lemma stable_sorted_unique l1 l2 :
  Permutation l1 l2 ->
  StronglySorted key_le l1 ->
  StronglySorted key_le l2 ->
  (forall k0, List.filter (fun p => String.eqb k0 (fst p)) l1
              = List.filter (fun p => String.eqb k0 (fst p)) l2) ->
  l1 = l2.
Proof.
  revert l2. induction l1 as [|p l1 IH]; intros l2 Hperm Hs1 Hs2 Hst.
  - by apply Permutation_nil in Hperm.
  - destruct l2 as [|q l2]; [by apply Permutation_sym, Permutation_nil in Hperm|].
    apply StronglySorted_inv in Hs1 as [Hs1 Hp].
    apply StronglySorted_inv in Hs2 as [Hs2 Hq].
    rewrite List.Forall_forall in Hp, Hq.
    assert (fst p = fst q) as Hk.
    { assert (key_le p q) as Hpq.
      { assert (In q (p :: l1)) as [->|Hin]
          by (eapply Permutation_in; [symmetry; exact Hperm | by left]).
        - unfold key_le, str_le. apply StrOrder.ltb_irrefl.
        - by apply Hp. }
      assert (key_le q p) as Hqp.
      { assert (In p (q :: l2)) as [->|Hin]
          by (eapply Permutation_in; [exact Hperm | by left]).
        - unfold key_le, str_le. apply StrOrder.ltb_irrefl.
        - by apply Hq. }
      unfold key_le, str_le, String.ltb in Hpq, Hqp.
      rewrite (String.compare_antisym (fst p) (fst q)) in Hqp.
      destruct (String.compare (fst q) (fst p)) eqn:E; try done.
      symmetry. by apply String.compare_eq_iff. }
    pose proof (Hst (fst p)) as Hhead. simpl in Hhead.
    rewrite <- Hk, String.eqb_refl in Hhead.
    injection Hhead as -> Htail.
    f_equal. apply IH; [by eapply Permutation_cons_inv | done | done |].
    intros k0. specialize (Hst k0). simpl in Hst.
    destruct (String.eqb k0 (fst q)); [by injection Hst | done].
Qed.

End SortFacts.

(** ** The course lister *)

Lemma is_valid_course_raise c e : is_valid_course c = Raise e -> e = AttributeError.
Proof.
  destruct c; simpl; try (by intros [= <-]).
  unfold is_valid_course. simpl. by destruct (Py.truthy _).
Qed.

Lemma course_sort_key_raise c e : course_sort_key c = Raise e -> e = AttributeError.
Proof.
  destruct c; simpl; try (by intros [= <-]).
  unfold course_sort_key. simpl.
  match goal with |- Py.lower ?v = _ -> _ => destruct v end;
    simpl; by intros [= <-].
Qed.

Lemma rfilter_ok raw out :
  rfilter is_valid_course raw = Ok out -> out = List.filter valid_b raw.
Proof.
  revert out. induction raw as [|c raw IH]; simpl; intros out.
  - by intros [= <-].
  - unfold valid_b at 1. destruct (is_valid_course c) as [b|]; simpl; [|done].
    destruct (rfilter is_valid_course raw) as [ys|]; simpl; [|done].
    intros [= <-]. rewrite (IH ys eq_refl). by destruct b.
Qed.

Lemma rfilter_raise raw e :
  rfilter is_valid_course raw = Raise e ->
  e = AttributeError /\ exists c, In c raw /\ is_valid_course c = Raise AttributeError.
Proof.
  induction raw as [|c raw IH]; simpl; [done|].
  destruct (is_valid_course c) as [b|e'] eqn:Hc; simpl.
  - destruct (rfilter is_valid_course raw) as [ys|e'']; simpl; [done|].
    intros [= <-]. destruct (IH eq_refl) as (-> & c' & ? & ?). eauto.
  - intros [= <-]. apply is_valid_course_raise in Hc as Hc'. subst e'. eauto.
Qed.

Lemma with_keys_ok l kl :
  Sort.with_keys course_sort_key l = Ok kl ->
  map snd kl = l /\ Forall (fun p => course_sort_key (snd p) = Ok (fst p)) kl.
Proof.
  unfold Sort.with_keys.
  revert kl. induction l as [|c l IH]; simpl; intros kl.
  - intros [= <-]. by split.
  - destruct (course_sort_key c) as [k|] eqn:Hk; simpl; [|done].
    destruct (rmap _ l) as [kl'|]; simpl; [|done].
    intros [= <-]. destruct (IH kl' eq_refl) as [Hm Hf].
    simpl. split; [by rewrite Hm | by constructor].
Qed.

Lemma with_keys_raise l e :
  Sort.with_keys course_sort_key l = Raise e ->
  e = AttributeError /\ exists c, In c l /\ course_sort_key c = Raise AttributeError.
Proof.
  unfold Sort.with_keys.
  induction l as [|c l IH]; simpl; [done|].
  destruct (course_sort_key c) as [k|e'] eqn:Hk; simpl.
  - destruct (rmap _ l) as [kl'|e'']; simpl; [done|].
    intros [= <-]. destruct (IH eq_refl) as (-> & c' & ? & ?). eauto.
  - intros [= <-]. apply course_sort_key_raise in Hk as Hk'. subst e'. eauto.
Qed.








(** ** The exit paths, run *)

(** Early exit: incomplete credentials give one dialog and one log line, no
    request, and the flag stays clear. *)
Example sync_without_credentials :
  run_sync_process Sample.env Exits.no_todoist_key
  = (Ok tt,
     set_trace
       [EvDialog (showerror "Error"
          (Lit "Canvas URL, Canvas API Key, and Todoist API Key must be configured and saved."));
        EvLog (Lit "Sync aborted: Missing credentials.")]
       Exits.no_todoist_key).
Proof. reflexivity. Qed.

Example sync_without_selection :
  is_syncing (snd (run_sync_process Sample.env Exits.nothing_checked)) = false
  /\ List.filter is_network
       (trace (snd (run_sync_process Sample.env Exits.nothing_checked))) = [].
Proof. split; vm_compute; reflexivity. Qed.

(** Empty result: nothing to publish is reported as such. *)
Example sync_with_nothing_to_do :
  fst (run_sync_process Sample.env Exits.only_biology) = Ok tt
  /\ is_syncing (snd (run_sync_process Sample.env Exits.only_biology)) = false
  /\ last (trace (snd (run_sync_process Sample.env Exits.only_biology)))
     = Some (EvDialog (showinfo "Sync Complete"
               (Lit "No new assignments found in selected courses to sync."))).
Proof. repeat split; vm_compute; reflexivity. Qed.

(** Success, and total failure. *)
Example sync_succeeds :
  fst (run_sync_process Sample.env Sample.idle) = Ok tt
  /\ last (trace (snd (run_sync_process Sample.env Sample.idle)))
     = Some (EvDialog (final_report 2 0)).
Proof. split; vm_compute; reflexivity. Qed.

Example sync_fails :
  fst (run_sync_process Exits.refusing Sample.idle) = Ok tt
  /\ is_syncing (snd (run_sync_process Exits.refusing Sample.idle)) = false
  /\ last (trace (snd (run_sync_process Exits.refusing Sample.idle)))
     = Some (EvDialog (final_report 0 2))
  /\ reported (final_report 0 2) = Some TotalFailure.
Proof. repeat split; vm_compute; reflexivity. Qed.

(** Three assignments, the second one rate-limited once: three tasks, no
    failure, and one sleep of two seconds besides the pauses between items. *)
Example publish_three_with_one_retry :
  fst (publish_all Exits.limiting_second 3 0 Exits.three 0 0 Sample.idle)
  = Ok (3, 0)
  /\ List.filter Exits.is_sleep
       (trace (snd (publish_all Exits.limiting_second 3 0 Exits.three 0 0
                      Sample.idle)))
     = [EvSleep (Seconds 2)]
  /\ count_posts
       (trace (snd (publish_all Exits.limiting_second 3 0 Exits.three 0 0
                      Sample.idle))) = 4%nat.
Proof. repeat split; vm_compute; reflexivity. Qed.

(** The collector on the selection {101, 102}: two records, enriched. *)
Example collect_two_courses :
  fst (get_canvas_assignments_for_courses Sample.env [KInt 101; KInt 102]
         Sample.idle)
  = Ok (Some [JObj [("id", JInt 1); ("name", JStr "Homework 1");
                    ("html_url", JStr "https://canvas.example.edu/a/1");
                    ("submission", JObj [("submitted_at", JNull)]);
                    ("course_name", JStr "MATH-101")];
              JObj [("id", JInt 3); ("name", JStr "Essay");
                    ("html_url", JStr "https://canvas.example.edu/a/3");
                    ("submission", JNull);
                    ("course_name", JStr "MATH-101")]],
        None).
Proof. vm_compute. reflexivity. Qed.

(** What "returns" leaves out: an exception that no handler catches ends the
    operation without a return, and the flag stays set.  Here the selection
    file holds a list, on which [config_data.get] raises [AttributeError]. *)
Example fetch_with_list_in_file :
  fst (fetch_and_display_courses Sample.env Exits.list_in_file)
  = Raise AttributeError
  /\ is_fetching_courses
       (snd (fetch_and_display_courses Sample.env Exits.list_in_file)) = true.
Proof. split; vm_compute; reflexivity. Qed.

(** ** Python's [int], [str] and [lower], run *)

Example to_Z_samples :
  map PyStr.to_Z ["42"; " 7 "; "-3"; "+5"; "1_000"; "007"; ""; "1__0"; "_1";
                  "1_"; "1.5"; "Wed, 21 Oct 2015 07:28:00 GMT"; "- 3"]
  = [Some 42; Some 7; Some (-3); Some 5; Some 1000; Some 7; None; None; None;
     None; None; None; None].
Proof. reflexivity. Qed.

Example of_Z_samples :
  map PyStr.of_Z [0; 7; 101; -12] = ["0"; "7"; "101"; "-12"].
Proof. reflexivity. Qed.

Example lower_sample : PyStr.lower "CS-101 Intro" = "cs-101 intro".
Proof. reflexivity. Qed.

(** ** When a sync returns *)

Section Returns.

Variable env : Env.

Lemma due_string_of_returns d w :
  match Py.dict_get d "due_at" with
  | Some (JStr _) => true
  | Some v => negb (Py.truthy v)
  | None => true
  end = true ->
  exists due w', due_string_of env (JObj d) w = (Ok due, w').
Proof.
  unfold due_string_of, bind, lift. simpl.
  destruct (Py.dict_get d "due_at") as [v|]; simpl; [|eauto].
  destruct (Py.truthy v) eqn:Hv; [|eauto].
  destruct v; try done. intros _.
  destruct (iso_date env _); simpl; eauto.
Qed.

Lemma task_request_returns api_key a w :
  publishable a = true ->
  exists r w', task_request env api_key a w = (Ok r, w').
Proof.
  destruct a as [| | | | |d]; try done. unfold publishable.
  intros [Hh Hdue]%andb_true_iff.
  unfold task_request, request_id, bind, lift.
  destruct (hash_input (JObj d)) as [v|]; [|done].
  unfold rbind, str_hash. rewrite Hh. simpl get_text. cbv beta iota.
  destruct (due_string_of_returns d w Hdue) as (due & w' & ->). eauto.
Qed.

Lemma create_todoist_task_returns a w :
  publishable a = true ->
  exists res w', create_todoist_task env a w = (Ok res, w').
Proof.
  intros Hp. unfold create_todoist_task. rewrite bind_read.
  destruct (negb (nonempty (todoist_api_key w))); [by eauto|].
  unfold bind at 1.
  destruct (task_request_returns (todoist_api_key w) a w Hp) as (r & w1 & ->).
  unfold try_except.
  match goal with |- context [?body w1] => destruct (body w1) as [[res|e] w2] end;
    [eauto|].
  destruct (is_request_exception e); by eauto.
Qed.

Lemma publish_all_returns total i assignments synced errors w :
  Forall (fun a => publishable a = true) assignments ->
  exists synced' errors' w',
    publish_all env total i assignments synced errors w
    = (Ok (synced', errors'), w').
Proof.
  intros Hall. revert i synced errors w.
  induction Hall as [|a rest Ha _ IH]; intros i synced errors w; simpl.
  - by eauto.
  - destruct a as [| | | | |d]; try done.
    unfold bind at 1, lift at 1. simpl Py.get. cbv beta iota.
    unfold bind at 1, lift at 1. simpl Py.get. cbv beta iota.
    unfold bind at 1, log at 1, emit at 1, modify at 1. cbv beta iota.
    unfold bind at 1.
    match goal with
    | |- context [create_todoist_task env ?a ?w1] =>
        destruct (create_todoist_task_returns a w1 Ha) as ([task error] & w2 & ->)
    end.
    destruct error as [error|]; simpl.
    + apply IH.
    + destruct (Py.truthy task); simpl; apply IH.
Qed.

(** A sync returns whenever every record it collects is publishable. *)
Lemma run_sync_process_returns w :
  Forall (fun a => publishable a = true) (collected env w) ->
  exists w', run_sync_process env w = (Ok tt, w').
Proof.
  intros Hall. unfold run_sync_process. rewrite bind_read.
  destruct (is_syncing w); [by eauto|]. rewrite !bind_read.
  destruct (nonempty (canvas_url w)) eqn:Hu; [|by eauto].
  destruct (nonempty (canvas_api_key w)) eqn:Hk; [|by eauto].
  destruct (nonempty (todoist_api_key w)) eqn:Ht; [|by eauto].
  change (negb true || negb true || negb true) with false. cbv beta iota.
  unfold get_selected_courses_from_gui.
  unfold bind at 1. rewrite bind_read. unfold ret at 1.
  change (list_to_set (map fst (List.filter snd (course_checkbox_vars w))))
    with (checked w).
  destruct (bool_decide _); [by eauto|].
  rewrite bind_save_course_selection.
  set (w1 := snd (save_course_selection env (checked w) w)).
  assert (canvas_url w1 = canvas_url w /\ canvas_api_key w1 = canvas_api_key w)
    as [Hu1 Hk1].
  { unfold w1, save_course_selection. by destruct (disk_writable env). }
  unfold bind at 1, start_sync at 1. simpl.
  set (w2 := set_trace _ _).
  unfold bind at 1.
  pose proof (collector_result env (elements (checked w)) w2) as Hcol.
  simpl in Hcol. rewrite Hu1, Hk1 in Hcol. specialize (Hcol Hu Hk).
  fold (collected env w) in Hcol.
  destruct (get_canvas_assignments_for_courses env (elements (checked w)) w2)
    as [r w3]. simpl in Hcol. subst r.
  destruct (collected env w) as [|a l] eqn:Hc; [by eauto|].
  unfold create_tasks. unfold bind at 1, log at 1, emit at 1, modify at 1.
  cbv beta iota. unfold bind at 1.
  match goal with
  | |- context [publish_all env ?t ?i ?l ?s ?e ?w4] =>
      destruct (publish_all_returns t i l s e w4 Hall)
        as (synced & errors & w5 & ->)
  end.
  destruct (sync_finished_run synced errors w5) as (logs & -> & _). eauto.
Qed.

End Returns.

(** ** The base address of Canvas *)

Lemma endswith_slash_app s : PyStr.endswith_slash (s ++ "/") = true.
Proof.
  induction s as [|c s IH]; [done|].
  simpl. destruct (s ++ "/")%string eqn:E; [by destruct s|]. done.
Qed.

(** X1: the base address the two Canvas queries build on always ends with a
    slash, normalising twice changes nothing, and an address given without
    its final slash leads to the same requests as the address given with
    it. *)
Theorem canvas_base_trailing_slash s c :
  PyStr.endswith_slash (with_slash s) = true
  /\ with_slash (with_slash s) = with_slash s
  /\ (PyStr.endswith_slash s = false ->
      with_slash (s ++ "/") = with_slash s
      /\ course_info_url (with_slash (s ++ "/")) c
         = course_info_url (with_slash s) c
      /\ assignments_url (with_slash (s ++ "/")) c
         = assignments_url (with_slash s) c).
Proof.
  assert (PyStr.endswith_slash (with_slash s) = true) as H1.
  { unfold with_slash. destruct (PyStr.endswith_slash s) eqn:E; [done|].
    apply endswith_slash_app. }
  split; [done|]. split.
  - unfold with_slash at 1. by rewrite H1.
  - intros Hs.
    assert (with_slash (s ++ "/") = with_slash s) as ->; [|done].
    unfold with_slash. by rewrite endswith_slash_app, Hs.
Qed.

Lemma canvas_base_trailing_slash_witness :
  with_slash ("https://canvas.example.edu" ++ "/")
  = with_slash "https://canvas.example.edu"
  /\ course_info_url (with_slash ("https://canvas.example.edu" ++ "/")) (KInt 101)
     = "https://canvas.example.edu/api/v1/courses/101".
Proof.
  destruct (canvas_base_trailing_slash "https://canvas.example.edu" (KInt 101))
    as (_ & _ & H).
  destruct (H eq_refl) as (H1 & H2 & _).
  split; [exact H1|]. rewrite H2. reflexivity.
Defined.

(** ** Loading the selection file *)

Lemma int_of_digits x :
  Py.str_isdigit x = true -> exists z, Py.int x = Ok z /\ 0 <= z.
Proof.
  destruct x as [| |z|s| |]; try done; simpl.
  - intros H%Z.leb_le. eauto.
  - intros (z & -> & Hz)%PyStrFacts.to_Z_isdigit. eauto.
Qed.

Lemma int_of_loaded_items (items : list json) :
  exists zs,
    rmap Py.int (List.filter Py.str_isdigit items) = Ok zs
    /\ forall z, In z zs <->
         exists x, In x items /\ Py.str_isdigit x = true /\ Py.int x = Ok z.
Proof.
  induction items as [|x items (zs & Hzs & Hin)]; simpl.
  - exists []. split; [done|]. intros z. split; [done|]. by intros (? & [] & _).
  - destruct (Py.str_isdigit x) eqn:Hx.
    + destruct (int_of_digits x Hx) as (z0 & Hz0 & _).
      exists (z0 :: zs). simpl. rewrite Hz0, Hzs. simpl. split; [done|].
      intros z. rewrite Hin. split.
      * intros [<-|(y & ? & ? & ?)]; [by exists x; auto|]. exists y. auto.
      * intros (y & [<-|Hy] & Hd & Hi); [left; congruence|]. right. eauto.
    + exists zs. split; [done|]. intros z. rewrite Hin. split.
      * intros (y & ? & ? & ?). exists y. auto.
      * intros (y & [<-|Hy] & Hd & Hi); [congruence|]. eauto.
Qed.



Lemma selected_ids_of_raise j e :
  selected_ids_of j = Raise e
  <-> ((e = AttributeError /\ is_object j = false)
       \/ (e = TypeError
           /\ exists d, j = JObj d /\ not_iterable (stored_ids d) = true)).
Proof.
  unfold selected_ids_of.
  destruct j as [| | | | |d]; simpl;
    try (split; [intros [= <-]; by left
                | intros [[-> _]|[_ (? & ? & _)]]; done]).
  fold (stored_ids d).
  destruct (Py.iter (stored_ids d)) as [items|e'] eqn:Hit; simpl.
  - destruct (int_of_loaded_items items) as (zs & -> & _). simpl.
    split; [done|]. intros [[_ ?]|[_ (d' & [= <-] & Hn)]]; [done|].
    by destruct (stored_ids d).
  - assert (e' = TypeError /\ not_iterable (stored_ids d) = true) as [-> Hn].
    { destruct (stored_ids d); simpl in Hit; by inversion Hit. }
    split.
    + intros [= <-]. right. eauto.
    + intros [[_ ?]|[-> _]]; done.
Qed.

(** X3: what loading makes of each state of the selection file.  A file
    that is missing, unreadable or not JSON loads as the empty selection,
    with one log line.  Loading raises only on a file that holds
    well-formed JSON of the wrong shape: [AttributeError] when the top
    level is not an object, [TypeError] when the stored identifiers cannot
    be iterated over; the function does not handle these, and they leave
    no log line. *)
Theorem load_outcome_by_file w :
  (config_file w = FileAbsent \/ config_file w = FileUnreadable
   \/ config_file w = FileNotJson ->
   exists line,
     load_course_selection w
     = (Ok ∅, set_trace (trace w ++ [EvLog line]) w))
  /\ (forall e,
        fst (load_course_selection w) = Raise e
        <-> exists j,
              config_file w = FileJson j
              /\ ((e = AttributeError /\ is_object j = false)
                  \/ (e = TypeError
                      /\ exists d, j = JObj d
                                   /\ not_iterable (stored_ids d) = true)))
  /\ (forall e,
        fst (load_course_selection w) = Raise e ->
        snd (load_course_selection w) = w).
Proof.
  unfold load_course_selection, try_except. rewrite bind_read.
  destruct (config_file w) as [| | |j] eqn:Hf.
  1-3: split; [intros _; eexists; reflexivity|];
       split; [intros e; split; [done | by intros (? & ? & _)] | done].
  split; [by intros [|[|]]|].
  unfold lift.
  destruct (selected_ids_of j) as [S|e'] eqn:Hs.
  - split; [|done]. intros e. split; [done|].
    intros (j' & [= <-] & H). apply selected_ids_of_raise in H. congruence.
  - assert (e' = AttributeError \/ e' = TypeError) as He'.
    { apply selected_ids_of_raise in Hs. destruct Hs as [[? _]|[? _]]; auto. }
    assert (forall e, @Raise (gset Z) e' = Raise e <-> exists j0,
              FileJson j = FileJson j0
              /\ ((e = AttributeError /\ is_object j0 = false)
                  \/ (e = TypeError
                      /\ exists d, j0 = JObj d
                                   /\ not_iterable (stored_ids d) = true)))
      as Hiff.
    { intros e. split.
      + intros [= <-]. exists j. split; [done|]. by apply selected_ids_of_raise.
      + intros (j' & [= <-] & H). apply selected_ids_of_raise in H. congruence. }
    destruct He' as [-> | ->]; simpl; (split; [exact Hiff | done]).
Qed.

Lemma load_outcome_by_file_witness :
  fst (load_course_selection Exits.list_in_file) = Raise AttributeError
  /\ snd (load_course_selection Exits.list_in_file) = Exits.list_in_file.
Proof.
  destruct (load_outcome_by_file Exits.list_in_file) as (_ & H1 & H2).
  assert (fst (load_course_selection Exits.list_in_file) = Raise AttributeError)
    as H.
  { apply H1. exists (JArr []). split; [reflexivity|]. left. split; reflexivity. }
  split; [exact H | exact (H2 _ H)].
Defined.

(** ** What the course lister returns *)

Lemma listed_raise a e :
  listed a = Raise e ->
  exn_response e = None
  \/ exists r, a = Answered r /\ error_status r = true
               /\ e = RequestException (Some r).
Proof.
  unfold listed, answer_json.
  destruct a as [|r]; simpl; [intros [= <-]; by left|].
  destruct ((400 <=? status_code r) && (status_code r <? 600)) eqn:Hs; simpl.
  { intros [= <-]. right. exists r. auto. }
  unfold response_json. destruct (body r) as [j|]; simpl;
    [|intros [= <-]; by left].
  destruct (Py.iter j) as [items|e1] eqn:Hit; simpl.
  2: { intros [= <-]. left. destruct j; simpl in Hit; by inversion Hit. }
  destruct (rfilter is_valid_course items) as [l|e1] eqn:Hf; simpl.
  2: { intros [= <-]. apply rfilter_raise in Hf as [-> _]. by left. }
  unfold Sort.sort_by.
  destruct (Sort.with_keys course_sort_key l) as [kl|e1] eqn:Hk; simpl; [done|].
  intros [= <-]. apply with_keys_raise in Hk as [-> _]. by left.
Qed.

Lemma courses_error_message_ok e :
  exn_response e = None -> exists m, courses_error_message e = Ok m.
Proof. unfold courses_error_message. intros ->. eauto. Qed.

Lemma courses_error_message_raise r x :
  courses_error_message (RequestException (Some r)) = Raise x
  <-> exists v, errors_of r = Some v /\ unsubscriptable v = Some x.
Proof.
  unfold courses_error_message, errors_of, response_json. simpl exn_response.
  cbv beta iota.
  destruct (body r) as [j|]; simpl.
  2: { split; [done | by intros (? & ? & _)]. }
  destruct j as [| | | | |d]; simpl;
    try (split; [done | by intros (? & ? & _)]).
  destruct (Py.dict_get d "errors") as [v|]; simpl.
  2: { destruct (status_code r =? 401); split; try done; by intros (? & ? & _). }
  destruct v as [|b|z|s|l|d']; simpl.
  - split; [intros [= <-]; eauto | intros (? & [= <-] & H); simpl in H; congruence].
  - split; [intros [= <-]; eauto | intros (? & [= <-] & H); simpl in H; congruence].
  - split; [intros [= <-]; eauto | intros (? & [= <-] & H); simpl in H; congruence].
  - destruct s; simpl; split; try done; by intros (? & [= <-] & ?).
  - destruct l as [|first l]; simpl.
    { split; [done | by intros (? & [= <-] & ?)]. }
    destruct first; simpl; split; try done; by intros (? & [= <-] & ?).
  - split; [intros [= <-]; eauto | intros (? & [= <-] & H); simpl in H; congruence].
Qed.

(** [get_canvas_courses], run: its result is a function of the answer of
    Canvas, and it leaves a log line, its request and at most one more log
    line. *)
Lemma get_canvas_courses_run env w :
  nonempty (canvas_url w) = true ->
  nonempty (canvas_api_key w) = true ->
  exists logs,
    get_canvas_courses env w
    = (courses_outcome (canvas_get env (courses_request w)),
       set_trace (trace w
                  ++ [EvLog (Lit "Fetching active courses from Canvas...");
                      EvGet (courses_request w)] ++ logs) w)
    /\ Forall is_log logs.
Proof.
  intros Hu Hk. unfold get_canvas_courses. rewrite !bind_read, Hu, Hk.
  change (negb true || negb true) with false. cbv beta iota.
  fold (courses_request w).
  unfold try_except, courses_outcome, listed, answer_json, requests_get,
    raise_for_status, log, emit, modify, bind, lift, ret, raise.
  cbv beta iota. simpl trace. fold (courses_request w).
  destruct (canvas_get env (courses_request w)) as [|r]; simpl.
  { eexists [_]. split; [by rewrite <- !app_assoc | by repeat constructor]. }
  destruct ((400 <=? status_code r) && (status_code r <? 600)); simpl.
  { destruct (courses_error_message (RequestException (Some r))); simpl.
    - eexists [_]. split; [by rewrite <- !app_assoc | by repeat constructor].
    - exists []. split; [by rewrite <- !app_assoc | by repeat constructor]. }
  unfold response_json. destruct (body r) as [j|]; simpl.
  2: { eexists [_]. split; [by rewrite <- !app_assoc | by repeat constructor]. }
  destruct (Py.iter j) as [items|e1]; simpl.
  2: { destruct (is_request_exception e1); simpl.
       - destruct (courses_error_message e1); simpl.
         + eexists [_]. split; [by rewrite <- !app_assoc | by repeat constructor].
         + exists []. split; [by rewrite <- !app_assoc | by repeat constructor].
       - eexists [_]. split; [by rewrite <- !app_assoc | by repeat constructor]. }
  destruct (rfilter is_valid_course items) as [l|e1]; simpl.
  2: { destruct (is_request_exception e1); simpl.
       - destruct (courses_error_message e1); simpl.
         + eexists [_]. split; [by rewrite <- !app_assoc | by repeat constructor].
         + exists []. split; [by rewrite <- !app_assoc | by repeat constructor].
       - eexists [_]. split; [by rewrite <- !app_assoc | by repeat constructor]. }
  destruct (Sort.sort_by course_sort_key l) as [l'|e1]; simpl.
  { eexists [_]. split; [by rewrite <- !app_assoc | by repeat constructor]. }
  destruct (is_request_exception e1); simpl.
  - destruct (courses_error_message e1); simpl.
    + eexists [_]. split; [by rewrite <- !app_assoc | by repeat constructor].
    + exists []. split; [by rewrite <- !app_assoc | by repeat constructor].
  - eexists [_]. split; [by rewrite <- !app_assoc | by repeat constructor].
Qed.

Lemma get_canvas_courses_missing env w :
  nonempty (canvas_url w) && nonempty (canvas_api_key w) = false ->
  get_canvas_courses env w
  = (Ok (None, Some (Lit "Canvas URL or API Key missing.")),
     set_trace (trace w ++ [EvLog (Lit "Canvas URL or API Key missing.")]) w).
Proof.
  intros H. unfold get_canvas_courses. rewrite !bind_read.
  destruct (nonempty (canvas_url w)), (nonempty (canvas_api_key w)); done.
Qed.

Lemma courses_outcome_shape a courses error :
  courses_outcome a = Ok (courses, error) ->
  (exists out, courses = Some out /\ error = None /\ listed a = Ok out)
  \/ (courses = None /\ exists m, error = Some m).
Proof.
  unfold courses_outcome.
  destruct (listed a) as [out|e]; [intros [= <- <-]; left; eauto|].
  destruct (is_request_exception e).
  - destruct (courses_error_message e); simpl; [|done].
    intros [= <- <-]. right. eauto.
  - intros [= <- <-]. right. eauto.
Qed.

Lemma courses_outcome_raise a x :
  courses_outcome a = Raise x
  <-> exists r v, a = Answered r /\ error_status r = true
                  /\ errors_of r = Some v /\ unsubscriptable v = Some x.
Proof.
  unfold courses_outcome.
  destruct (listed a) as [out|e] eqn:Hl.
  { split; [done|]. intros (r & v & -> & Hs & _).
    unfold listed, answer_json in Hl. unfold error_status in Hs.
    by rewrite Hs in Hl. }
  destruct (listed_raise _ _ Hl) as [Hnone|(r & -> & Hs & ->)].
  - assert (forall r, e <> RequestException (Some r)) as Hne.
    { intros r ->. done. }
    split.
    + destruct (is_request_exception e); [|done].
      destruct (courses_error_message_ok e Hnone) as (m & ->). done.
    + intros (r & v & -> & Hs & _). exfalso.
      unfold listed, answer_json in Hl. unfold error_status in Hs.
      rewrite Hs in Hl. simpl in Hl. injection Hl as <-. by eapply Hne.
  - simpl is_request_exception. cbv iota.
    destruct (courses_error_message (RequestException (Some r))) as [m|y] eqn:Hm;
      simpl.
    + split; [done|]. intros (r' & v & [= <-] & _ & Hv & Hx).
      assert (courses_error_message (RequestException (Some r)) = Raise x) as H.
      { apply courses_error_message_raise. eauto. }
      congruence.
    + split.
      * intros [= <-]. apply courses_error_message_raise in Hm as (v & ? & ?).
        exists r, v. auto.
      * intros (r' & v & [= <-] & _ & Hv & Hx).
        assert (courses_error_message (RequestException (Some r)) = Raise x) as H.
        { apply courses_error_message_raise. eauto. }
        congruence.
Qed.

(** X4: the course lister returns either the courses or an error message,
    never both and never neither.  It raises in one case only: Canvas
    answered with an error status and a JSON object whose ["errors"] entry
    is neither a list nor a text, so that taking its first element raises
    inside the handler ([KeyError] for an object, [TypeError] for null and
    for numbers). *)
Theorem course_lister_outcome env w :
  (forall courses error,
      fst (get_canvas_courses env w) = Ok (courses, error) ->
      (courses = None <-> error <> None))
  /\ (forall x,
        fst (get_canvas_courses env w) = Raise x
        <-> nonempty (canvas_url w) = true
            /\ nonempty (canvas_api_key w) = true
            /\ exists r v,
                 canvas_get env (courses_request w) = Answered r
                 /\ error_status r = true
                 /\ errors_of r = Some v
                 /\ unsubscriptable v = Some x).
Proof.
  destruct (nonempty (canvas_url w) && nonempty (canvas_api_key w)) eqn:Hc.
  - apply andb_true_iff in Hc as [Hu Hk].
    destruct (get_canvas_courses_run env w Hu Hk) as (logs & -> & _). simpl.
    split.
    + intros courses error
        [(out & -> & -> & _)|(-> & m & ->)]%courses_outcome_shape;
        split; done.
    + intros x. rewrite courses_outcome_raise. split; [by auto|].
      by intros (_ & _ & H).
  - rewrite (get_canvas_courses_missing env w Hc). simpl. split.
    + intros courses error [= <- <-]. split; done.
    + intros x. split; [done|]. intros (Hu & Hk & _).
      by rewrite Hu, Hk in Hc.
Qed.

Lemma course_lister_outcome_witness :
  fst (get_canvas_courses NullErrors.env Sample.idle) = Raise TypeError.
Proof.
  apply (proj2 (course_lister_outcome NullErrors.env Sample.idle) TypeError).
  split; [reflexivity|]. split; [reflexivity|].
  exists NullErrors.failing, JNull. repeat split; reflexivity.
Defined.

(** ** Computations that uphold an invariant *)

Lemma emitted_grows {A} (m : M A) w evs :
  trace (snd (m w)) = (trace w ++ evs)%list -> emitted m w = evs.
Proof. intros H. unfold emitted. rewrite H. by rewrite drop_app_length. Qed.

Section Upholds.

Variable I : World -> Prop.
Variable P : Event -> Prop.
Hypothesis I_trace : forall w t, I w -> I (set_trace t w).

Lemma upholds_extends {A} (m : M A) w :
  extends P m -> I w -> upholds I P m w.
Proof.
  intros Hm Hw. unfold upholds. destruct (Hm w) as (evs & -> & HP).
  split; [by apply I_trace|]. by exists evs.
Qed.

Lemma upholds_ret {A} (a : A) w : I w -> upholds I P (ret a) w.
Proof. intros Hw. split; [done|]. exists []. by rewrite app_nil_r. Qed.

Lemma upholds_emit e w : P e -> I w -> upholds I P (emit e) w.
Proof.
  intros He Hw. split; [by apply I_trace|]. exists [e]. split; [done|].
  by constructor.
Qed.

Lemma upholds_modify (f : World -> World) w :
  I (f w) -> trace (f w) = trace w -> upholds I P (modify f) w.
Proof.
  intros Hf Ht. split; [done|]. exists []. simpl. by rewrite app_nil_r.
Qed.

Lemma upholds_bind {A B} (m : M A) (k : A -> M B) w :
  upholds I P m w ->
  (forall a w1, m w = (Ok a, w1) -> I w1 -> upholds I P (k a) w1) ->
  upholds I P (bind m k) w.
Proof.
  intros (HI & evs & Ht & HP) Hk. unfold upholds, bind.
  destruct (m w) as [[a|e] w1] eqn:E; simpl in *.
  - destruct (Hk a w1 eq_refl HI) as (HI2 & evs2 & Ht2 & HP2).
    split; [done|]. exists (evs ++ evs2)%list.
    rewrite Ht2, Ht, <- app_assoc. split; [done|]. by apply Forall_app.
  - split; [done|]. by exists evs.
Qed.

Lemma upholds_read {A B} (f : World -> A) (k : A -> M B) w :
  upholds I P (k (f w)) w -> upholds I P (bind (read f) k) w.
Proof. unfold upholds. by rewrite bind_read. Qed.

Lemma upholds_for_each {A} (xs : list A) (body : A -> M unit) w :
  (forall x w1, I w1 -> upholds I P (body x) w1) ->
  I w -> upholds I P (for_each xs body) w.
Proof.
  intros Hb. revert w. induction xs as [|x xs IH]; intros w Hw; simpl.
  - by apply upholds_ret.
  - apply upholds_bind; [by apply Hb|]. intros _ w1 _ Hw1. by apply IH.
Qed.

End Upholds.

(** ** Fetching the courses into the window *)

Lemma fetch_frame_trace w0 w t : fetch_frame w0 w -> fetch_frame w0 (set_trace t w).
Proof. done. Qed.

Lemma is_log_local e : is_log e -> is_local e.
Proof. by destruct e. Qed.

Lemma load_course_selection_run w :
  exists logs,
    load_course_selection w
    = (loaded (config_file w), set_trace (trace w ++ logs) w)
    /\ Forall is_log logs.
Proof.
  unfold load_course_selection, try_except, loaded. rewrite bind_read.
  destruct (config_file w) as [| | |j]; simpl.
  1-3: eexists [_]; split; [done | by repeat constructor].
  unfold lift. destruct (selected_ids_of j) as [S|e]; simpl.
  - exists []. by rewrite app_nil_r, set_trace_same.
  - destruct e; simpl;
      first [ exists []; by rewrite app_nil_r, set_trace_same
            | eexists [_]; split; [done | by repeat constructor] ].
Qed.

Ltac upholds_step Ht :=
  lazymatch goal with
  | |- upholds _ _ (ret _) _ => apply upholds_ret; done
  | |- upholds _ _ (bind (read _) _) _ => apply upholds_read
  | |- upholds _ _ (bind _ _) _ =>
      apply upholds_bind; [|intros ? ? _ ?]
  | |- upholds _ _ (log _) _ => apply (upholds_emit _ _ Ht); done
  | |- upholds _ _ (messagebox _) _ => apply (upholds_emit _ _ Ht); done
  | |- upholds _ _ (emit _) _ => apply (upholds_emit _ _ Ht); done
  | |- upholds _ _ (modify _) _ => apply upholds_modify; done
  | |- upholds _ _ (match ?x with _ => _ end) _ => destruct x
  | |- upholds _ _ (if ?b then _ else _) _ => destruct b
  | |- upholds _ _ (let '(_, _) := ?x in _) _ => destruct x
  end.

Section FetchFacts.

Variable env : Env.
Variable w0 : World.

Lemma upholds_finish_fetch_courses w :
  fetch_frame w0 w -> upholds (fetch_frame w0) is_local finish_fetch_courses w.
Proof.
  intros Hw. unfold finish_fetch_courses.
  repeat upholds_step (fetch_frame_trace w0).
Qed.

Lemma upholds_display_course sel course w :
  fetch_frame w0 w ->
  upholds (fetch_frame w0) is_local (display_course sel course) w.
Proof.
  intros Hw. unfold display_course.
  apply upholds_bind;
    [apply (upholds_extends _ _ (fetch_frame_trace w0)); [apply extends_lift | done]|].
  intros course_id w1 _ Hw1.
  apply upholds_bind;
    [apply (upholds_extends _ _ (fetch_frame_trace w0)); [apply extends_lift | done]|].
  intros name w2 _ Hw2.
  apply upholds_bind;
    [apply (upholds_extends _ _ (fetch_frame_trace w0)); [apply extends_lift | done]|].
  intros display_name w3 _ Hw3.
  apply upholds_bind;
    [apply (upholds_extends _ _ (fetch_frame_trace w0)); [apply extends_lift | done]|].
  intros key w4 _ Hw4.
  repeat upholds_step (fetch_frame_trace w0).
Qed.

Lemma upholds_load_course_selection w :
  fetch_frame w0 w ->
  upholds (fetch_frame w0) is_local load_course_selection w.
Proof.
  intros Hw. apply (upholds_extends _ _ (fetch_frame_trace w0)); [|done].
  apply (extends_weaken is_log); [apply is_log_local|].
  by apply extends_load_course_selection.
Qed.

End FetchFacts.

(** What follows the request in [fetch_and_display_courses] upholds the
    frame of the fetch and touches neither the network nor the file. *)
Lemma fetch_and_display_courses_run env w :
  fetch_starts w = true ->
  exists tail,
    fetch_frame w (snd (fetch_and_display_courses env w))
    /\ trace (snd (fetch_and_display_courses env w))
       = (trace w ++ [EvLog (Lit "Fetching courses to display...");
                      EvLog (Lit "Fetching active courses from Canvas...");
                      EvGet (courses_request w)] ++ tail)%list
    /\ Forall is_local tail.
Proof.
  unfold fetch_starts.
  intros [[Hf%negb_true_iff Hu]%andb_true_iff Hk]%andb_true_iff.
  remember (fetch_and_display_courses env w) as r eqn:Hr.
  unfold fetch_and_display_courses in Hr. rewrite bind_read, Hf in Hr.
  cbv iota in Hr. rewrite !bind_read, Hu, Hk in Hr.
  change (negb true || negb true) with false in Hr. cbv beta iota in Hr.
  unfold bind at 1, modify at 1 in Hr. cbv beta iota in Hr.
  unfold bind at 1, modify at 1 in Hr. cbv beta iota in Hr.
  unfold bind at 1, log at 1, emit at 1, modify at 1 in Hr. cbv beta iota in Hr.
  set (w1 := set_trace _ _) in Hr.
  assert (fetch_frame w w1) as Hw1 by done.
  destruct (get_canvas_courses_run env w1 Hu Hk) as (logs & Hrun & Hlogs).
  change (courses_request w1) with (courses_request w) in Hrun.
  unfold bind at 1 in Hr. rewrite Hrun in Hr.
  set (w2 := set_trace _ w1) in Hr.
  assert (fetch_frame w w2) as Hw2 by done.
  assert (trace w2 = (trace w ++ [EvLog (Lit "Fetching courses to display...");
                                  EvLog (Lit "Fetching active courses from Canvas...");
                                  EvGet (courses_request w)] ++ logs)%list) as Ht2.
  { unfold w2, w1. simpl. by rewrite <- !app_assoc. }
  assert (forall m : M unit,
            upholds (fetch_frame w) is_local m w2 ->
            exists tail,
              fetch_frame w (snd (m w2))
              /\ trace (snd (m w2))
                 = (trace w ++ [EvLog (Lit "Fetching courses to display...");
                                EvLog (Lit "Fetching active courses from Canvas...");
                                EvGet (courses_request w)] ++ tail)%list
              /\ Forall is_local tail) as Hrest.
  { intros m (HI & evs & Ht & HP). exists (logs ++ evs)%list.
    split; [done|]. split.
    - rewrite Ht, Ht2. by rewrite <- !app_assoc.
    - apply Forall_app. split; [|done].
      eapply Forall_impl; [exact Hlogs|]. apply is_log_local. }
  destruct (courses_outcome (canvas_get env (courses_request w)))
    as [[courses error]|x].
  2: { subst r. exists logs. split; [exact Hw2|]. split; [exact Ht2|].
       eapply Forall_impl; [exact Hlogs|]. apply is_log_local. }
  cbv beta iota in Hr. subst r. apply Hrest.
  destruct error as [error|].
  - repeat upholds_step (fetch_frame_trace w);
      by apply upholds_finish_fetch_courses.
  - apply upholds_bind;
      [by upholds_step (fetch_frame_trace w)|]. intros _ w3 _ Hw3.
    apply upholds_bind;
      [by upholds_step (fetch_frame_trace w)|]. intros _ w4 _ Hw4.
    apply upholds_bind;
      [by upholds_step (fetch_frame_trace w)|]. intros _ w5 _ Hw5.
    apply upholds_bind;
      [by apply upholds_load_course_selection|]. intros sel w6 _ Hw6.
    apply upholds_bind;
      [by upholds_step (fetch_frame_trace w)|]. intros _ w7 _ Hw7.
    apply upholds_bind;
      [|intros; by apply upholds_finish_fetch_courses].
    destruct courses as [[|c cs]|].
    + repeat upholds_step (fetch_frame_trace w).
    + apply upholds_bind;
        [by upholds_step (fetch_frame_trace w)|]. intros _ w8 _ Hw8.
      apply upholds_bind;
        [|intros; by upholds_step (fetch_frame_trace w)].
      apply upholds_for_each; [|done].
      intros x wx Hx. by apply upholds_display_course.
    + repeat upholds_step (fetch_frame_trace w).
Qed.

(** X5: fetching the courses sends exactly one request, the listing of the
    active courses with the Canvas credentials, unless a fetch is already
    running or a Canvas credential is missing, in which case it sends none.
    On every path, also when it raises, it writes nothing to the selection
    file and leaves the credentials and the state of the sync as they
    were. *)
Theorem fetch_sends_one_request env w :
  fetch_frame w (snd (fetch_and_display_courses env w))
  /\ List.filter is_network (emitted (fetch_and_display_courses env) w)
     = (if fetch_starts w then [EvGet (courses_request w)] else [])
  /\ List.filter is_write (emitted (fetch_and_display_courses env) w) = [].
Proof.
  assert (forall l, Forall is_local l ->
            List.filter is_network l = [] /\ List.filter is_write l = [])
    as Hlocal.
  { induction 1 as [|e l [He1 He2] _ [IH1 IH2]]; [done|]. simpl.
    by rewrite He1, He2. }
  destruct (fetch_starts w) eqn:Hs.
  - destruct (fetch_and_display_courses_run env w Hs) as (tail & HI & Ht & Hl).
    split; [done|]. rewrite (emitted_grows _ _ _ Ht).
    destruct (Hlocal _ Hl) as [H1 H2]. simpl. by rewrite H1, H2.
  - unfold fetch_starts in Hs. unfold emitted, fetch_and_display_courses.
    rewrite bind_read. destruct (is_fetching_courses w) eqn:Hf; simpl.
    + rewrite drop_app_length. done.
    + simpl in Hs. rewrite !bind_read.
      destruct (nonempty (canvas_url w)), (nonempty (canvas_api_key w));
        try done; simpl; by rewrite drop_app_length.
Qed.

Lemma fetch_starts_of_outcome env w r :
  fst (get_canvas_courses env w) = r ->
  r <> Ok (None, Some (Lit "Canvas URL or API Key missing.")) ->
  nonempty (canvas_url w) = true /\ nonempty (canvas_api_key w) = true.
Proof.
  intros Hr Hne.
  destruct (nonempty (canvas_url w) && nonempty (canvas_api_key w)) eqn:Hc.
  - by apply andb_true_iff in Hc.
  - rewrite (get_canvas_courses_missing env w Hc) in Hr. simpl in Hr. congruence.
Qed.

(** The course lister answers the same in two worlds that hold the same
    Canvas credentials. *)
Lemma get_canvas_courses_result env w :
  nonempty (canvas_url w) = true ->
  nonempty (canvas_api_key w) = true ->
  fst (get_canvas_courses env w)
  = courses_outcome (canvas_get env (courses_request w)).
Proof.
  intros Hu Hk. by destruct (get_canvas_courses_run env w Hu Hk) as (logs & -> & _).
Qed.

(** X6: when the listing of the courses fails, the course window is left as
    it was: the checkboxes and their states are kept, so the operator's
    selection survives the failure.  The failure is shown in a dialog and
    logged, and the fetch is marked as finished. *)
Theorem failed_fetch_keeps_courses env w courses error :
  fetch_starts w = true ->
  fst (get_canvas_courses env w) = Ok (courses, Some error) ->
  exists logs w',
    fetch_and_display_courses env w = (Ok tt, w')
    /\ w' = set_fetch_courses_button (mkButton "Fetch Courses" true)
              (set_is_fetching_courses false
                 (set_trace
                    (trace w
                     ++ [EvLog (Lit "Fetching courses to display...");
                         EvLog (Lit "Fetching active courses from Canvas...");
                         EvGet (courses_request w)]
                     ++ logs
                     ++ [EvDialog (showerror "Fetch Error"
                           (Fmt "Failed to fetch courses from Canvas:\n{}" [error]));
                         EvLog (Fmt "Course fetch failed: {}" [error])]) w))
    /\ Forall is_log logs
    /\ course_checkbox_vars w' = course_checkbox_vars w
    /\ course_checkboxes w' = course_checkboxes w
    /\ courses_scrollable_frame w' = courses_scrollable_frame w
    /\ checked w' = checked w.
Proof.
  unfold fetch_starts.
  intros [[Hf%negb_true_iff Hu]%andb_true_iff Hk]%andb_true_iff Hout.
  rewrite (get_canvas_courses_result env w Hu Hk) in Hout.
  unfold fetch_and_display_courses. rewrite bind_read, Hf. cbv iota.
  rewrite !bind_read, Hu, Hk.
  change (negb true || negb true) with false. cbv beta iota.
  unfold bind at 1, modify at 1. cbv beta iota.
  unfold bind at 1, modify at 1. cbv beta iota.
  unfold bind at 1, log at 1, emit at 1, modify at 1. cbv beta iota.
  set (w1 := set_trace _ _).
  destruct (get_canvas_courses_run env w1 Hu Hk) as (logs & Hrun & Hlogs).
  change (courses_request w1) with (courses_request w) in Hrun.
  unfold bind at 1. rewrite Hrun, Hout. cbv beta iota.
  unfold finish_fetch_courses, messagebox, log, emit, modify, bind.
  cbv beta iota. simpl.
  exists logs. eexists. split; [reflexivity|]. split; [|done].
  unfold set_fetch_courses_button, set_is_fetching_courses, set_trace. simpl.
  by rewrite <- !app_assoc.
Qed.

Lemma failed_fetch_keeps_courses_witness :
  exists w',
    fetch_and_display_courses EmptyTimestamp.env Sample.idle = (Ok tt, w')
    /\ checked w' = checked Sample.idle.
Proof.
  destruct (failed_fetch_keeps_courses EmptyTimestamp.env Sample.idle None
              (Fmt "Canvas API Error fetching courses: {}"
                   [TExn (RequestException None)]) eq_refl eq_refl)
    as (logs & w' & H1 & _ & _ & _ & _ & _ & H2).
  exists w'. split; [exact H1 | exact H2].
Defined.


(** *** The checkboxes *)

Lemma assoc_set_in {V} (d : list (CourseKey * V)) k v k' v' :
  In (k', v') (assoc_set d k v) -> (k' = k /\ v' = v) \/ In (k', v') d.
Proof.
  induction d as [|[k0 v0] d IH]; simpl.
  - intros [[= <- <-]|[]]. by left.
  - destruct (bool_decide (k0 = k)) eqn:E; simpl.
    + apply bool_decide_eq_true in E as ->.
      intros [[= <- <-]|H]; [by left | right; by right].
    + intros [H|H]; [right; by left|].
      destruct (IH H) as [?|?]; [by left | right; by right].
Qed.

Lemma assoc_set_keys {V} (d : list (CourseKey * V)) k v k' :
  In k' (map fst (assoc_set d k v)) <-> k' = k \/ In k' (map fst d).
Proof.
  induction d as [|[k0 v0] d IH]; simpl.
  - split; [intros [<-|[]]; by left | intros [->|[]]; by left].
  - destruct (bool_decide (k0 = k)) eqn:E; simpl.
    + apply bool_decide_eq_true in E as ->. split.
      * intros [<-|H]; [by left | right; by right].
      * intros [->|[<-|H]]; [by left | by left | by right].
    + rewrite IH. tauto.
Qed.

Lemma display_course_run sel course w name key :
  course_display_name course = Ok name ->
  course_key course = Ok key ->
  display_course sel course w
  = (Ok tt,
     set_course_checkboxes (assoc_set (course_checkboxes w) key name)
       (set_courses_scrollable_frame
          (courses_scrollable_frame w ++ [CTkCheckBox name key])
          (set_course_checkbox_vars
             (assoc_set (course_checkbox_vars w) key (preselected sel key)) w))).
Proof.
  unfold course_display_name, course_key, display_course, bind, lift, modify.
  destruct (Py.getitem course "id") as [course_id|]; [|done]. simpl.
  destruct (get_text course "name" _) as [n|]; [|done]. simpl.
  intros -> ->. by destruct key.
Qed.

(** The loop over the courses, run from [w]. *)
Lemma display_courses_run sel out keys w :
  rmap course_key out = Ok keys ->
  (forall c, In c out -> exists name, course_display_name c = Ok name) ->
  exists vars widgets boxes,
    for_each out (display_course sel) w
    = (Ok tt,
       set_course_checkboxes boxes
         (set_courses_scrollable_frame (courses_scrollable_frame w ++ widgets)
            (set_course_checkbox_vars vars w)))
    /\ Forall2 is_checkbox_of out widgets
    /\ (forall k b, In (k, b) vars ->
          In (k, b) (course_checkbox_vars w)
          \/ (In k keys /\ b = preselected sel k))
    /\ (forall k, In k (map fst vars)
                  <-> In k keys \/ In k (map fst (course_checkbox_vars w))).
Proof.
  revert keys w. induction out as [|c out IH]; intros keys w Hkeys Hnames.
  - injection Hkeys as <-. exists (course_checkbox_vars w), [], (course_checkboxes w).
    simpl. rewrite app_nil_r. split; [by destruct w|]. split; [constructor|].
    split; [by auto|]. intros k. tauto.
  - simpl in Hkeys.
    destruct (course_key c) as [key|] eqn:Hkey; [|done]. simpl in Hkeys.
    destruct (rmap course_key out) as [keys'|] eqn:Hkeys'; [|done].
    injection Hkeys as <-.
    destruct (Hnames c (or_introl eq_refl)) as (name & Hname).
    simpl. unfold bind at 1. rewrite (display_course_run sel c w name key Hname Hkey).
    set (w1 := set_course_checkboxes _ _).
    destruct (IH keys' w1 eq_refl (fun c' H => Hnames c' (or_intror H)))
      as (vars & widgets & boxes & -> & Hw & Hv & Hk).
    exists vars, (CTkCheckBox name key :: widgets), boxes.
    split; [|split; [|split]].
    + unfold w1. simpl. by rewrite <- app_assoc.
    + constructor; [|done]. exists name, key. auto.
    + intros k b [H|[Hin ->]]%Hv; [|right; split; [by right | done]].
      unfold w1 in H. simpl in H.
      apply assoc_set_in in H as [[-> ->]|H]; [right; split; [by left|done] | by left].
    + intros k. rewrite Hk. unfold w1. simpl. rewrite assoc_set_keys. simpl.
      split; [intros [?|[->|?]] | intros [[<-|?]|?]]; auto.
Qed.

Lemma valid_course_displayable c :
  valid_b c = true -> exists name, course_display_name c = Ok name.
Proof.
  unfold valid_b, is_valid_course, course_display_name.
  destruct c as [| | | | |d]; try done. simpl.
  destruct (Py.dict_get d "id") as [v|]; [|done]. simpl. eauto.
Qed.

Lemma sort_by_perm l out :
  Sort.sort_by course_sort_key l = Ok out -> Permutation l out.
Proof.
  unfold Sort.sort_by.
  destruct (Sort.with_keys course_sort_key l) as [kl|] eqn:Hk; [|done].
  simpl. intros [= <-]. apply with_keys_ok in Hk as [<- _].
  apply Permutation_map. symmetry. apply sort_keyed_perm.
Qed.

Lemma listed_valid a out : listed a = Ok out -> Forall (fun c => valid_b c = true) out.
Proof.
  unfold listed.
  destruct (answer_json a) as [courses|]; [|done]. simpl.
  destruct (Py.iter courses) as [items|]; [|done]. simpl.
  destruct (rfilter is_valid_course items) as [l|] eqn:Hf; [|done]. simpl.
  intros Hp%sort_by_perm. apply rfilter_ok in Hf as ->.
  apply List.Forall_forall. intros c Hc.
  eapply Permutation_in in Hc; [|symmetry; exact Hp].
  by apply List.filter_In in Hc as [_ ?].
Qed.

(** X7: a successful fetch rebuilds the course window from the listing and
    the selection file alone.  The window shows one checkbox per listed
    course, in the order of the listing, or a single label when there is no
    course; a course is checked exactly when its identifier is an integer
    of the saved selection, whatever was checked before. *)
Theorem fetch_displays_courses env w out sel keys :
  is_fetching_courses w = false ->
  fst (get_canvas_courses env w) = Ok (Some out, None) ->
  fst (load_course_selection w) = Ok sel ->
  rmap course_key out = Ok keys ->
  exists w',
    fetch_and_display_courses env w = (Ok tt, w')
    /\ is_fetching_courses w' = false
    /\ fetch_courses_button w' = mkButton "Fetch Courses" true
    /\ (out = [] ->
        courses_scrollable_frame w' = [CTkLabel "No active courses found."])
    /\ (out <> [] -> Forall2 is_checkbox_of out (courses_scrollable_frame w'))
    /\ (forall k, In k (map fst (course_checkbox_vars w')) <-> In k keys)
    /\ (forall k, k ∈ checked w' <-> In k keys /\ preselected sel k = true).
Proof.
  intros Hf Hout Hsel Hkeys.
  destruct (fetch_starts_of_outcome env w _ Hout) as [Hu Hk]; [done|].
  rewrite (get_canvas_courses_result env w Hu Hk) in Hout.
  assert (Forall (fun c => valid_b c = true) out) as Hvalid.
  { apply courses_outcome_shape in Hout as [(out' & [= <-] & _ & Hl)|[? _]];
      [|done]. by eapply listed_valid. }
  unfold fetch_and_display_courses. rewrite bind_read, Hf. cbv iota.
  rewrite !bind_read, Hu, Hk.
  change (negb true || negb true) with false. cbv beta iota.
  unfold bind at 1, modify at 1. cbv beta iota.
  unfold bind at 1, modify at 1. cbv beta iota.
  unfold bind at 1, log at 1, emit at 1, modify at 1. cbv beta iota.
  set (w1 := set_trace _ _).
  destruct (get_canvas_courses_run env w1 Hu Hk) as (logs & Hrun & Hlogs).
  change (courses_request w1) with (courses_request w) in Hrun.
  unfold bind at 1. rewrite Hrun, Hout. cbv beta iota.
  set (w2 := set_trace _ w1).
  unfold bind at 1, modify at 1. cbv beta iota.
  unfold bind at 1, modify at 1. cbv beta iota.
  unfold bind at 1, modify at 1. cbv beta iota.
  set (w5 := set_course_checkbox_vars [] _).
  destruct (load_course_selection_run w5) as (logs5 & Hload & _).
  destruct (load_course_selection_run w) as (logs0 & Hload0 & _).
  rewrite Hload0 in Hsel. simpl in Hsel.
  change (config_file w5) with (config_file w) in Hload. rewrite Hsel in Hload.
  unfold bind at 1. rewrite Hload.
  unfold bind at 1, log at 1, emit at 1, modify at 1. cbv beta iota.
  set (w7 := set_trace _ (set_trace _ w5)).
  destruct out as [|c out].
  - injection Hkeys as <-.
    eexists. split; [reflexivity|]. simpl.
    split; [done|]. split; [done|]. split; [done|]. split; [done|].
    split; [done|]. intros k0. unfold checked. simpl. split; [|by intros [[] _]].
    intros H. by apply elem_of_empty in H.
  - unfold bind at 1. unfold bind at 1, log at 1, emit at 1, modify at 1.
    cbv beta iota.
    set (w8 := set_trace _ w7).
    destruct (display_courses_run sel (c :: out) keys w8 Hkeys)
      as (vars & widgets & boxes & Hloop & Hw & Hv & Hkk).
    { intros c' Hc'. apply valid_course_displayable.
      rewrite List.Forall_forall in Hvalid. by apply Hvalid. }
    unfold bind at 1. rewrite Hloop.
    eexists. split; [reflexivity|]. simpl.
    split; [done|]. split; [done|]. split; [done|].
    split; [by intros _|]. split.
    + intros k. rewrite Hkk. simpl. tauto.
    + intros k. unfold checked. simpl.
      rewrite elem_of_list_to_set, list_elem_of_In, in_map_iff. split.
      * intros ([k' b] & <- & [Hin Hb]%List.filter_In). simpl in *. subst b.
        destruct (Hv _ _ Hin) as [[]|[? ?]]. auto.
      * intros [Hin Hp].
        assert (In k (map fst vars)) as Hkv by (apply Hkk; by left).
        apply in_map_iff in Hkv as ([k' b] & <- & Hkb). simpl in *.
        exists (k', b). split; [done|]. apply List.filter_In. split; [done|].
        simpl. destruct (Hv _ _ Hkb) as [[]|[_ ->]]. done.
Qed.

Lemma fetch_displays_courses_witness :
  exists w',
    fetch_and_display_courses Sample.env Saved.world = (Ok tt, w')
    /\ KInt 101 ∈ checked w'
    /\ Forall2 is_checkbox_of Saved.listing (courses_scrollable_frame w').
Proof.
  assert (fst (get_canvas_courses Sample.env Saved.world)
          = Ok (Some Saved.listing, None)) as Hout.
  { vm_compute. reflexivity. }
  assert (fst (load_course_selection Saved.world) = Ok (list_to_set [101]))
    as Hsel.
  { vm_compute. reflexivity. }
  destruct (fetch_displays_courses Sample.env Saved.world Saved.listing
              (list_to_set [101]) [KInt 103; KInt 102; KInt 101]
              eq_refl Hout Hsel eq_refl)
    as (w' & Hrun & _ & _ & _ & Hframe & _ & Hchecked).
  exists w'. split; [exact Hrun|]. split.
  - apply Hchecked. split; [simpl; tauto|]. vm_compute. reflexivity.
  - by apply Hframe.
Defined.

(** ** What a sync leaves behind *)

Lemma prefix_app s t : String.prefix s (s ++ t) = true.
Proof.
  induction s as [|c s IH]; [by destruct t|]. simpl. by destruct (ascii_dec c c).
Qed.

Lemma sync_frame_trace w0 w t : sync_frame w0 w -> sync_frame w0 (set_trace t w).
Proof. done. Qed.

Section Confined.

Variable env : Env.
Variable canvas_base : string.
Variable hs : list (string * string).
Variable P : Event -> Prop.
Hypothesis P_log : forall m, P (EvLog m).
Hypothesis P_get :
  forall u tmo, String.prefix canvas_base u = true ->
                P (EvGet (mkRequest u hs None tmo)).

Lemma extends_requests_get_at u tmo :
  String.prefix canvas_base u = true -> extends P (requests_get env u hs tmo).
Proof. intros Hu. unfold requests_get. extends_auto. Qed.

Lemma extends_fetch_course_at course_id :
  extends P (fetch_course env canvas_base hs course_id).
Proof.
  unfold fetch_course.
  apply extends_bind; [apply extends_requests_get_at, prefix_app|]. intros r1.
  apply extends_bind; [by apply extends_raise_for_status|]. intros _.
  apply extends_bind; [apply extends_lift|]. intros course_data.
  apply extends_bind; [apply extends_lift|]. intros course_name.
  apply extends_bind; [apply extends_requests_get_at, prefix_app|]. intros r2.
  apply extends_bind; [by apply extends_raise_for_status|]. intros _.
  extends_auto.
Qed.

Lemma extends_collect_course_at total i course_id acc :
  extends P (collect_course env canvas_base hs total i course_id acc).
Proof.
  unfold collect_course.
  apply extends_bind; [by apply extends_log|]. intros _.
  apply extends_bind; [apply extends_attempt, extends_fetch_course_at|].
  intros [[course_name assignments]|e].
  - apply extends_bind; [by apply extends_collect_assignments|].
    intros [all stopped]. destruct stopped.
    + apply extends_bind; [by apply extends_course_failed | intros; apply extends_ret].
    + apply extends_ret.
  - apply extends_bind; [by apply extends_course_failed | intros; apply extends_ret].
Qed.

Lemma extends_collect_courses_at total i course_ids acc :
  extends P (collect_courses env canvas_base hs total i course_ids acc).
Proof.
  revert i acc. induction course_ids as [|c rest IH]; intros i acc; simpl.
  - apply extends_ret.
  - apply extends_bind; [apply extends_collect_course_at | intros; apply IH].
Qed.

End Confined.

Section SyncEvents.

Variable env : Env.
Variable w0 : World.

Lemma sync_event_log m : sync_event w0 (EvLog m).
Proof. done. Qed.

Lemma upholds_collector course_ids w :
  sync_frame w0 w ->
  upholds (sync_frame w0) (sync_event w0)
    (get_canvas_assignments_for_courses env course_ids) w.
Proof.
  intros Hw. pose proof Hw as (Hu & Hk & _).
  pose proof sync_event_log as Hlog.
  unfold get_canvas_assignments_for_courses.
  apply upholds_read, upholds_read. rewrite Hu, Hk.
  apply (upholds_extends _ _ (sync_frame_trace w0)); [|done].
  destruct (negb (nonempty (canvas_url w0)) || negb (nonempty (canvas_api_key w0))).
  { extends_auto. }
  destruct course_ids as [|c rest]; [extends_auto|].
  apply extends_bind; [|intros; extends_auto].
  apply extends_collect_courses_at; [done|].
  intros u tmo Hp. done.
Qed.

Lemma upholds_create_todoist_task assignment w :
  sync_frame w0 w ->
  upholds (sync_frame w0) (sync_event w0) (create_todoist_task env assignment) w.
Proof.
  intros Hw. pose proof Hw as (_ & _ & Ht & _).
  pose proof sync_event_log as Hlog.
  assert (forall d, sync_event w0 (EvSleep d)) as Hsleep by done.
  unfold create_todoist_task. apply upholds_read. rewrite Ht.
  apply (upholds_extends _ _ (sync_frame_trace w0)); [|done].
  destruct (negb (nonempty (todoist_api_key w0))); [extends_auto|].
  apply extends_bind_ok; [by apply extends_task_request|].
  intros r [w' (rid & td & Hrid & ->)%task_request_ok].
  assert (sync_event w0
            (EvPost (mkRequest TODOIST_TASKS_URL
                       (task_headers (todoist_api_key w0) rid) (Some td) 15)))
    as HP.
  { split; [done|]. by exists rid. }
  extends_auto;
    first [by apply extends_requests_post | by apply extends_time_sleep
          | by apply extends_raise_for_status].
Qed.

Lemma upholds_publish_all total i assignments synced errors w :
  sync_frame w0 w ->
  upholds (sync_frame w0) (sync_event w0)
    (publish_all env total i assignments synced errors) w.
Proof.
  revert i synced errors w.
  induction assignments as [|a rest IH]; intros i synced errors w Hw; simpl.
  - by apply upholds_ret.
  - apply upholds_bind;
      [apply (upholds_extends _ _ (sync_frame_trace w0)); [apply extends_lift|done]|].
    intros name w1 _ Hw1.
    apply upholds_bind;
      [apply (upholds_extends _ _ (sync_frame_trace w0)); [apply extends_lift|done]|].
    intros course_name w2 _ Hw2.
    apply upholds_bind; [by upholds_step (sync_frame_trace w0)|].
    intros _ w3 _ Hw3.
    apply upholds_bind; [by apply upholds_create_todoist_task|].
    intros [task error] w4 _ Hw4.
    apply upholds_bind.
    { destruct error; repeat upholds_step (sync_frame_trace w0). }
    intros [s e] w5 _ Hw5.
    apply upholds_bind; [by upholds_step (sync_frame_trace w0)|].
    intros _ w6 _ Hw6. by apply IH.
Qed.

Lemma upholds_finish_sync w :
  sync_frame w0 w -> upholds (sync_frame w0) (sync_event w0) finish_sync w.
Proof.
  intros Hw. unfold finish_sync. repeat upholds_step (sync_frame_trace w0).
Qed.

Lemma upholds_create_tasks assignments w :
  sync_frame w0 w ->
  upholds (sync_frame w0) (sync_event w0) (create_tasks env assignments) w.
Proof.
  intros Hw. unfold create_tasks.
  apply upholds_bind; [by upholds_step (sync_frame_trace w0)|].
  intros _ w1 _ Hw1.
  apply upholds_bind; [by apply upholds_publish_all|].
  intros [synced errors] w2 _ Hw2.
  unfold sync_finished, final_report.
  apply upholds_bind; [by upholds_step (sync_frame_trace w0)|].
  intros _ w3 _ Hw3.
  apply upholds_bind; [by upholds_step (sync_frame_trace w0)|].
  intros _ w4 _ Hw4.
  apply upholds_bind.
  { destruct (0 <? errors); by upholds_step (sync_frame_trace w0). }
  intros _ w5 _ Hw5.
  apply upholds_bind.
  { destruct (0 <? errors); by upholds_step (sync_frame_trace w0). }
  intros _ w6 _ Hw6. by apply upholds_finish_sync.
Qed.

Lemma upholds_save_course_selection w :
  sync_frame w0 w ->
  upholds (sync_frame w0) (sync_event w0)
    (save_course_selection env (checked w0)) w.
Proof.
  intros Hw. unfold save_course_selection.
  destruct (disk_writable env); repeat upholds_step (sync_frame_trace w0).
Qed.

Lemma upholds_run_sync_process :
  upholds (sync_frame w0) (sync_event w0) (run_sync_process env) w0.
Proof.
  assert (sync_frame w0 w0) as Hw0 by done.
  unfold run_sync_process.
  apply upholds_read. destruct (is_syncing w0); [by upholds_step (sync_frame_trace w0)|].
  apply upholds_read, upholds_read, upholds_read.
  destruct (negb (nonempty (canvas_url w0)) || negb (nonempty (canvas_api_key w0))
            || negb (nonempty (todoist_api_key w0))) eqn:Hc.
  { repeat upholds_step (sync_frame_trace w0). }
  apply orb_false_iff in Hc as [[Hu%negb_false_iff Hk%negb_false_iff]%orb_false_iff _].
  unfold get_selected_courses_from_gui.
  apply upholds_bind; [apply upholds_read; by apply upholds_ret|].
  intros selected w1 Hsel Hw1.
  rewrite bind_read in Hsel. injection Hsel as <- <-.
  fold (checked w0).
  destruct (bool_decide (checked w0 = ∅)).
  { repeat upholds_step (sync_frame_trace w0). }
  apply upholds_bind; [by apply upholds_save_course_selection|].
  intros _ w2 _ Hw2.
  apply upholds_bind.
  { unfold start_sync. repeat upholds_step (sync_frame_trace w0). }
  intros _ w3 _ Hw3.
  apply upholds_bind; [by apply upholds_collector|].
  intros [assignments error] w4 Hcol Hw4.
  destruct error as [error|].
  { exfalso. destruct Hw3 as (Hu3 & Hk3 & _). rewrite <- Hu3 in Hu. rewrite <- Hk3 in Hk.
    pose proof (collector_result env (elements (checked w0)) w3 Hu Hk) as H.
    rewrite Hcol in H. done. }
  destruct assignments as [[|a l]|].
  - apply upholds_bind; [by upholds_step (sync_frame_trace w0)|]. intros _ w5 _ Hw5.
    apply upholds_bind; [by upholds_step (sync_frame_trace w0)|]. intros _ w6 _ Hw6.
    by apply upholds_finish_sync.
  - by apply upholds_create_tasks.
  - apply upholds_bind; [by upholds_step (sync_frame_trace w0)|]. intros _ w5 _ Hw5.
    apply upholds_bind; [by upholds_step (sync_frame_trace w0)|]. intros _ w6 _ Hw6.
    by apply upholds_finish_sync.
Qed.

End SyncEvents.


Lemma sync_starts_true w :
  sync_starts w = true ->
  is_syncing w = false
  /\ nonempty (canvas_url w) = true
  /\ nonempty (canvas_api_key w) = true
  /\ nonempty (todoist_api_key w) = true
  /\ checked w <> ∅.
Proof.
  unfold sync_starts, credentials_complete.
  intros [[Hs%negb_true_iff [[Hu Hk]%andb_true_iff Ht]%andb_true_iff]%andb_true_iff
            Hc%negb_true_iff]%andb_true_iff.
  by apply bool_decide_eq_false in Hc.
Qed.

(** A sync that starts saves the selection, announces itself, collects,
    and goes on with what it collected. *)
Lemma run_sync_process_steps env w :
  sync_starts w = true ->
  run_sync_process env w
  = publish_collected env (collected env w)
      (snd (get_canvas_assignments_for_courses env (elements (checked w))
              (snd (start_sync (checked w)
                      (snd (save_course_selection env (checked w) w)))))).
Proof.
  intros (Hs & Hu & Hk & Ht & Hc)%sync_starts_true.
  unfold run_sync_process. rewrite bind_read, Hs. cbv iota.
  rewrite !bind_read, Hu, Hk, Ht.
  change (negb true || negb true || negb true) with false. cbv beta iota.
  unfold get_selected_courses_from_gui.
  unfold bind at 1. rewrite bind_read. unfold ret at 1.
  fold (checked w).
  rewrite (bool_decide_eq_false_2 _ Hc).
  rewrite bind_save_course_selection.
  set (w1 := snd (save_course_selection env (checked w) w)).
  assert (canvas_url w1 = canvas_url w /\ canvas_api_key w1 = canvas_api_key w)
    as [Hu1 Hk1].
  { unfold w1, save_course_selection. by destruct (disk_writable env). }
  unfold bind at 1.
  assert (fst (start_sync (checked w) w1) = Ok tt) as Hst by done.
  destruct (start_sync (checked w) w1) as [r2 w2] eqn:Hw2. simpl in Hst. subst r2.
  assert (canvas_url w2 = canvas_url w1 /\ canvas_api_key w2 = canvas_api_key w1)
    as [Hu2 Hk2].
  { unfold start_sync, bind, modify, log, emit, modify in Hw2. by injection Hw2 as <-. }
  simpl snd. unfold bind at 1.
  pose proof (collector_result env (elements (checked w)) w2) as Hcol.
  rewrite Hu2, Hk2, Hu1, Hk1 in Hcol. specialize (Hcol Hu Hk).
  fold (collected env w) in Hcol.
  destruct (get_canvas_assignments_for_courses env (elements (checked w)) w2)
    as [r w3]. simpl in Hcol. subst r. simpl snd.
  unfold publish_collected. by destruct (collected env w).
Qed.

Lemma emitted_upholds {A} I P (m : M A) w e :
  upholds I P m w -> In e (emitted m w) -> P e.
Proof.
  intros (_ & evs & Ht & HP). rewrite (emitted_grows _ _ _ Ht).
  rewrite List.Forall_forall in HP. apply HP.
Qed.

(** X8: whatever Canvas and Todoist answer, a sync sends the Canvas key to
    addresses below the configured Canvas address only, and the Todoist key
    to the task endpoint of Todoist only; what it writes to the selection
    file is the selection checked in the window. *)
Theorem sync_requests_confined env w :
  (forall r, In (EvGet r) (emitted (run_sync_process env) w) ->
     String.prefix (with_slash (canvas_url w)) (url r) = true
     /\ req_headers r = bearer (canvas_api_key w)
     /\ json_body r = None)
  /\ (forall r, In (EvPost r) (emitted (run_sync_process env) w) ->
        url r = TODOIST_TASKS_URL
        /\ exists rid, req_headers r = task_headers (todoist_api_key w) rid)
  /\ (forall contents, In (EvWrite contents) (emitted (run_sync_process env) w) ->
        contents = selection_json (checked w)).
Proof.
  pose proof (upholds_run_sync_process env w) as H.
  split; [|split].
  - intros r Hr. exact (emitted_upholds _ _ _ _ _ H Hr).
  - intros r Hr. exact (emitted_upholds _ _ _ _ _ H Hr).
  - intros j Hj. exact (emitted_upholds _ _ _ _ _ H Hj).
Qed.

Lemma sync_requests_confined_witness :
  String.prefix (with_slash (canvas_url Sample.idle))
    (url (mkRequest (assignments_url Sample.base (KInt 101))
            (bearer "canvas-key") None 20)) = true
  /\ req_headers (mkRequest (assignments_url Sample.base (KInt 101))
                    (bearer "canvas-key") None 20)
     = bearer (canvas_api_key Sample.idle)
  /\ json_body (mkRequest (assignments_url Sample.base (KInt 101))
                  (bearer "canvas-key") None 20) = None.
Proof.
  apply (proj1 (sync_requests_confined Sample.env Sample.idle)).
  vm_compute. tauto.
Defined.

(** X9: a sync changes nothing of the course window and nothing of the
    state of the course fetch, and it keeps the three credentials, on every
    path, also when it raises. *)
Theorem sync_keeps_course_window env w :
  sync_frame w (snd (run_sync_process env w))
  /\ checked (snd (run_sync_process env w)) = checked w.
Proof.
  destruct (upholds_run_sync_process env w) as (Hf & _).
  split; [done|]. destruct Hf as (_ & _ & _ & _ & _ & _ & Hv & _).
  unfold checked. by rewrite Hv.
Qed.

(** The three early exits of [run_sync_process]. *)
Lemma sync_refused env w :
  sync_starts w = false ->
  exists notices,
    run_sync_process env w = (Ok tt, set_trace (trace w ++ notices) w)
    /\ Forall is_notice notices
    /\ notices <> [].
Proof.
  unfold sync_starts, credentials_complete, run_sync_process. intros Hs.
  rewrite bind_read. destruct (is_syncing w).
  { eexists [_]. split; [reflexivity|]. split; [by repeat constructor | done]. }
  rewrite !bind_read.
  destruct (nonempty (canvas_url w)), (nonempty (canvas_api_key w)),
    (nonempty (todoist_api_key w));
    try (unfold messagebox, log, emit, modify, bind; simpl;
         eexists [_; _]; split; [by rewrite <- app_assoc|];
         split; [by repeat constructor | done]).
  change (negb true || negb true || negb true) with false. cbv beta iota.
  unfold get_selected_courses_from_gui.
  unfold bind at 1. rewrite bind_read. unfold ret at 1. fold (checked w).
  simpl in Hs. apply negb_false_iff in Hs. rewrite Hs.
  unfold messagebox, log, emit, modify, bind. simpl.
  eexists [_; _]. split; [by rewrite <- app_assoc|].
  split; [by repeat constructor | done].
Qed.





(** ** Events a computation is sure to leave *)

Lemma emits_emit e w : emits e (emit e) w.
Proof. exists [e]. split; [done | by left]. Qed.

Lemma emits_bind_l {A B} P e (m : M A) (k : A -> M B) w :
  emits e m w -> (forall a, extends P (k a)) -> emits e (bind m k) w.
Proof.
  intros (evs & Hw & Hin) Hk. unfold emits, bind.
  destruct (m w) as [[a|x] w1]; simpl in *; [|by eauto].
  destruct (Hk a w1) as (evs2 & -> & _). subst w1.
  exists (evs ++ evs2)%list. split; [simpl; by rewrite <- app_assoc|].
  apply in_or_app. by left.
Qed.

Lemma emits_bind_r {A B} P e (m : M A) (k : A -> M B) w :
  extends P m ->
  (exists a, fst (m w) = Ok a) ->
  (forall a w1, emits e (k a) w1) ->
  emits e (bind m k) w.
Proof.
  intros Hm (a & Ha) Hk. unfold emits, bind.
  destruct (Hm w) as (evs & Hw & _).
  destruct (m w) as [r w1]; simpl in *. subst r w1.
  destruct (Hk a (set_trace (trace w ++ evs) w)) as (evs2 & -> & Hin).
  exists (evs ++ evs2)%list. split; [simpl; by rewrite <- app_assoc|].
  apply in_or_app. by right.
Qed.

Lemma emits_attempt {A} e (m : M A) w : emits e m w -> emits e (attempt m) w.
Proof.
  intros (evs & Hw & Hin). exists evs. split; [|done].
  unfold attempt. destruct (m w); done.
Qed.

Section Visits.

Variable env : Env.
Variable canvas_base : string.
Variable hs : list (string * string).

Let P := fun _ : Event => True.

Lemma any_event e : P e.
Proof. done. Qed.

Lemma emits_fetch_course c w :
  emits (EvGet (mkRequest (course_info_url canvas_base c) hs None 10))
    (fetch_course env canvas_base hs c) w.
Proof.
  pose proof any_event as HP.
  unfold fetch_course. apply (emits_bind_l P).
  - unfold requests_get. apply (emits_bind_l P); [apply emits_emit|].
    intros _. extends_auto.
  - intros r.
    extends_auto; first [apply extends_requests_get | apply extends_raise_for_status];
      done.
Qed.

Lemma emits_collect_course total i c acc w :
  emits (EvGet (mkRequest (course_info_url canvas_base c) hs None 10))
    (collect_course env canvas_base hs total i c acc) w.
Proof.
  pose proof any_event as HP.
  unfold collect_course. apply (emits_bind_r P).
  - by apply extends_log.
  - by exists tt.
  - intros _ w1. apply (emits_bind_l P).
    + apply emits_attempt, emits_fetch_course.
    + intros [[course_name assignments]|e].
      * apply extends_bind; [by apply extends_collect_assignments|].
        intros [acc' [e|]]; extends_auto; by apply extends_course_failed.
      * extends_auto; by apply extends_course_failed.
Qed.

Lemma emits_collect_courses total i course_ids acc w c :
  In c course_ids ->
  emits (EvGet (mkRequest (course_info_url canvas_base c) hs None 10))
    (collect_courses env canvas_base hs total i course_ids acc) w.
Proof.
  revert i acc w. induction course_ids as [|c0 rest IH]; intros i acc w; [done|].
  intros [<-|Hin]; simpl.
  - apply (emits_bind_l P); [apply emits_collect_course|].
    intros acc'. by apply extends_collect_courses.
  - apply (emits_bind_r P).
    + by apply extends_collect_course.
    + apply collect_course_ok.
    + intros acc' w1. by apply IH.
Qed.

End Visits.

Lemma emits_collector env course_ids w c :
  nonempty (canvas_url w) = true ->
  nonempty (canvas_api_key w) = true ->
  In c course_ids ->
  emits (EvGet (course_info_request w c))
    (get_canvas_assignments_for_courses env course_ids) w.
Proof.
  intros Hu Hk Hin. unfold get_canvas_assignments_for_courses, emits.
  rewrite !bind_read, Hu, Hk.
  change (negb true || negb true) with false. cbv beta iota.
  destruct course_ids as [|c0 rest]; [done|].
  apply (emits_bind_l (fun _ => True)); [by apply emits_collect_courses|].
  intros all. extends_auto.
Qed.

(** The world in which a sync that starts begins to publish. *)
Lemma sync_collects env w :
  sync_starts w = true ->
  exists saved collected_evs w3,
    snd (get_canvas_assignments_for_courses env (elements (checked w))
           (snd (start_sync (checked w)
                   (snd (save_course_selection env (checked w) w))))) = w3
    /\ emitted (save_course_selection env (checked w)) w = saved
    /\ trace w3
       = (trace w ++ saved
          ++ [EvLog (Fmt "--- Starting Sync Process for {} selected courses ---"
                         [TInt (Z.of_nat (size (checked w)))])]
          ++ collected_evs)%list
    /\ Forall (fun e => is_log e \/ is_get e = true) collected_evs
    /\ (forall c, c ∈ checked w -> In (EvGet (course_info_request w c)) collected_evs)
    /\ config_file w3 = config_file (snd (save_course_selection env (checked w) w))
    /\ is_syncing w3 = true
    /\ sync_button w3 = mkButton "Syncing..." false
    /\ todoist_api_key w3 = todoist_api_key w.
Proof.
  intros (Hs & Hu & Hk & Ht & Hc)%sync_starts_true.
  set (w1 := snd (save_course_selection env (checked w) w)).
  assert (exists saved,
            trace w1 = (trace w ++ saved)%list
            /\ canvas_url w1 = canvas_url w
            /\ canvas_api_key w1 = canvas_api_key w
            /\ todoist_api_key w1 = todoist_api_key w)
    as (saved & Ht1 & Hu1 & Hk1 & Hd1).
  { unfold w1, save_course_selection. destruct (disk_writable env); simpl.
    - eexists [_; _]. by rewrite <- app_assoc.
    - eexists [_; _]. by rewrite <- app_assoc. }
  assert (emitted (save_course_selection env (checked w)) w = saved) as Hsaved.
  { by apply emitted_grows. }
  set (w2 := snd (start_sync (checked w) w1)).
  assert (canvas_url w2 = canvas_url w /\ canvas_api_key w2 = canvas_api_key w)
    as [Hu2 Hk2] by (by rewrite <- Hu1, <- Hk1).
  assert (trace w2
          = ((trace w ++ saved)
             ++ [EvLog (Fmt "--- Starting Sync Process for {} selected courses ---"
                            [TInt (Z.of_nat (size (checked w)))])])%list) as Ht2.
  { unfold w2. simpl. by rewrite Ht1. }
  assert (config_file w2 = config_file w1 /\ is_syncing w2 = true
          /\ sync_button w2 = mkButton "Syncing..." false
          /\ todoist_api_key w2 = todoist_api_key w) as (Hc2 & Hs2 & Hb2 & Hd2)
    by (by rewrite <- Hd1).
  clearbody w2.
  assert (extends (fun e => is_log e \/ is_get e = true)
            (get_canvas_assignments_for_courses env (elements (checked w))))
    as Hext.
  { apply extends_get_canvas_assignments_for_courses; [by left | by right]. }
  destruct (Hext w2) as (evs & Hw3 & Hevs).
  exists saved, evs. eexists. split; [reflexivity|]. split; [done|].
  rewrite Hw3. split; [simpl; rewrite Ht2; by rewrite <- !app_assoc|].
  split; [done|]. split; [|by repeat split].
  intros c Hin.
  destruct (emits_collector env (elements (checked w)) w2 c) as (evs' & Hw3' & Hin').
  - by rewrite Hu2.
  - by rewrite Hk2.
  - by apply list_elem_of_In, elem_of_elements.
  - rewrite Hw3 in Hw3'.
    assert (evs = evs') as <-.
    { apply (f_equal trace) in Hw3'. simpl in Hw3'. by apply app_inv_head in Hw3'. }
    unfold course_info_request in *. by rewrite <- Hu2, <- Hk2.
Qed.



(** X11: a sync never shows the "Sync Error" dialog: the collector returns
    an error only for missing credentials, which the sync has checked
    before.  When no request to Canvas succeeds, the sync therefore ends
    like a sync with nothing to do: it reports that no new assignment was
    found, and sends nothing to Todoist. *)
Theorem canvas_outage_reads_as_nothing_to_do env w :
  (forall message,
      ~ In (EvDialog (showerror "Sync Error" message))
           (emitted (run_sync_process env) w))
  /\ (sync_starts w = true ->
      (forall r, fetch_fails (canvas_get env r)) ->
      exists w',
        run_sync_process env w = (Ok tt, w')
        /\ last (trace w')
           = Some (EvDialog (showinfo "Sync Complete"
                     (Lit "No new assignments found in selected courses to sync.")))
        /\ is_syncing w' = false
        /\ List.filter is_post (emitted (run_sync_process env) w) = []).
Proof.
  split.
  - intros message Hin.
    by apply (emitted_upholds _ _ _ _ _ (upholds_run_sync_process env w)) in Hin.
  - intros Hs Hfail.
    assert (collected env w = []) as Hnone.
    { unfold collected. induction (elements (checked w)) as [|c l IH]; [done|].
      simpl. rewrite IH, app_nil_r. apply fetch_fails_fetched. left. apply Hfail. }
    destruct (sync_collects env w Hs)
      as (saved & evs & w3 & Hw3 & Hsaved & Ht3 & Hevs & _).
    rewrite (run_sync_process_steps env w Hs), Hnone, Hw3.
    unfold emitted. rewrite (run_sync_process_steps env w Hs), Hnone, Hw3.
    unfold publish_collected, finish_sync, messagebox, log, emit, modify, bind.
    simpl. eexists. split; [reflexivity|]. simpl.
    split; [by rewrite last_snoc|]. split; [done|].
    rewrite Ht3, <- !app_assoc, drop_app_length, !List.filter_app. simpl.
    assert (List.filter is_post evs = []) as ->.
    { clear -Hevs. induction Hevs as [|e l He _ IH]; [done|]. simpl.
      by destruct e, He. }
    rewrite app_nil_r.
    assert (List.filter is_post saved = []) as ->; [|done].
    rewrite <- Hsaved. unfold emitted, save_course_selection.
    destruct (disk_writable env); simpl;
      by rewrite <- app_assoc, drop_app_length.
Qed.

Lemma canvas_outage_reads_as_nothing_to_do_witness :
  exists w',
    run_sync_process Outage.env Sample.idle = (Ok tt, w')
    /\ last (trace w')
       = Some (EvDialog (showinfo "Sync Complete"
                 (Lit "No new assignments found in selected courses to sync."))).
Proof.
  destruct (proj2 (canvas_outage_reads_as_nothing_to_do Outage.env Sample.idle))
    as (w' & H1 & H2 & _).
  - vm_compute. reflexivity.
  - intros r. exists (RequestException None). reflexivity.
  - exists w'. split; [exact H1 | exact H2].
Defined.




(** ** Counting requests *)

Section Budget.

Variable c : Event -> bool.

Lemma budget_quiet {A} (m : M A) :
  extends (fun e => c e = false) m -> budget c 0 0 m.
Proof.
  intros Hm w. destruct (Hm w) as (evs & Hw & Hq). exists evs. split; [done|].
  assert (List.filter c evs = []) as ->; [|simpl; lia].
  clear Hw. induction Hq as [|e l He _ IH]; [done|]. simpl. by rewrite He.
Qed.

Lemma budget_weaken {A} lo hi lo' hi' (m : M A) :
  budget c lo hi m -> (lo' <= lo)%nat -> (hi <= hi')%nat -> budget c lo' hi' m.
Proof.
  intros Hm ? ? w. destruct (Hm w) as (evs & Hw & Hc). exists evs.
  split; [done | lia].
Qed.

Lemma budget_emit e : budget c (if c e then 1 else 0) (if c e then 1 else 0) (emit e).
Proof. intros w. exists [e]. split; [done|]. simpl. destruct (c e); simpl; lia. Qed.

(** What follows may not be reached: only the lower bound of [m] is
    kept. *)
Lemma budget_bind {A B} lo hi hi2 (m : M A) (k : A -> M B) :
  budget c lo hi m -> (forall a, budget c 0 hi2 (k a)) ->
  budget c lo (hi + hi2) (bind m k).
Proof.
  intros Hm Hk w. unfold bind. destruct (Hm w) as (evs & Hw & Hc).
  destruct (m w) as [[a|x] w1]; simpl in *; subst w1.
  - destruct (Hk a (set_trace (trace w ++ evs) w)) as (evs2 & -> & Hc2).
    exists (evs ++ evs2)%list. split; [simpl; by rewrite <- app_assoc|].
    rewrite List.filter_app, length_app. lia.
  - exists evs. split; [done | lia].
Qed.

(** What follows is reached: both bounds add up. *)
Lemma budget_bind_returns {A B} lo hi lo2 hi2 (m : M A) (k : A -> M B) :
  budget c lo hi m -> returns m -> (forall a, budget c lo2 hi2 (k a)) ->
  budget c (lo + lo2) (hi + hi2) (bind m k).
Proof.
  intros Hm Hr Hk w. unfold bind. destruct (Hm w) as (evs & Hw & Hc).
  destruct (Hr w) as (a & Ha).
  destruct (m w) as [r w1]; simpl in *; subst r w1.
  destruct (Hk a (set_trace (trace w ++ evs) w)) as (evs2 & -> & Hc2).
  exists (evs ++ evs2)%list. split; [simpl; by rewrite <- app_assoc|].
  rewrite List.filter_app, length_app. lia.
Qed.

Lemma budget_attempt {A} lo hi (m : M A) :
  budget c lo hi m -> budget c lo hi (attempt m).
Proof.
  intros Hm w. destruct (Hm w) as (evs & Hw & Hc). exists evs. split; [|done].
  unfold attempt. by destruct (m w).
Qed.

Lemma budget_try_except {A} lo hi (m : M A) (h : PyExn -> M A) :
  budget c lo hi m -> (forall e, budget c 0 0 (h e)) ->
  budget c lo hi (try_except m h).
Proof.
  intros Hm Hh w. unfold try_except. destruct (Hm w) as (evs & Hw & Hc).
  destruct (m w) as [[a|x] w1]; simpl in *; subst w1; [by exists evs|].
  destruct (Hh x (set_trace (trace w ++ evs) w)) as (evs2 & -> & Hc2).
  exists (evs ++ evs2)%list. split; [simpl; by rewrite <- app_assoc|].
  rewrite List.filter_app, length_app. lia.
Qed.

End Budget.

Lemma returns_log m : returns (log m).
Proof. intros w. by exists tt. Qed.

Section CollectorBudget.

Variable env : Env.
Variable canvas_base : string.
Variable hs : list (string * string).

Lemma quiet_get_log m : extends (fun e => is_get e = false) (log m).
Proof. by apply extends_emit. Qed.

Lemma budget_requests_get u tmo : budget is_get 1 1 (requests_get env u hs tmo).
Proof.
  unfold requests_get.
  apply (budget_bind is_get 1 1 0 (emit _)); [apply (budget_emit is_get (EvGet _))|].
  intros _. apply budget_quiet. extends_auto.
Qed.

Lemma budget_fetch_course course_id :
  budget is_get 1 2 (fetch_course env canvas_base hs course_id).
Proof.
  assert (forall m, (fun e => is_get e = false) (EvLog m)) as Hlog by done.
  unfold fetch_course.
  apply (budget_bind is_get 1 1 1); [apply budget_requests_get|]. intros r1.
  apply (budget_bind is_get 0 0 1);
    [apply budget_quiet; by apply extends_raise_for_status|]. intros _.
  apply (budget_bind is_get 0 0 1); [apply budget_quiet, extends_lift|].
  intros course_data.
  apply (budget_bind is_get 0 0 1); [apply budget_quiet, extends_lift|].
  intros course_name.
  apply (budget_weaken is_get 1 (1 + 0)); [|lia|lia].
  apply (budget_bind is_get 1 1 0); [apply budget_requests_get|]. intros r2.
  apply budget_quiet.
  apply extends_bind; [by apply extends_raise_for_status|]. intros _.
  extends_auto.
Qed.

Lemma budget_collect_course total i course_id acc :
  budget is_get 1 2 (collect_course env canvas_base hs total i course_id acc).
Proof.
  assert (forall m, (fun e => is_get e = false) (EvLog m)) as Hlog by done.
  unfold collect_course.
  apply (budget_bind_returns is_get 0 0 1 2);
    [apply budget_quiet, quiet_get_log | apply returns_log|]. intros _.
  apply (budget_bind is_get 1 2 0);
    [apply budget_attempt, budget_fetch_course|].
  intros [[course_name assignments]|e]; apply budget_quiet.
  - apply extends_bind; [by apply extends_collect_assignments|].
    intros [acc' [e|]]; extends_auto; by apply extends_course_failed.
  - extends_auto; by apply extends_course_failed.
Qed.

Lemma budget_collect_courses total i course_ids acc :
  budget is_get (length course_ids) (2 * length course_ids)
    (collect_courses env canvas_base hs total i course_ids acc).
Proof.
  revert i acc. induction course_ids as [|c0 rest IH]; intros i acc.
  - apply budget_quiet. apply extends_ret.
  - simpl collect_courses.
    apply (budget_weaken is_get (1 + length rest) (2 + 2 * length rest));
      [|simpl; lia | simpl; lia].
    apply budget_bind_returns; [apply budget_collect_course| |intros; apply IH].
    intros w. apply collect_course_ok.
Qed.

End CollectorBudget.

(** X13: the collector changes nothing but the trace, to which it adds log
    lines and requests to Canvas only.  It sends at least one and at most
    two requests for each course it is asked about, and none at all without
    the Canvas credentials. *)
Theorem collector_request_budget env course_ids w :
  exists evs,
    snd (get_canvas_assignments_for_courses env course_ids w)
    = set_trace (trace w ++ evs) w
    /\ Forall (fun e => is_log e \/ is_get e = true) evs
    /\ (length (List.filter is_get evs) <= 2 * length course_ids)%nat
    /\ (if nonempty (canvas_url w) && nonempty (canvas_api_key w)
        then (length course_ids <= length (List.filter is_get evs))%nat
        else List.filter is_get evs = []).
Proof.
  assert (extends (fun e => is_log e \/ is_get e = true)
            (get_canvas_assignments_for_courses env course_ids)) as Hext.
  { apply extends_get_canvas_assignments_for_courses; [by left | by right]. }
  destruct (Hext w) as (evs & Hw & Hevs).
  exists evs. split; [done|]. split; [done|].
  assert (forall evs', snd (get_canvas_assignments_for_courses env course_ids w)
                       = set_trace (trace w ++ evs') w -> evs' = evs) as Huniq.
  { intros evs' H. rewrite Hw in H. apply (f_equal trace) in H. simpl in H.
    by apply app_inv_head in H. }
  revert Huniq. unfold get_canvas_assignments_for_courses. rewrite !bind_read.
  destruct (nonempty (canvas_url w)), (nonempty (canvas_api_key w)); simpl;
    try (intros Huniq;
         rewrite <- (Huniq [EvLog (Lit "Canvas URL or API Key missing.")] eq_refl);
         simpl; split; [lia | done]).
  destruct course_ids as [|c0 rest].
  { intros Huniq.
    rewrite <- (Huniq [EvLog (Lit "No courses selected for sync.")] eq_refl).
    simpl. split; [lia | lia]. }
  intros Huniq.
  match type of Huniq with
  | forall evs', snd (?m w) = _ -> _ =>
      assert (budget is_get (length (c0 :: rest)) (2 * length (c0 :: rest) + 0) m)
        as Hb
  end.
  { apply budget_bind; [apply budget_collect_courses|]. intros all.
    apply budget_quiet. extends_auto. }
  destruct (Hb w) as (evs' & Hw' & Hc).
  rewrite <- (Huniq evs' Hw'). lia.
Qed.


(** ** Records the publisher cannot handle *)

Lemma task_request_raises env api_key a w :
  publishable a = false ->
  exists e,
    task_request env api_key a w = (Raise e, w)
    /\ (e = AttributeError \/ e = TypeError).
Proof.
  unfold task_request, request_id, bind, lift.
  destruct a as [| | | | |d];
    try (intros _; exists AttributeError; split; [done | by left]).
  unfold publishable.
  destruct (hash_input (JObj d)) as [v|e0] eqn:Hh; [|by simpl in Hh].
  unfold rbind, str_hash.
  destruct (Py.hashable v); simpl.
  2: { intros _. exists TypeError. split; [done | by right]. }
  unfold due_string_of, bind, lift. simpl.
  destruct (Py.dict_get d "due_at") as [due|]; [|done].
  destruct due; simpl; try done;
    try (intros _; exists AttributeError; split; [done | by left]).
  - destruct b; [|done]. intros _. exists AttributeError. split; [done | by left].
  - destruct (z =? 0); [done|]. intros _. exists AttributeError.
    split; [done | by left].
  - destruct items; [done|]. intros _. exists AttributeError.
    split; [done | by left].
  - destruct fields; [done|]. intros _. exists AttributeError.
    split; [done | by left].
Qed.

Lemma create_todoist_task_raises env a w :
  nonempty (todoist_api_key w) = true ->
  publishable a = false ->
  exists e, create_todoist_task env a w = (Raise e, w)
            /\ (e = AttributeError \/ e = TypeError).
Proof.
  intros Hkey Hp. unfold create_todoist_task. rewrite bind_read, Hkey.
  change (negb true) with false. cbv iota. unfold bind at 1.
  destruct (task_request_raises env (todoist_api_key w) a w Hp) as (e & -> & He).
  by exists e.
Qed.

(** X14: with a Todoist key, the publisher raises exactly on the records it
    cannot turn into a request -- a record that is not an object, whose
    link is a list or an object, or whose due date is a number, a list or
    an object.  The exception is an [AttributeError] or a [TypeError]; it
    is raised before the [try], so nothing is sent, logged or changed. *)
Theorem publisher_raises_on_unpublishable env a w :
  nonempty (todoist_api_key w) = true ->
  (publishable a = false
   <-> exists e, create_todoist_task env a w = (Raise e, w))
  /\ (forall e, fst (create_todoist_task env a w) = Raise e ->
        e = AttributeError \/ e = TypeError).
Proof.
  intros Hkey.
  pose proof (create_todoist_task_raises env a w Hkey) as Hraise.
  split; [split|].
  - intros (e & He & _)%Hraise. eauto.
  - intros (e & He). destruct (publishable a) eqn:Hp; [|done].
    destruct (create_todoist_task_returns env a w Hp) as (res & w' & Hok).
    congruence.
  - intros e He. destruct (publishable a) eqn:Hp.
    + destruct (create_todoist_task_returns env a w Hp) as (res & w' & Hok).
      rewrite Hok in He. done.
    + destruct (Hraise eq_refl) as (e' & He' & Hcase). rewrite He' in He.
      simpl in He. congruence.
Qed.

Lemma publisher_raises_on_unpublishable_witness :
  exists e,
    create_todoist_task Sample.env
      (JObj [("name", JStr "Essay"); ("due_at", JInt 20240105)]) Sample.idle
    = (Raise e, Sample.idle).
Proof.
  apply (proj1 (publisher_raises_on_unpublishable Sample.env
                  (JObj [("name", JStr "Essay"); ("due_at", JInt 20240105)])
                  Sample.idle eq_refl)).
  reflexivity.
Defined.


Lemma publish_all_raises env total i good bad rest synced errors w :
  nonempty (todoist_api_key w) = true ->
  Forall (fun a => publishable a = true) good ->
  publishable bad = false ->
  exists e w',
    publish_all env total i (good ++ bad :: rest) synced errors w = (Raise e, w')
    /\ (e = AttributeError \/ e = TypeError).
Proof.
  intros Hkey Hgood Hbad. revert i synced errors w Hkey.
  induction Hgood as [|a good Ha _ IH]; intros i synced errors w Hkey; simpl.
  - destruct bad as [| | | | |d];
      try (by exists AttributeError, w; split; [done | left]).
    unfold bind at 1, lift at 1. simpl Py.get. cbv beta iota.
    unfold bind at 1, lift at 1. simpl Py.get. cbv beta iota.
    unfold bind at 1, log at 1, emit at 1, modify at 1. cbv beta iota.
    unfold bind at 1.
    match goal with
    | |- context [create_todoist_task env ?a ?w1] =>
        destruct (create_todoist_task_raises env a w1 Hkey Hbad)
          as (e & -> & He)
    end.
    eauto.
  - destruct a as [| | | | |d]; try done.
    unfold bind at 1, lift at 1. simpl Py.get. cbv beta iota.
    unfold bind at 1, lift at 1. simpl Py.get. cbv beta iota.
    unfold bind at 1, log at 1, emit at 1, modify at 1. cbv beta iota.
    unfold bind at 1.
    match goal with
    | |- context [create_todoist_task env ?a ?w1] =>
        destruct (create_todoist_task_returns env a w1 Ha) as ([task error] & w2 & Hc);
        destruct (extends_run (fun _ => True) _ w1 _ _
                    (extends_create_todoist_task env _ (fun _ => I) (fun _ => I) a
                       (fun _ _ _ _ => I)) Hc) as (evs & Hw2 & _)
    end.
    rewrite Hc.
    assert (nonempty (todoist_api_key w2) = true) as Hkey2 by (by rewrite Hw2).
    destruct error as [error|]; simpl.
    + apply IH. done.
    + destruct (Py.truthy task); simpl; apply IH; done.
Qed.

Lemma extends_publish_all_events env P total i assignments synced errors :
  (forall m, P (EvLog m)) ->
  (forall d, P (EvSleep d)) ->
  (forall r, P (EvPost r)) ->
  extends P (publish_all env total i assignments synced errors).
Proof.
  intros P_log P_sleep P_post. revert i synced errors.
  induction assignments as [|a rest IH]; intros i synced errors; simpl.
  - extends_auto.
  - apply extends_bind; [extends_auto|]. intros name.
    apply extends_bind; [extends_auto|]. intros course_name.
    apply extends_bind; [extends_auto|]. intros _.
    apply extends_bind; [apply extends_create_todoist_task; auto|].
    intros [task [error|]].
    + apply extends_bind; [extends_auto|]. intros [s e].
      apply extends_bind; [extends_auto | intros _; apply IH].
    + apply extends_bind; [extends_auto|]. intros [s e].
      apply extends_bind; [extends_auto | intros _; apply IH].
Qed.

(** X15: one record the publisher cannot handle makes the whole sync raise:
    the records before it are published, the record and those after it are
    not.  No dialog follows the saving of the selection, so the operator
    gets no report.  The exception leaves the sync marked as running and
    its button disabled, so that every later sync is refused with the line
    "Sync already in progress." *)
Theorem unpublishable_record_blocks_later_syncs env w good bad rest :
  sync_starts w = true ->
  collected env w = (good ++ bad :: rest)%list ->
  Forall (fun a => publishable a = true) good ->
  publishable bad = false ->
  exists e w' after_save,
    run_sync_process env w = (Raise e, w')
    /\ (e = AttributeError \/ e = TypeError)
    /\ is_syncing w' = true
    /\ sync_button w' = mkButton "Syncing..." false
    /\ emitted (run_sync_process env) w
       = (emitted (save_course_selection env (checked w)) w ++ after_save)%list
    /\ Forall (fun e => match e with EvDialog _ => False | _ => True end) after_save
    /\ run_sync_process env w'
       = (Ok tt, set_trace (trace w' ++ [EvLog (Lit "Sync already in progress.")]) w').
Proof.
  intros Hs Hcol Hgood Hbad.
  destruct (sync_collects env w Hs)
    as (saved & evs & w3 & Hw3 & Hsaved & Ht3 & Hevs & _ & _ & Hs3 & Hb3 & Hk3).
  pose proof (sync_starts_true w Hs) as (_ & _ & _ & Hkey & _).
  unfold emitted at 1.
  rewrite (run_sync_process_steps env w Hs), Hw3, Hcol.
  assert (publish_collected env (good ++ bad :: rest)
          = create_tasks env (good ++ bad :: rest)) as ->.
  { unfold publish_collected. by destruct good. }
  set (P := fun e : Event => match e with EvDialog _ => False | _ => True end).
  assert (exists e w' evs',
             create_tasks env (good ++ bad :: rest) w3 = (Raise e, w')
             /\ (e = AttributeError \/ e = TypeError)
             /\ w' = set_trace (trace w3 ++ evs') w3
             /\ Forall P evs') as (e & w' & evs' & Hrun & He & Hw' & Hevs').
  { unfold create_tasks. unfold bind at 1, log at 1, emit at 1, modify at 1.
    cbv beta iota. set (w4 := set_trace _ w3).
    assert (nonempty (todoist_api_key w4) = true) as Hkey4.
    { unfold w4. simpl. by rewrite Hk3. }
    destruct (publish_all_raises env (Z.of_nat (length (good ++ bad :: rest))) 0
                good bad rest 0 0 w4 Hkey4 Hgood Hbad) as (e & w' & Hp & He).
    destruct (extends_run P _ _ _ _
                (extends_publish_all_events env P _ 0 (good ++ bad :: rest) 0 0
                   (fun _ => I) (fun _ => I) (fun _ => I)) Hp)
      as (evs' & Hw' & HP).
    unfold bind at 1. rewrite Hp.
    exists e, w'. eexists (_ :: evs'). split; [done|]. split; [done|]. split.
    - rewrite Hw'. unfold w4. simpl. by rewrite <- app_assoc.
    - by constructor. }
  rewrite Hrun. exists e, w'. eexists. split; [done|]. split; [done|].
  rewrite Hw'. split; [done|]. split; [done|]. split; [|split].
  - simpl. rewrite Ht3, <- !app_assoc, drop_app_length, Hsaved. reflexivity.
  - constructor; [done|]. apply Forall_app. split; [|done].
    eapply Forall_impl; [exact Hevs|]. by intros [] [].
  - unfold run_sync_process. rewrite bind_read. simpl. by rewrite Hs3.
Qed.

Lemma unpublishable_record_blocks_later_syncs_witness :
  exists e w',
    run_sync_process NumericDueDate.env Sample.idle = (Raise e, w')
    /\ is_syncing w' = true.
Proof.
  assert (exists bad,
            collected NumericDueDate.env Sample.idle = ([] ++ bad :: [])%list
            /\ publishable bad = false) as (bad & Hc & Hb).
  { eexists. split; vm_compute; reflexivity. }
  destruct (unpublishable_record_blocks_later_syncs NumericDueDate.env
              Sample.idle [] bad [])
    as (e & w' & _ & H1 & _ & H2 & _).
  - vm_compute. reflexivity.
  - exact Hc.
  - constructor.
  - exact Hb.
  - exists e, w'. split; [exact H1 | exact H2].
Defined.


(** ** What one publish call leaves *)

Lemma events_unique w (evs evs' : list Event) :
  set_trace (trace w ++ evs) w = set_trace (trace w ++ evs') w -> evs = evs'.
Proof.
  intros H. apply (f_equal trace) in H. simpl in H. by apply app_inv_head in H.
Qed.

Section PublishCall.

Variable env : Env.

Lemma budget_requests_post r : budget is_post 1 1 (requests_post env r).
Proof.
  unfold requests_post. intros w. rewrite bind_read.
  match goal with
  | |- exists evs, snd (?m w) = _ /\ _ => assert (budget is_post 1 1 m) as Hb
  end.
  { apply (budget_bind is_post 1 1 0 (emit _));
      [apply (budget_emit is_post (EvPost _))|].
    intros _. apply budget_quiet. extends_auto. }
  apply Hb.
Qed.

(** The [try] statement of [create_todoist_task], for a request [r]. *)
Lemma try_posting (body : M (json * option Text)) handler r k :
  body = bind (requests_post env r) k ->
  (forall response, budget is_post 0 1 (k response)) ->
  (forall response,
     extends (fun e => is_pause e = false) (k response)) ->
  (forall e, extends (fun e => is_pause e = false /\ is_post e = false) (handler e)) ->
  forall w, exists evs,
    snd (try_except body handler w) = set_trace (trace w ++ evs) w
    /\ Forall (fun e => is_pause e = false) evs
    /\ (1 <= length (List.filter is_post evs) <= 2)%nat.
Proof.
  intros -> Hk Hq Hh w.
  assert (budget is_post 1 2 (try_except (bind (requests_post env r) k) handler))
    as Hb.
  { apply budget_try_except.
    - apply (budget_bind is_post 1 1 1); [apply budget_requests_post | done].
    - intros e. apply budget_quiet.
      apply (extends_weaken (fun e => is_pause e = false /\ is_post e = false));
        [by intros ? [_ ?] | done]. }
  assert (extends (fun e => is_pause e = false)
            (try_except (bind (requests_post env r) k) handler)) as He.
  { apply extends_try_except.
    - apply extends_bind; [by apply extends_requests_post | done].
    - intros e.
      apply (extends_weaken (fun e => is_pause e = false /\ is_post e = false));
        [by intros ? [? _] | done]. }
  destruct (Hb w) as (evs & Hw & Hc). destruct (He w) as (evs' & Hw' & Hp).
  rewrite Hw in Hw'. apply events_unique in Hw' as <-. eauto.
Qed.

(** The [try] statement sends its request first, whatever follows. *)
Lemma try_posting_first (body : M (json * option Text)) handler r k :
  body = bind (requests_post env r) k ->
  (forall response, extends (fun _ => True) (k response)) ->
  (forall e, extends (fun _ => True) (handler e)) ->
  forall w, exists tail,
    snd (try_except body handler w) = set_trace (trace w ++ EvPost r :: tail) w.
Proof.
  intros -> Hk Hh w. unfold try_except, bind, requests_post. rewrite bind_read.
  unfold bind, emit, modify. cbv beta iota.
  set (w1 := set_trace (trace w ++ [EvPost r]) w).
  assert (forall (m : M (json * option Text)),
            extends (fun _ => True) (try_except m handler) ->
            exists tail,
              snd (try_except m handler w1)
              = set_trace (trace w ++ EvPost r :: tail) w) as Hrest.
  { intros m Hm. destruct (Hm w1) as (tail & -> & _). exists tail.
    unfold w1. simpl. by rewrite <- app_assoc. }
  destruct (todoist_post env (count_posts (trace w)) r) as [|response]; simpl.
  - destruct (Hrest (raise (RequestException None))) as (tail & Ht).
    { apply extends_try_except; [apply extends_raise | done]. }
    exists tail. exact Ht.
  - destruct (Hrest (k response)) as (tail & Ht).
    { by apply extends_try_except. }
    exists tail. exact Ht.
Qed.

Lemma create_todoist_task_events a w :
  exists evs,
    snd (create_todoist_task env a w) = set_trace (trace w ++ evs) w
    /\ Forall (fun e => is_pause e = false) evs
    /\ (length (List.filter is_post evs) <= 2)%nat
    /\ (nonempty (todoist_api_key w) = true ->
        (exists res, fst (create_todoist_task env a w) = Ok res) ->
        (1 <= length (List.filter is_post evs))%nat)
    /\ (nonempty (todoist_api_key w) = false ->
        evs = [EvLog (Lit "Todoist API Key missing.")]).
Proof.
  set (Q := fun e : Event => is_pause e = false /\ is_post e = false).
  assert (forall m, Q (EvLog m)) as Qlog by done.
  assert (forall d, Q (EvSleep (Seconds d))) as Qsleep by done.
  assert (forall e, Q e -> is_pause e = false) as Q1 by (by intros ? [? _]).
  assert (forall e, Q e -> is_post e = false) as Q2 by (by intros ? [_ ?]).
  destruct (create_todoist_task env a w) as [res w'] eqn:Hc. simpl fst. simpl snd.
  unfold create_todoist_task in Hc. rewrite bind_read in Hc.
  destruct (nonempty (todoist_api_key w)) eqn:Hkey.
  2: { change (negb false) with true in Hc. cbv iota in Hc.
       injection Hc as <- <-. exists [EvLog (Lit "Todoist API Key missing.")].
       split; [done|]. split; [by repeat constructor|]. split; [simpl; lia|]. done. }
  change (negb true) with false in Hc. cbv iota in Hc.
  unfold bind at 1 in Hc.
  destruct (task_request env (todoist_api_key w) a w) as [[request|e] w0] eqn:Htr.
  2: { injection Hc as <- <-.
       destruct (extends_run Q _ _ _ _
                   (extends_task_request env Q Qlog _ _) Htr) as (logs & -> & Hl).
       exists logs. split; [done|].
       assert (List.filter is_post logs = []) as ->.
       { clear -Hl Q2. induction Hl as [|e0 l He _ IH]; [done|]. simpl.
         by rewrite (Q2 _ He). }
       split; [eapply Forall_impl; [exact Hl | exact Q1]|].
       split; [simpl; lia|]. split; [by intros _ [? ?] | done]. }
  destruct (extends_run Q _ _ _ _
              (extends_task_request env Q Qlog _ _) Htr) as (logs & Hw0 & Hl).
  assert (List.filter is_post logs = []) as Hnone.
  { clear -Hl Q2. induction Hl as [|e l He _ IH]; [done|]. simpl.
    by rewrite (Q2 _ He). }
  match type of Hc with
  | try_except ?body ?handler w0 = _ =>
      destruct (try_posting body handler request _ eq_refl) with (w := w0)
        as (evs & Hw & Hp & Hcount)
  end.
  - intros response.
    apply (budget_bind is_post 0 1 0).
    + destruct (status_code response =? 429).
      * apply (budget_bind is_post 0 0 1); [apply budget_quiet, extends_lift|].
        intros retry_after.
        apply (budget_bind is_post 0 0 1);
          [apply budget_quiet; by apply extends_log|]. intros _.
        apply (budget_bind is_post 0 0 1).
        { apply budget_quiet. unfold time_sleep.
          destruct (retry_after <? 0); [apply extends_raise | by apply extends_emit]. }
        intros _. apply (budget_weaken is_post 1 1); [|lia|lia].
        apply budget_requests_post.
      * apply (budget_weaken is_post 0 0); [|lia|lia].
        apply budget_quiet, extends_ret.
    + intros response'. apply budget_quiet.
      apply extends_bind; [by apply extends_raise_for_status|]. intros _.
      extends_auto.
  - intros response.
    apply extends_bind.
    + destruct (status_code response =? 429); [|apply extends_ret].
      apply extends_bind; [apply extends_lift|]. intros retry_after.
      apply extends_bind; [by apply extends_log|]. intros _.
      apply extends_bind.
      { unfold time_sleep.
        destruct (retry_after <? 0); [apply extends_raise | by apply extends_emit]. }
      intros _. by apply extends_requests_post.
    + intros response'.
      apply extends_bind; [by apply extends_raise_for_status|]. intros _.
      extends_auto.
  - intros e. extends_auto.
  - rewrite Hc in Hw. simpl in Hw. subst w' w0.
    exists (logs ++ evs)%list. simpl.
    split; [by rewrite <- app_assoc|].
    split; [apply Forall_app; split; [|done]; eapply Forall_impl; [exact Hl | exact Q1]|].
    rewrite List.filter_app, length_app, Hnone. simpl.
    split; [lia|]. split; [intros; lia | done].
Qed.

End PublishCall.

Lemma create_todoist_task_shape env a w task error w' :
  create_todoist_task env a w = (Ok (task, error), w') ->
  error <> None -> task = JNull.
Proof.
  unfold create_todoist_task. rewrite bind_read.
  destruct (negb (nonempty (todoist_api_key w))).
  { intros (? & ? & _ & [= <- <- _])%bind_ok. done. }
  intros (request & w0 & _ & Htry)%bind_ok. unfold try_except in Htry.
  match type of Htry with
  | match ?body w0 with _ => _ end = _ =>
      destruct (body w0) as [[res|e] w1] eqn:Hbody
  end.
  - injection Htry as -> <-.
    apply bind_ok in Hbody as (r1 & v1 & _ & H).
    apply bind_ok in H as (r2 & v2 & _ & H).
    apply bind_ok in H as (? & v3 & _ & H).
    apply bind_ok in H as (name & v4 & _ & H).
    apply bind_ok in H as (? & v5 & _ & H).
    apply bind_ok in H as (t & v6 & _ & [= <- <- _]). done.
  - destruct (is_request_exception e).
    + apply bind_ok in Htry as (? & ? & _ & [= <- <- _]). done.
    + apply bind_ok in Htry as (? & ? & _ & [= <- <- _]). done.
Qed.

(** X16: a publish call changes nothing but the trace.  It sends at most
    two requests; with a Todoist key, a call that returns has sent at least
    one; without a key it sends none and only logs that the key is missing,
    whatever the record.  An error never comes with a task: when the call
    returns an error message, the task it returns is [None]. *)
Theorem publish_call_outcome env a w :
  exists evs,
    snd (create_todoist_task env a w) = set_trace (trace w ++ evs) w
    /\ (length (List.filter is_post evs) <= 2)%nat
    /\ (nonempty (todoist_api_key w) = true ->
        (exists res, fst (create_todoist_task env a w) = Ok res) ->
        (1 <= length (List.filter is_post evs))%nat)
    /\ (nonempty (todoist_api_key w) = false ->
        evs = [EvLog (Lit "Todoist API Key missing.")])
    /\ (forall task error,
          fst (create_todoist_task env a w) = Ok (task, error) ->
          error <> None -> task = JNull).
Proof.
  destruct (create_todoist_task_events env a w) as (evs & Hw & _ & H2 & H1 & H0).
  exists evs. split; [done|]. split; [done|]. split; [done|]. split; [done|].
  intros task error Hres.
  destruct (create_todoist_task env a w) as [res w'] eqn:Hc. simpl in Hres.
  subst res. by eapply create_todoist_task_shape.
Qed.

Lemma publish_call_outcome_witness :
  exists evs,
    snd (create_todoist_task Sample.env SameLink.first Sample.idle)
    = set_trace (trace Sample.idle ++ evs) Sample.idle
    /\ (1 <= length (List.filter is_post evs) <= 2)%nat.
Proof.
  destruct (publish_call_outcome Sample.env SameLink.first Sample.idle)
    as (evs & Hw & H2 & H1 & _).
  exists evs. split; [exact Hw|]. split; [|exact H2].
  apply H1; [reflexivity|]. eexists. vm_compute. reflexivity.
Defined.

(** ** The pace of publishing *)

(** When the publishing loop returns, it has paused for half a second
    exactly once per record, also after a record that failed, and never
    anywhere else; it has sent at most two requests per record and, with a
    Todoist key, at least one. *)
Lemma publish_all_pace env total i assignments synced errors w r w' :
  publish_all env total i assignments synced errors w = (Ok r, w') ->
  exists evs,
    w' = set_trace (trace w ++ evs) w
    /\ length (List.filter is_pause evs) = length assignments
    /\ (length (List.filter is_post evs) <= 2 * length assignments)%nat
    /\ (nonempty (todoist_api_key w) = true ->
        (length assignments <= length (List.filter is_post evs))%nat).
Proof.
  revert i synced errors w.
  induction assignments as [|a rest IH]; intros i synced errors w; simpl.
  - intros [= _ <-]. exists []. simpl. rewrite app_nil_r, set_trace_same.
    repeat split; lia.
  - intros (name & w1 & H1 & H)%bind_ok. injection H1 as _ <-.
    apply bind_ok in H as (course_name & w2 & H2 & H). injection H2 as _ <-.
    apply bind_ok in H as (? & w3 & H3 & H). injection H3 as _ <-.
    apply bind_ok in H as ([task error] & w4 & Hcreate & H).
    apply bind_ok in H as ([s e] & w5 & Hstep & H).
    apply bind_ok in H as (? & w6 & H6 & H). injection H6 as _ <-.
    set (w3 := set_trace _ w) in *.
    destruct (create_todoist_task_events env a w3) as (evs & Hw4 & Hq & Hmax & Hmin & _).
    rewrite Hcreate in Hw4, Hmin. simpl in Hw4, Hmin. subst w4.
    assert (exists logs, w5 = set_trace (trace w3 ++ evs ++ logs) w3
                         /\ List.filter is_pause logs = []
                         /\ List.filter is_post logs = []) as (logs & -> & Hl1 & Hl2).
    { destruct error as [error|].
      - apply bind_ok in Hstep as (? & ? & [= _ <-] & [= _ _ <-]).
        eexists [_]. simpl. by rewrite <- app_assoc.
      - exists []. rewrite app_nil_r.
        destruct (Py.truthy task); by injection Hstep as _ _ <-. }
    apply IH in H as (evs' & -> & Hp & Hmax' & Hmin').
    eexists ([_] ++ evs ++ logs ++ [EvSleep HalfSecond] ++ evs')%list.
    split.
    { unfold w3. simpl. rewrite <- !app_assoc. reflexivity. }
    assert (List.filter is_pause evs = []) as Hnp.
    { clear -Hq. induction Hq as [|e0 l He _ IHl]; [done|]. simpl. by rewrite He. }
    rewrite !List.filter_app, !length_app, Hnp, Hl1, Hl2, Hp. simpl.
    split; [done|]. split; [lia|].
    intros Hkey. specialize (Hmin Hkey (ex_intro _ _ eq_refl)).
    specialize (Hmin' Hkey). lia.
Qed.


(** ** Answers without a body, dates that do not parse, broken records *)

(** X17: a task creation that Todoist answers with a success status but
    without a JSON body is logged as created and then returned as failed:
    reading the body raises inside the [try], after the success line was
    written, and the handler turns it into an error message. *)
Theorem created_without_body_counts_as_failed env a w request w0 response :
  nonempty (todoist_api_key w) = true ->
  task_request env (todoist_api_key w) a w = (Ok request, w0) ->
  todoist_post env (count_posts (trace w0)) request = Answered response ->
  error_status response = false ->
  body response = None ->
  exists name,
    create_todoist_task env a w
    = (Ok (JNull, Some (Fmt "Todoist API Error: {}" [TExn JSONDecodeError])),
       set_trace
         (trace w0
          ++ [EvPost request;
              EvLog (Fmt "Successfully created Todoist task for: {}" [TVal name]);
              EvLog (Fmt "Todoist API Error: {}" [TExn JSONDecodeError])])
         w0).
Proof.
  intros Hkey Htask Hfirst Hstatus Hbody.
  assert (exists fields, a = JObj fields) as [fields ->].
  { destruct a; try (by eauto); by compute in Htask. }
  assert ((status_code response =? 429) = false) as Hnot.
  { unfold error_status in Hstatus. apply Z.eqb_neq. intros H. rewrite H in Hstatus.
    done. }
  destruct (extends_run is_log _ w _ _
              (extends_task_request env is_log (fun _ => I) _ _) Htask)
    as (pre & Hw0 & Hpre).
  unfold create_todoist_task, try_except, requests_post, raise_for_status, log,
    emit, modify, bind, read, lift, ret, raise.
  cbv beta iota. rewrite Hkey. change (negb true) with false. cbv beta iota.
  rewrite Htask. cbv beta iota. simpl. rewrite Hfirst, Hnot.
  unfold error_status in Hstatus. rewrite Hstatus. simpl.
  unfold response_json. rewrite Hbody. simpl.
  eexists. rewrite <- !app_assoc. reflexivity.
Qed.

Lemma created_without_body_counts_as_failed_witness :
  exists name w0,
    create_todoist_task NoContent.env SameLink.first Sample.idle
    = (Ok (JNull, Some (Fmt "Todoist API Error: {}" [TExn JSONDecodeError])),
       set_trace
         (trace w0
          ++ [EvPost (SameLink.request "Homework 1");
              EvLog (Fmt "Successfully created Todoist task for: {}" [TVal name]);
              EvLog (Fmt "Todoist API Error: {}" [TExn JSONDecodeError])])
         w0).
Proof.
  destruct (created_without_body_counts_as_failed NoContent.env SameLink.first
              Sample.idle (SameLink.request "Homework 1") Sample.idle
              (mkResponse 204 [] None) eq_refl eq_refl eq_refl eq_refl eq_refl)
    as (name & H).
  exists name, Sample.idle. exact H.
Defined.

(** X18: a due date that does not parse does not stop the publication: the
    problem is logged, and the task is sent without a due date. *)
Theorem unparsable_due_date_is_dropped env d s w :
  nonempty (todoist_api_key w) = true ->
  publishable (JObj d) = true ->
  Py.dict_get d "due_at" = Some (JStr s) ->
  nonempty s = true ->
  iso_date env (PyStr.replace_Z s) = None ->
  exists request task_data tail,
    emitted (create_todoist_task env (JObj d)) w
    = ([EvLog (Fmt "Could not parse due date: {}" [TVal (JStr s)]);
        EvPost request] ++ tail)%list
    /\ json_body request = Some task_data
    /\ due_date task_data = None.
Proof.
  intros Hkey Hp Hdue Hs Hiso.
  assert (exists rid course_name name link,
             task_request env (todoist_api_key w) (JObj d) w
             = (Ok (mkRequest TODOIST_TASKS_URL (task_headers (todoist_api_key w) rid)
                      (Some (mkTaskData (Fmt "[{}] {}" [course_name; name])
                               (Fmt "Link: {}" [link]) None)) 15),
                set_trace (trace w ++ [EvLog (Fmt "Could not parse due date: {}"
                                                  [TVal (JStr s)])]) w))
    as (rid & course_name & name & link & Htask).
  { unfold publishable in Hp. apply andb_true_iff in Hp as [Hh _].
    unfold task_request, request_id, bind, lift.
    destruct (hash_input (JObj d)) as [v|]; [|done].
    unfold rbind, str_hash. rewrite Hh. simpl get_text. cbv beta iota.
    unfold due_string_of, bind, lift. simpl Py.get. rewrite Hdue. cbv beta iota.
    change (Py.truthy (JStr s)) with (nonempty s). rewrite Hs. cbv beta iota.
    rewrite Hiso. simpl. eauto 10. }
  set (request := mkRequest _ _ _ _) in Htask.
  set (w0 := set_trace _ w) in Htask.
  assert (exists tail,
            snd (create_todoist_task env (JObj d) w)
            = set_trace (trace w0 ++ EvPost request :: tail) w0) as (tail & Hw').
  { unfold create_todoist_task. rewrite bind_read, Hkey.
    change (negb true) with false. cbv iota. unfold bind at 1. rewrite Htask.
    match goal with
    | |- context [try_except ?body ?handler w0] =>
        apply (try_posting_first env body handler request _ eq_refl)
    end.
    - intros response.
      apply extends_bind.
      + destruct (status_code response =? 429); [|apply extends_ret].
        extends_auto; first [by apply extends_requests_post
                            | by apply extends_time_sleep].
      + intros response'.
        extends_auto; by apply extends_raise_for_status.
    - intros e. extends_auto. }
  exists request. eexists. exists tail.
  split; [|by split].
  apply emitted_grows. rewrite Hw'. unfold w0. simpl. by rewrite <- app_assoc.
Qed.

Lemma unparsable_due_date_is_dropped_witness :
  exists request task_data tail,
    emitted (create_todoist_task HttpDate.env
               (JObj [("name", JStr "Essay"); ("due_at", JStr "tomorrow")]))
      Sample.idle
    = ([EvLog (Fmt "Could not parse due date: {}" [TVal (JStr "tomorrow")]);
        EvPost request] ++ tail)%list
    /\ json_body request = Some task_data
    /\ due_date task_data = None.
Proof.
  apply (unparsable_due_date_is_dropped HttpDate.env
           [("name", JStr "Essay"); ("due_at", JStr "tomorrow")] "tomorrow"
           Sample.idle); reflexivity.
Defined.


Lemma enriched_of_submitted course_name a b :
  is_submitted a = Ok b ->
  exists r, enriched course_name a = Ok r
            /\ (b = true -> r = None)
            /\ (b = false -> exists x, r = Some x
                                        /\ Py.setitem a "course_name" course_name = Ok x).
Proof.
  intros Hs. destruct a as [| | | | |d]; try (by compute in Hs).
  unfold enriched. rewrite Hs. destruct b; simpl.
  - exists None. repeat split; done.
  - eexists. split; [done|]. split; [done|]. eauto.
Qed.

Lemma survivors_truncated course_name good bad rest e :
  Forall (fun a => exists b, is_submitted a = Ok b) good ->
  is_submitted bad = Raise e ->
  survivors course_name (good ++ bad :: rest) = survivors course_name good.
Proof.
  intros Hgood Hbad. induction Hgood as [|a good (b & Hb) _ IH]; simpl.
  - unfold enriched. by rewrite Hbad.
  - destruct (enriched_of_submitted course_name a b Hb) as (r & -> & _).
    destruct r; by rewrite IH.
Qed.

Lemma survivors_complete course_name good a x :
  Forall (fun a => exists b, is_submitted a = Ok b) good ->
  In a good ->
  is_submitted a = Ok false ->
  Py.setitem a "course_name" course_name = Ok x ->
  In x (survivors course_name good).
Proof.
  intros Hgood. induction Hgood as [|a0 good (b & Hb) _ IH]; [done|].
  intros [<-|Hin] Hs Hx; simpl.
  - destruct (enriched_of_submitted course_name a0 false Hs) as (r & -> & _ & Hr).
    destruct (Hr eq_refl) as (x' & -> & Hx'). left. congruence.
  - destruct (enriched_of_submitted course_name a0 b Hb) as (r & -> & _).
    destruct r; [right|]; by apply IH.
Qed.

(** X19: one broken record hides the rest of its course.  When the loop
    over the assignments of a course raises on a record -- a record that is
    not an object, or whose submission is neither empty nor an object --
    the collector keeps what it had collected from the course, drops every
    later record of the course, also the unsubmitted ones, and still
    returns without an error. *)
Theorem broken_record_hides_the_rest env w c course_name good bad rest e :
  nonempty (canvas_url w) = true ->
  nonempty (canvas_api_key w) = true ->
  fetched env (with_slash (canvas_url w)) (bearer (canvas_api_key w)) c
  = Ok (course_name, (good ++ bad :: rest)%list) ->
  Forall (fun a => exists b, is_submitted a = Ok b) good ->
  is_submitted bad = Raise e ->
  exists out,
    fst (get_canvas_assignments_for_courses env [c] w) = Ok (Some out, None)
    /\ forall x, In x out <->
         exists a, In a good
                   /\ is_submitted a = Ok false
                   /\ Py.setitem a "course_name" course_name = Ok x.
Proof.
  intros Hu Hk Hf Hgood Hbad.
  exists (survivors course_name good). split.
  - rewrite (collector_result env [c] w Hu Hk). simpl. rewrite app_nil_r.
    unfold course_output. rewrite Hf.
    by rewrite (survivors_truncated course_name good bad rest e Hgood Hbad).
  - intros x. split.
    + by intros (a & Ha & Hs & Hx)%survivors_spec; eauto.
    + intros (a & Ha & Hs & Hx). by eapply survivors_complete.
Qed.

Lemma broken_record_hides_the_rest_witness :
  exists out,
    fst (get_canvas_assignments_for_courses BrokenRecord.env [KInt 101]
           Sample.idle) = Ok (Some out, None)
    /\ length out = 1%nat.
Proof.
  destruct (broken_record_hides_the_rest BrokenRecord.env Sample.idle (KInt 101)
              (JStr "Algebra") BrokenRecord.good (JStr "maintenance")
              BrokenRecord.rest AttributeError eq_refl eq_refl eq_refl)
    as (out & Hout & _).
  - repeat constructor. by exists false.
  - reflexivity.
  - exists out. split; [exact Hout|].
    assert (fst (get_canvas_assignments_for_courses BrokenRecord.env [KInt 101]
                   Sample.idle)
            = Ok (Some [JObj [("id", JInt 1); ("name", JStr "Homework 1");
                              ("html_url", JStr "https://canvas.example.edu/a/1");
                              ("submission", JNull);
                              ("course_name", JStr "Algebra")]], None)) as H.
    { vm_compute. reflexivity. }
    rewrite H in Hout. by injection Hout as <-.
Defined.


Lemma filter_none (c : Event -> bool) l :
  Forall (fun e => c e = false) l -> List.filter c l = [].
Proof. induction 1 as [|e l He _ IH]; [done|]. simpl. by rewrite He. Qed.

(** X20: a sync that returns has attempted every record it collected, at a
    steady pace: it paused for half a second exactly once per collected
    record, also after a record that failed, and nowhere else; it sent
    Todoist at least one request per record and at most two. *)
Theorem sync_attempts_every_record env w w' :
  sync_starts w = true ->
  run_sync_process env w = (Ok tt, w') ->
  length (List.filter is_pause (emitted (run_sync_process env) w))
  = length (collected env w)
  /\ (length (collected env w)
      <= length (List.filter is_post (emitted (run_sync_process env) w))
      <= 2 * length (collected env w))%nat.
Proof.
  intros Hs Hrun.
  destruct (sync_collects env w Hs)
    as (saved & evs & w3 & Hw3 & Hsaved & Ht3 & Hevs & _ & _ & _ & _ & Hk3).
  pose proof (sync_starts_true w Hs) as (_ & _ & _ & Hkey & _).
  assert (Forall (fun e => is_pause e = false /\ is_post e = false) saved) as Hsv.
  { rewrite <- Hsaved. unfold emitted, save_course_selection.
    destruct (disk_writable env); simpl;
      rewrite <- app_assoc, drop_app_length; by repeat constructor. }
  assert (Forall (fun e => is_pause e = false /\ is_post e = false) evs) as Hev.
  { eapply Forall_impl; [exact Hevs|]. by intros [] []. }
  assert (forall tail,
            trace w' = (trace w3 ++ tail)%list ->
            List.filter is_pause (emitted (run_sync_process env) w)
            = List.filter is_pause tail
            /\ List.filter is_post (emitted (run_sync_process env) w)
               = List.filter is_post tail) as Htail.
  { intros tail Ht. unfold emitted. rewrite Hrun. simpl.
    rewrite Ht, Ht3, <- !app_assoc, drop_app_length, !List.filter_app.
    rewrite (filter_none is_pause saved), (filter_none is_post saved),
      (filter_none is_pause evs), (filter_none is_post evs); [done|..];
      (eapply Forall_impl; [eassumption|]); by intros ? []. }
  rewrite (run_sync_process_steps env w Hs), Hw3 in Hrun.
  destruct (collected env w) as [|a l] eqn:Hcol.
  - unfold publish_collected, finish_sync, messagebox, log, emit, modify, bind in Hrun.
    simpl in Hrun. injection Hrun as <-.
    destruct (Htail [EvLog (Lit "No upcoming, unsubmitted assignments found in selected Canvas courses.");
                     EvDialog (showinfo "Sync Complete"
                       (Lit "No new assignments found in selected courses to sync."))])
      as [-> ->].
    { simpl. by rewrite <- app_assoc. }
    simpl. lia.
  - unfold publish_collected in Hrun.
    apply create_tasks_run in Hrun as (synced & errors & w5 & Hpub & Hfin).
    apply publish_all_pace in Hpub as (evsP & -> & Hp1 & Hp2 & Hp3).
    destruct (sync_finished_run synced errors
                (set_trace
                   (trace (set_trace (trace w3 ++ [EvLog (Lit "Note: Duplicate checking relies on Todoist idempotency key.")]) w3)
                    ++ evsP)
                   (set_trace (trace w3 ++ [EvLog (Lit "Note: Duplicate checking relies on Todoist idempotency key.")]) w3)))
      as (logs & Hfin' & Hlogs).
    rewrite Hfin' in Hfin. injection Hfin as <-.
    destruct (Htail ([EvLog (Lit "Note: Duplicate checking relies on Todoist idempotency key.")]
                     ++ evsP ++ logs
                     ++ [EvDialog (final_report synced errors)])%list)
      as [-> ->].
    { simpl. by rewrite <- !app_assoc. }
    rewrite !List.filter_app, !length_app.
    rewrite (filter_none is_pause logs), (filter_none is_post logs);
      [|eapply Forall_impl; [exact Hlogs|]; by intros []..].
    simpl. rewrite Hp1. specialize (Hp3 ltac:(simpl; by rewrite Hk3)).
    simpl in *. lia.
Qed.

Lemma sync_attempts_every_record_witness :
  length (List.filter is_pause (emitted (run_sync_process Sample.env) Sample.idle))
  = length (collected Sample.env Sample.idle).
Proof.
  apply (sync_attempts_every_record Sample.env Sample.idle
           (snd (run_sync_process Sample.env Sample.idle))).
  - vm_compute. reflexivity.
  - vm_compute. reflexivity.
Defined.


(** ** The credentials *)

#[global] Instance vault_lawful : LawfulKeyring Vault.t.
Proof.
  assert (forall service user k, Vault.lookup service user (Vault.remove service user k) = None)
    as Hgone.
  { intros service user k. induction k as [|[[s u] p] k IH]; [done|]. simpl.
    destruct (String.eqb s service && String.eqb u user) eqn:E; [done|].
    simpl. by rewrite E. }
  assert (forall service user user' k, user' <> user ->
            Vault.lookup service user' (Vault.remove service user k)
            = Vault.lookup service user' k) as Hother.
  { intros service user user' k Hne. induction k as [|[[s u] p] k IH]; [done|].
    simpl. destruct (String.eqb s service && String.eqb u user) eqn:E; simpl.
    - apply andb_true_iff in E as [_ Eu%String.eqb_eq]. subst u.
      assert (String.eqb user user' = false) as ->.
      { apply String.eqb_neq. congruence. }
      by rewrite andb_false_r.
    - by rewrite IH. }
  split.
  - intros service user password k k' [= <-]. simpl.
    by rewrite !String.eqb_refl.
  - intros service user password k k' user' [= <-] Hne. simpl.
    assert (String.eqb user user' = false) as ->.
    { apply String.eqb_neq. congruence. }
    rewrite andb_false_r. f_equal. by apply Hother.
Qed.

Section CredentialFacts.

Context {K : Type} `{Keyring K}.

(** Loading the credentials, run: the three reads, then the three
    variables. *)
Lemma load_credentials_run (d : Desk K) :
  match get_password KEYRING_SERVICE_NAME KEYRING_USER_CANVAS_URL (keyring d),
        get_password KEYRING_SERVICE_NAME KEYRING_USER_CANVAS_KEY (keyring d),
        get_password KEYRING_SERVICE_NAME KEYRING_USER_TODOIST_KEY (keyring d) with
  | Done c_url, Done c_key, Done t_key =>
      load_credentials d
      = (Done tt,
         mkDesk (set_todoist_api_key (stored_or t_key (todoist_api_key (app d)))
                   (set_canvas_api_key (stored_or c_key (canvas_api_key (app d)))
                      (set_canvas_url (stored_or c_url (canvas_url (app d)))
                         (app d))))
                (keyring d) (stdout d))
  | Failed e, _, _ | Done _, Failed e, _ | Done _, Done _, Failed e =>
      load_credentials d
      = (Done tt,
         mkDesk (app d) (keyring d)
                (stdout d ++ [Fmt "Warning: Could not load credentials: {}" [TStr e]]))
  end.
Proof.
  unfold load_credentials, dtry, dbind, keyring_get.
  destruct (get_password _ KEYRING_USER_CANVAS_URL _) as [c_url|e]; [|done].
  destruct (get_password _ KEYRING_USER_CANVAS_KEY _) as [c_key|e]; [|done].
  destruct (get_password _ KEYRING_USER_TODOIST_KEY _) as [t_key|e]; [|done].
  destruct d as [[u k t ? ? ? ? ? ? ? ? ?] kr out].
  unfold set_if_stored, stored_or, on_app, dret, modify.
  destruct c_url as [s1|]; [destruct (nonempty s1)|];
    (destruct c_key as [s2|]; [destruct (nonempty s2)|]);
    (destruct t_key as [s3|]; [destruct (nonempty s3)|]); reflexivity.
Qed.

Lemma stored_or_nonempty v old :
  nonempty old = true -> nonempty (stored_or v old) = true.
Proof.
  unfold stored_or. destruct v as [s|]; [|done].
  by destruct (nonempty s) eqn:E.
Qed.

(** X21: loading the credentials never raises and never writes to the
    keyring, the log or a dialog.  It is all or nothing: when one of the
    three reads fails, no variable is changed and a warning is printed.  A
    variable is only ever set to a stored, non-empty value, so loading never
    blanks a field. *)
Theorem load_credentials_outcome (d : Desk K) :
  exists d',
    load_credentials d = (Done tt, d')
    /\ keyring d' = keyring d
    /\ trace (app d') = trace (app d)
    /\ (nonempty (canvas_url (app d)) = true ->
        nonempty (canvas_url (app d')) = true)
    /\ (nonempty (canvas_api_key (app d)) = true ->
        nonempty (canvas_api_key (app d')) = true)
    /\ (nonempty (todoist_api_key (app d)) = true ->
        nonempty (todoist_api_key (app d')) = true)
    /\ (forall user e,
          In user [KEYRING_USER_CANVAS_URL; KEYRING_USER_CANVAS_KEY;
                   KEYRING_USER_TODOIST_KEY] ->
          get_password KEYRING_SERVICE_NAME user (keyring d) = Failed e ->
          app d' = app d /\ exists e', stdout d' = (stdout d ++
                     [Fmt "Warning: Could not load credentials: {}" [TStr e']])%list)
    /\ (forall c_url c_key t_key,
          get_password KEYRING_SERVICE_NAME KEYRING_USER_CANVAS_URL (keyring d)
          = Done c_url ->
          get_password KEYRING_SERVICE_NAME KEYRING_USER_CANVAS_KEY (keyring d)
          = Done c_key ->
          get_password KEYRING_SERVICE_NAME KEYRING_USER_TODOIST_KEY (keyring d)
          = Done t_key ->
          stdout d' = stdout d
          /\ canvas_url (app d') = stored_or c_url (canvas_url (app d))
          /\ canvas_api_key (app d') = stored_or c_key (canvas_api_key (app d))
          /\ todoist_api_key (app d') = stored_or t_key (todoist_api_key (app d))).
Proof.
  pose proof (load_credentials_run d) as Hrun.
  destruct (get_password _ KEYRING_USER_CANVAS_URL _) as [c_url|e1] eqn:E1.
  2: { eexists. split; [exact Hrun|]. simpl. repeat (split; [done|]). split.
       - intros _ _ _ _. eauto.
       - intros ? ? ? [=]. }
  destruct (get_password _ KEYRING_USER_CANVAS_KEY _) as [c_key|e2] eqn:E2.
  2: { eexists. split; [exact Hrun|]. simpl. repeat (split; [done|]). split.
       - intros _ _ _ _. eauto.
       - intros ? ? ? _ [=]. }
  destruct (get_password _ KEYRING_USER_TODOIST_KEY _) as [t_key|e3] eqn:E3.
  2: { eexists. split; [exact Hrun|]. simpl. repeat (split; [done|]). split.
       - intros _ _ _ _. eauto.
       - intros ? ? ? _ _ [=]. }
  eexists. split; [exact Hrun|]. simpl.
  split; [done|]. split; [done|].
  split; [apply stored_or_nonempty|].
  split; [apply stored_or_nonempty|].
  split; [apply stored_or_nonempty|]. split.
  - intros user e [<-|[<-|[<-|[]]]]; congruence.
  - intros ? ? ? [= <-] [= <-] [= <-]. done.
Qed.

End CredentialFacts.

Lemma load_credentials_outcome_witness :
  exists d',
    load_credentials (mkDesk Vault.blank Vault.full []) = (Done tt, d')
    /\ canvas_url (app d') = "https://canvas.example.edu"
    /\ canvas_api_key (app d') = "canvas-key"
    /\ todoist_api_key (app d') = "todoist-key".
Proof.
  destruct (load_credentials_outcome (mkDesk Vault.blank Vault.full []))
    as (d' & Hrun & _ & _ & _ & _ & _ & _ & Hok).
  destruct (Hok (Some "https://canvas.example.edu") (Some "canvas-key")
              (Some "todoist-key") eq_refl eq_refl eq_refl)
    as (_ & Hu & Hk & Ht).
  exists d'. split; [exact Hrun|]. split; [exact Hu|]. split; [exact Hk | exact Ht].
Defined.


Section SavingFacts.

Context {K : Type} `{Keyring K}.

Lemma shown_grows (d d' : Desk K) evs :
  trace (app d') = (trace (app d) ++ evs)%list -> shown d d' = evs.
Proof. intros Ht. unfold shown. by rewrite Ht, drop_app_length. Qed.

(** Saving the credentials, run. *)
Lemma save_credentials_run (d : Desk K) :
  credentials_complete (app d) = true ->
  (exists k1 k2 k3,
      set_password KEYRING_SERVICE_NAME KEYRING_USER_CANVAS_URL
        (canvas_url (app d)) (keyring d) = (Done tt, k1)
      /\ set_password KEYRING_SERVICE_NAME KEYRING_USER_CANVAS_KEY
           (canvas_api_key (app d)) k1 = (Done tt, k2)
      /\ set_password KEYRING_SERVICE_NAME KEYRING_USER_TODOIST_KEY
           (todoist_api_key (app d)) k2 = (Done tt, k3)
      /\ save_credentials d
         = (Done tt,
            mkDesk (set_trace
                      (trace (app d)
                       ++ [EvLog (Lit "Canvas/Todoist credentials saved securely.");
                           saved_notice]) (app d))
                   k3 (stdout d)))
  \/ (exists e k',
         save_credentials d
         = (Done tt,
            mkDesk (set_trace
                      (trace (app d)
                       ++ [EvLog (Fmt "Error saving credentials: {}" [TStr e]);
                           EvDialog (showerror "Error"
                             (Fmt "Could not save credentials securely:\n{}" [TStr e]))])
                      (app d))
                   k' (stdout d))).
Proof.
  unfold credentials_complete.
  intros [[Hu Hk]%andb_true_iff Ht]%andb_true_iff.
  unfold save_credentials, dbind, read_app. rewrite Hu, Hk, Ht.
  change (negb true || negb true || negb true) with false. cbv iota.
  unfold dtry, dbind, keyring_set, on_app, log, messagebox, emit, modify.
  destruct (set_password _ KEYRING_USER_CANVAS_URL _ _) as [[u1|e] k1] eqn:E1;
    [destruct u1|].
  2: { right. exists e, k1. simpl. by rewrite <- app_assoc. }
  simpl.
  destruct (set_password _ KEYRING_USER_CANVAS_KEY _ _) as [[u2|e] k2] eqn:E2;
    [destruct u2|].
  2: { right. exists e, k2. simpl. by rewrite <- app_assoc. }
  simpl.
  destruct (set_password _ KEYRING_USER_TODOIST_KEY _ _) as [[u3|e] k3] eqn:E3;
    [destruct u3|].
  2: { right. exists e, k3. simpl. by rewrite <- app_assoc. }
  left. exists k1, k2, k3. simpl. rewrite <- app_assoc. done.
Qed.


(** X23: credentials whose saving was reported as a success are the ones a
    later load finds: on a keyring that gives back what was stored, loading
    from the keyring the save left sets the three variables to the values
    that were saved, whatever the variables held before. *)
Theorem saved_credentials_load_back `{!LawfulKeyring K} (d d0 : Desk K) :
  In saved_notice (shown d (snd (save_credentials d))) ->
  keyring d0 = keyring (snd (save_credentials d)) ->
  exists d1,
    load_credentials d0 = (Done tt, d1)
    /\ canvas_url (app d1) = canvas_url (app d)
    /\ canvas_api_key (app d1) = canvas_api_key (app d)
    /\ todoist_api_key (app d1) = todoist_api_key (app d)
    /\ credentials_complete (app d1) = true
    /\ stdout d1 = stdout d0.
Proof.
  intros Hshown Hkr.
  destruct (credentials_complete (app d)) eqn:Hc.
  2: { exfalso. revert Hshown. unfold credentials_complete in Hc.
       unfold shown, save_credentials, dbind, read_app.
       assert (negb (nonempty (canvas_url (app d)))
               || negb (nonempty (canvas_api_key (app d)))
               || negb (nonempty (todoist_api_key (app d))) = true) as ->.
       { destruct (nonempty (canvas_url (app d))),
           (nonempty (canvas_api_key (app d))),
           (nonempty (todoist_api_key (app d))); done. }
       simpl. rewrite drop_app_length. by intros [|[]]. }
  destruct (save_credentials_run d Hc)
    as [(k1 & k2 & k3 & E1 & E2 & E3 & Hrun)|(e & k' & Hrun)];
    rewrite Hrun in Hshown, Hkr; simpl in Hkr.
  2: { exfalso. revert Hshown. unfold shown. simpl. rewrite drop_app_length.
       by intros [|[|[]]]. }
  assert (get_password KEYRING_SERVICE_NAME KEYRING_USER_TODOIST_KEY k3
          = Done (Some (todoist_api_key (app d)))) as G3.
  { by eapply get_after_set. }
  assert (get_password KEYRING_SERVICE_NAME KEYRING_USER_CANVAS_KEY k3
          = Done (Some (canvas_api_key (app d)))) as G2.
  { rewrite (get_after_set_other _ _ _ _ _ KEYRING_USER_CANVAS_KEY E3); [|done].
    by eapply get_after_set. }
  assert (get_password KEYRING_SERVICE_NAME KEYRING_USER_CANVAS_URL k3
          = Done (Some (canvas_url (app d)))) as G1.
  { rewrite (get_after_set_other _ _ _ _ _ KEYRING_USER_CANVAS_URL E3); [|done].
    rewrite (get_after_set_other _ _ _ _ _ KEYRING_USER_CANVAS_URL E2); [|done].
    by eapply get_after_set. }
  pose proof (load_credentials_run d0) as Hload.
  rewrite Hkr, G1, G2, G3 in Hload.
  unfold credentials_complete in Hc.
  apply andb_true_iff in Hc as [[Hu Hk]%andb_true_iff Ht].
  unfold stored_or in Hload. rewrite Hu, Hk, Ht in Hload.
  eexists. split; [exact Hload|]. simpl.
  unfold credentials_complete. simpl. by rewrite Hu, Hk, Ht.
Qed.

End SavingFacts.


Lemma saved_credentials_load_back_witness :
  exists d1,
    load_credentials
      (mkDesk Vault.blank (keyring (snd (save_credentials (Vault.desk Vault.empty)))) [])
    = (Done tt, d1)
    /\ canvas_url (app d1) = "https://canvas.example.edu"
    /\ canvas_api_key (app d1) = "canvas-key"
    /\ todoist_api_key (app d1) = "todoist-key".
Proof.
  destruct (saved_credentials_load_back (Vault.desk Vault.empty)
              (mkDesk Vault.blank
                 (keyring (snd (save_credentials (Vault.desk Vault.empty)))) []))
    as (d1 & H1 & H2 & H3 & H4 & _).
  - vm_compute. tauto.
  - reflexivity.
  - exists d1. split; [exact H1|]. split; [exact H2|]. split; [exact H3 | exact H4].
Defined.


Section ClearingFacts.

Context {K : Type} `{Keyring K}.
Variable askyesno : string -> string -> bool.

(** X24: clearing the credentials does nothing when the operator declines.
    When the operator confirms, it never raises, and the three fields are
    emptied only if the three entries were deleted from the keyring: when
    one deletion fails the error is reported and the fields keep their
    values, although the entries deleted before the failure are gone.
    After a clearing that was reported as done, neither a sync nor a course
    fetch starts. *)
Theorem clear_credentials_outcome (d : Desk K) :
  exists d',
    clear_local_credentials askyesno d = (Done tt, d')
    /\ stdout d' = stdout d
    /\ (confirmed askyesno = false -> d' = d)
    /\ (confirmed askyesno = true ->
        (canvas_url (app d') = "" /\ canvas_api_key (app d') = ""
         /\ todoist_api_key (app d') = ""
         /\ shown d d' = [EvLog (Lit "Cleared local credentials."); cleared_notice]
         /\ exists k1 k2,
              delete_password KEYRING_SERVICE_NAME KEYRING_USER_CANVAS_URL
                (keyring d) = (Done tt, k1)
              /\ delete_password KEYRING_SERVICE_NAME KEYRING_USER_CANVAS_KEY k1
                 = (Done tt, k2)
              /\ delete_password KEYRING_SERVICE_NAME KEYRING_USER_TODOIST_KEY k2
                 = (Done tt, keyring d'))
        \/ (exists e,
              app d'
              = set_trace
                  (trace (app d)
                   ++ [EvLog (Fmt "Error clearing credentials: {}" [TStr e]);
                       EvDialog (showerror "Error"
                         (Fmt "Could not clear credentials:\n{}" [TStr e]))])
                  (app d)))
    /\ (In cleared_notice (shown d d') ->
        sync_starts (app d') = false /\ fetch_starts (app d') = false).
Proof.
  unfold clear_local_credentials.
  destruct (confirmed askyesno) eqn:Hyes.
  2: { change (negb false) with true. cbv iota. exists d. split; [done|]. split; [done|]. split; [done|]. split; [done|].
       unfold shown. rewrite drop_all. by intros []. }
  change (negb true) with false. cbv iota.
  unfold dtry, dbind, keyring_delete, on_app, log, messagebox, emit, modify.
  destruct (delete_password _ KEYRING_USER_CANVAS_URL _) as [[u1|e] k1] eqn:E1.
  2: { eexists. split; [reflexivity|]. simpl. split; [done|]. split; [done|].
       split.
       - intros _. right. exists e. by rewrite <- app_assoc.
       - unfold shown. simpl. rewrite <- app_assoc, drop_app_length.
         by intros [|[|[]]]. }
  destruct u1. simpl.
  destruct (delete_password _ KEYRING_USER_CANVAS_KEY _) as [[u2|e] k2] eqn:E2.
  2: { eexists. split; [reflexivity|]. simpl. split; [done|]. split; [done|].
       split.
       - intros _. right. exists e. by rewrite <- app_assoc.
       - unfold shown. simpl. rewrite <- app_assoc, drop_app_length.
         by intros [|[|[]]]. }
  destruct u2. simpl.
  destruct (delete_password _ KEYRING_USER_TODOIST_KEY _) as [[u3|e] k3] eqn:E3.
  2: { eexists. split; [reflexivity|]. simpl. split; [done|]. split; [done|].
       split.
       - intros _. right. exists e. by rewrite <- app_assoc.
       - unfold shown. simpl. rewrite <- app_assoc, drop_app_length.
         by intros [|[|[]]]. }
  destruct u3. simpl.
  eexists. split; [reflexivity|]. simpl. split; [done|]. split; [done|].
  split.
  - intros _. left. split; [done|]. split; [done|]. split; [done|]. split.
    + unfold shown. simpl. by rewrite <- app_assoc, drop_app_length.
    + by exists k1, k2.
  - intros _. unfold sync_starts, fetch_starts, credentials_complete. simpl.
    split; by rewrite !andb_false_r.
Qed.

(** X25: a window that was just opened cannot sync before the courses were
    fetched, whatever the keyring and the selection file hold: no course is
    checked in it, so a sync only tells the operator why it does not start,
    sends nothing and leaves the selection file as it found it. *)
Theorem fresh_window_cannot_sync (k : K) (file : FileState) env :
  trace (app (__init__ k file))
  = [EvLog (Lit "Application started. Fetch courses or enter credentials.")]
  /\ config_file (app (__init__ k file)) = file
  /\ checked (app (__init__ k file)) = ∅
  /\ sync_starts (app (__init__ k file)) = false
  /\ exists notices,
       run_sync_process env (app (__init__ k file))
       = (Ok tt, set_trace (trace (app (__init__ k file)) ++ notices)
                   (app (__init__ k file)))
       /\ Forall is_notice notices.
Proof.
  assert (trace (app (__init__ k file))
          = [EvLog (Lit "Application started. Fetch courses or enter credentials.")]
          /\ config_file (app (__init__ k file)) = file
          /\ course_checkbox_vars (app (__init__ k file)) = []
          /\ is_syncing (app (__init__ k file)) = false) as (Ht & Hf & Hv & Hs).
  { unfold __init__, dbind.
    match goal with
    | |- context [load_credentials ?d0] =>
        pose proof (load_credentials_run d0) as Hrun;
        destruct (load_credentials d0) as [r d1]
    end.
    simpl keyring in Hrun. simpl app in Hrun. simpl stdout in Hrun.
    destruct (get_password _ KEYRING_USER_CANVAS_URL k) as [c_url|e];
      [|by injection Hrun as -> ->].
    destruct (get_password _ KEYRING_USER_CANVAS_KEY k) as [c_key|e];
      [|by injection Hrun as -> ->].
    destruct (get_password _ KEYRING_USER_TODOIST_KEY k) as [t_key|e];
      by injection Hrun as -> ->. }
  assert (checked (app (__init__ k file)) = ∅) as Hc.
  { unfold checked. by rewrite Hv. }
  assert (sync_starts (app (__init__ k file)) = false) as Hn.
  { unfold sync_starts. rewrite Hc. rewrite bool_decide_eq_true_2 by done.
    by rewrite andb_false_r. }
  split; [done|]. split; [done|]. split; [done|]. split; [done|].
  destruct (sync_refused env _ Hn) as (notices & Hrun & Hnot & _).
  by exists notices.
Qed.

End ClearingFacts.

Lemma clear_credentials_outcome_witness :
  exists d',
    clear_local_credentials (fun _ _ => true) (Vault.desk Vault.full)
    = (Done tt, d')
    /\ sync_starts (app d') = false
    /\ fetch_starts (app d') = false.
Proof.
  destruct (clear_credentials_outcome (fun _ _ => true) (Vault.desk Vault.full))
    as (d' & Hrun & _ & _ & _ & Hdone).
  exists d'. split; [exact Hrun|]. apply Hdone.
  assert (d' = snd (clear_local_credentials (fun _ _ => true)
                      (Vault.desk Vault.full))) as ->.
  { by rewrite Hrun. }
  vm_compute. tauto.
Defined.


(** ** The launchers and the in-flight flag *)

Lemma run_sync_process_parts env w :
  run_sync_process env w
  = (let* selected := sync_guard env in
     match selected with
     | Some selected_course_ids => sync_run env selected_course_ids
     | None => ret tt
     end) w.
Proof.
  unfold run_sync_process, sync_guard, sync_run, get_selected_courses_from_gui,
    bind, read, ret.
  destruct (is_syncing w); [done|].
  destruct (negb (nonempty (canvas_url w)) || negb (nonempty (canvas_api_key w))
            || negb (nonempty (todoist_api_key w))); [done|].
  destruct (bool_decide _); [done|].
  pose proof (save_course_selection_ok env
                (list_to_set (map fst (List.filter snd (course_checkbox_vars w)))) w)
    as Hok.
  destruct (save_course_selection env _ w) as [r w1]. simpl in Hok. subst r.
  done.
Qed.

Lemma sync_guard_passes env w :
  sync_starts w = true ->
  sync_guard env w
  = (Ok (Some (checked w)), snd (save_course_selection env (checked w) w)).
Proof.
  intros (Hs & Hu & Hk & Ht & Hc)%sync_starts_true.
  unfold sync_guard. rewrite bind_read, Hs. cbv iota.
  rewrite !bind_read, Hu, Hk, Ht.
  change (negb true || negb true || negb true) with false. cbv beta iota.
  unfold get_selected_courses_from_gui.
  unfold bind at 1. rewrite bind_read. unfold ret at 1. fold (checked w).
  rewrite (bool_decide_eq_false_2 _ Hc).
  by rewrite bind_save_course_selection.
Qed.

(** X26: the in-flight flag of the sync is tested first and set later: the
    saving of the selection lies between the test and the setting.  After
    the first part of a sync that starts, the flag is still clear, so a
    second launch is not refused and the sync it starts passes its own
    test; only once the first sync has set the flag is a launch refused.
    The launchers test the flag and never set it. *)
Theorem launch_between_test_and_flag env w :
  sync_starts w = true ->
  fst (sync_guard env w) = Ok (Some (checked w))
  /\ is_syncing (snd (sync_guard env w)) = false
  /\ sync_in_thread env (snd (sync_guard env w))
     = (Ok (Some (run_sync_process env)), snd (sync_guard env w))
  /\ sync_starts (snd (sync_guard env w)) = true
  /\ run_sync_process env w = sync_run env (checked w) (snd (sync_guard env w))
  /\ fst (sync_in_thread env
            (snd (start_sync (checked w) (snd (sync_guard env w))))) = Ok None.
Proof.
  intros Hs. pose proof (sync_starts_true w Hs) as (Hf & Hu & Hk & Ht & Hc).
  rewrite (run_sync_process_parts env w).
  unfold bind at 1. rewrite (sync_guard_passes env w Hs). simpl fst. simpl snd.
  set (w1 := snd (save_course_selection env (checked w) w)).
  assert (is_syncing w1 = is_syncing w /\ canvas_url w1 = canvas_url w
          /\ canvas_api_key w1 = canvas_api_key w
          /\ todoist_api_key w1 = todoist_api_key w
          /\ course_checkbox_vars w1 = course_checkbox_vars w)
    as (E1 & E2 & E3 & E4 & E5).
  { unfold w1, save_course_selection. by destruct (disk_writable env). }
  assert (is_syncing w1 = false /\ sync_starts w1 = true) as [Hf1 Hs1].
  { split; [congruence|].
    unfold sync_starts, credentials_complete, checked in Hs |- *.
    by rewrite E1, E2, E3, E4, E5. }
  split; [done|]. split; [done|]. split.
  { unfold sync_in_thread. by rewrite bind_read, Hf1. }
  split; [done|]. split; [done|]. done.
Qed.

Lemma launch_between_test_and_flag_witness :
  sync_in_thread Sample.env (snd (sync_guard Sample.env Sample.idle))
  = (Ok (Some (run_sync_process Sample.env)), snd (sync_guard Sample.env Sample.idle))
  /\ sync_starts (snd (sync_guard Sample.env Sample.idle)) = true.
Proof.
  destruct (launch_between_test_and_flag Sample.env Sample.idle)
    as (_ & _ & H1 & H2 & _).
  - vm_compute. reflexivity.
  - split; [exact H1 | exact H2].
Defined.

(** A second sync that runs between the two parts of a first one: both
    publish the two open assignments. *)
Example two_syncs_publish_twice :
  count_posts
    (trace (snd (sync_run Sample.env (checked Sample.idle)
                   (snd (run_sync_process Sample.env
                           (snd (sync_guard Sample.env Sample.idle)))))))
  = 4%nat.
Proof. vm_compute. reflexivity. Qed.
